(** * The incremental collection engine of the Trustpilot scraper

    A shallow embedding of the identity keyer, the filter chain, the page
    signature tracker, the termination rules and the collection loop of

      - [trustpilot_scraper.py]            (module [Original]),
      - [trustpilot_scraper_dupefix.py]    (module [Dupefix]),
      - [sortingapp/app/scrape_reviews.py] (module [SortingApp]),
      - [dedupe_results.py]                (module [Offline]),

    together with the properties the specification states about them.

    Python [str] values are modelled by [string]; a character stands for
    the code point of the same number (U+0000 to U+00FF).  Sets are
    [gset], dictionaries are [gmap]. *)

From Stdlib Require Import ZArith NArith Ascii String List Bool Lia.
From stdpp Require Import base decidable option list gmap strings.

Local Open Scope string_scope.

(** ** Python string operations *)

Module PyStr.

(** [str.isspace] on one character, for the code points below 256:
    TAB, LF, VT, FF, CR, the separators FS, GS, RS, US, the space,
    NEL and the no-break space. *)
Definition isspace (c : ascii) : bool :=
  let n := N_of_ascii c in
  ((9 <=? n) && (n <=? 13) || (28 <=? n) && (n <=? 32)
   || (n =? 133) || (n =? 160))%N.

(** [bool(s)]: a string is true when it is not empty. *)
Definition truthy (s : string) : bool :=
  match s with
  | EmptyString => false
  | String _ _ => true
  end.

Fixpoint lstrip (s : string) : string :=
  match s with
  | EmptyString => EmptyString
  | String c s' => if isspace c then lstrip s' else s
  end.

Fixpoint rstrip (s : string) : string :=
  match s with
  | EmptyString => EmptyString
  | String c s' =>
      match rstrip s' with
      | EmptyString => if isspace c then EmptyString else String c EmptyString
      | r => String c r
      end
  end.

(** [s.strip()] *)
Definition strip (s : string) : string := rstrip (lstrip s).

(** [s.split(sep)[0]] for a separator of one character: the part of
    [s] before the first [sep], all of [s] when there is none. *)
Fixpoint split_head (sep : ascii) (s : string) : string :=
  match s with
  | EmptyString => EmptyString
  | String c s' =>
      if Ascii.eqb c sep then EmptyString else String c (split_head sep s')
  end.

(** [c in s] for one character. *)
Fixpoint has_char (c : ascii) (s : string) : bool :=
  match s with
  | EmptyString => false
  | String d s' => Ascii.eqb d c || has_char c s'
  end.

(** [s.startswith(p)] *)
Fixpoint startswith (p s : string) : bool :=
  match p, s with
  | EmptyString, _ => true
  | String _ _, EmptyString => false
  | String a p', String b s' => Ascii.eqb a b && startswith p' s'
  end.

(** [p in s] *)
Fixpoint contains (p s : string) : bool :=
  startswith p s ||
  match s with
  | EmptyString => false
  | String _ s' => contains p s'
  end.

(** [s.endswith(p)] *)
Fixpoint endswith (p s : string) : bool :=
  String.eqb p s ||
  match s with
  | EmptyString => false
  | String _ s' => endswith p s'
  end.

(** [str.lower] on one character: the letters A to Z, and the
    letters U+00C0 to U+00DE but the multiplication sign. *)
Definition lower_char (c : ascii) : ascii :=
  let n := N_of_ascii c in
  if ((65 <=? n) && (n <=? 90)
      || (192 <=? n) && (n <=? 222) && negb (n =? 215))%N
  then ascii_of_N (n + 32) else c.

Fixpoint lower (s : string) : string :=
  match s with
  | EmptyString => EmptyString
  | String c s' => String (lower_char c) (lower s')
  end.

(** [str.upper] on one character.  The sharp s becomes "SS"; the
    capitals of U+00B5 and U+00FF lie above U+00FF and these two
    characters are left as they are. *)
Definition upper_char (c : ascii) : string :=
  let n := N_of_ascii c in
  if ((97 <=? n) && (n <=? 122)
      || (224 <=? n) && (n <=? 254) && negb (n =? 247))%N
  then String (ascii_of_N (n - 32)) EmptyString
  else if (n =? 223)%N then "SS"
  else String c EmptyString.

Fixpoint upper (s : string) : string :=
  match s with
  | EmptyString => EmptyString
  | String c s' => upper_char c +:+ upper s'
  end.

(** [s.replace("+", "")] *)
Fixpoint remove_plus (s : string) : string :=
  match s with
  | EmptyString => EmptyString
  | String c s' =>
      if Ascii.eqb c "+" then remove_plus s' else String c (remove_plus s')
  end.

(** [s.replace("AND", "")]: the occurrences are removed from left to
    right, without overlap. *)
Fixpoint remove_AND (s : string) : string :=
  match s with
  | EmptyString => EmptyString
  | String c s' =>
      match c, s' with
      | "A"%char, String "N"%char (String "D"%char s'') => remove_AND s''
      | _, _ => String c (remove_AND s')
      end
  end.

(** [re.sub(r"\s+", " ", s)]: every maximal run of white space becomes
    one space. *)
Fixpoint collapse_spaces (s : string) : string :=
  match s with
  | EmptyString => EmptyString
  | String c s' =>
      if isspace c then
        match s' with
        | String d _ =>
            if isspace d then collapse_spaces s'
            else String " " (collapse_spaces s')
        | EmptyString => " "
        end
      else String c (collapse_spaces s')
  end.

End PyStr.

(** ** Link canonicalisation and the identity key *)

(** [canonical_link] is the same function, line for line, in
    [trustpilot_scraper_dupefix.py] and [sortingapp/app/scrape_reviews.py].
    [None] is Python's [None]. *)
Definition canonical_link (href : option string) : string :=
  match href with
  | None => ""
  | Some h =>
      if negb (PyStr.truthy h) then ""
      else
        let base := PyStr.split_head "#" h in
        let base := PyStr.split_head "?" base in
        PyStr.strip base
  end.

(** ** SHA-256 ([hashlib.sha256]) and UTF-8

    The scrapers call the library; the function is written out here,
    after FIPS 180-4, so that keys can be computed. *)

Module SHA256.
Local Open Scope Z_scope.

Definition add32 (a b : Z) : Z := (a + b) mod 4294967296.

Definition rotr (n x : Z) : Z :=
  Z.lor (Z.shiftr x n) (Z.shiftl x (32 - n) mod 4294967296).

Definition not32 (x : Z) : Z := Z.lxor x 4294967295.

Definition Ch (x y z : Z) : Z := Z.lxor (Z.land x y) (Z.land (not32 x) z).

Definition Maj (x y z : Z) : Z :=
  Z.lxor (Z.lxor (Z.land x y) (Z.land x z)) (Z.land y z).

Definition bsig0 (x : Z) : Z :=
  Z.lxor (Z.lxor (rotr 2 x) (rotr 13 x)) (rotr 22 x).

Definition bsig1 (x : Z) : Z :=
  Z.lxor (Z.lxor (rotr 6 x) (rotr 11 x)) (rotr 25 x).

Definition ssig0 (x : Z) : Z :=
  Z.lxor (Z.lxor (rotr 7 x) (rotr 18 x)) (Z.shiftr x 3).

Definition ssig1 (x : Z) : Z :=
  Z.lxor (Z.lxor (rotr 17 x) (rotr 19 x)) (Z.shiftr x 10).

Definition primes : list Z :=
  [ 2; 3; 5; 7; 11; 13; 17; 19; 23; 29; 31; 37; 41; 43; 47; 53;
    59; 61; 67; 71; 73; 79; 83; 89; 97; 101; 103; 107; 109; 113; 127; 131;
    137; 139; 149; 151; 157; 163; 167; 173; 179; 181; 191; 193; 197; 199;
    211; 223; 227; 229; 233; 239; 241; 251; 257; 263; 269; 271; 277; 281;
    283; 293; 307; 311 ].

(** The integer cube root, one bit at a time from bit [bits - 1]. *)
Fixpoint cube_root (bits : nat) (n r : Z) : Z :=
  match bits with
  | O => r
  | S b =>
      let c := r + 2 ^ Z.of_nat b in
      if c * c * c <=? n then cube_root b n c else cube_root b n r
  end.

(** The round constants: the first 32 bits of the fractional part of
    the cube root of each of the first 64 primes. *)
Definition K : list Z :=
  map (fun p => cube_root 36 (p * 2 ^ 96) 0 mod 4294967296) primes.

(** The initial hash value: the first 32 bits of the fractional part of
    the square root of each of the first 8 primes. *)
Definition H0 : list Z :=
  map (fun p => Z.sqrt (p * 2 ^ 64) mod 4294967296) (firstn 8 primes).

(** The [n] bytes of [x], most significant first. *)
Fixpoint be_bytes (n : nat) (x : Z) : list Z :=
  match n with
  | O => []
  | S n' => Z.shiftr x (8 * Z.of_nat n') mod 256 :: be_bytes n' x
  end.

(** The message, the byte 0x80, zeros up to 56 modulo 64, and the
    length in bits on eight bytes. *)
Definition pad (msg : list Z) : list Z :=
  let len := Z.of_nat (length msg) in
  let zeros := Z.to_nat ((55 - len) mod 64) in
  msg ++ [128] ++ repeat 0 zeros ++ be_bytes 8 (8 * len).

Fixpoint words (fuel : nat) (bytes : list Z) : list Z :=
  match fuel, bytes with
  | S fuel', a :: b :: c :: d :: rest =>
      (a * 16777216 + b * 65536 + c * 256 + d) :: words fuel' rest
  | _, _ => []
  end.

(** The message schedule: [w] holds the words computed so far. *)
Fixpoint schedule (n : nat) (w : list Z) : list Z :=
  match n with
  | O => w
  | S n' =>
      let t := length w in
      let at_ (i : nat) := nth (t - i) w 0 in
      schedule n'
        (w ++ [add32 (add32 (ssig1 (at_ 2%nat)) (at_ 7%nat))
                     (add32 (ssig0 (at_ 15%nat)) (at_ 16%nat))])
  end.

Definition round (s : list Z) (kw : Z * Z) : list Z :=
  match s with
  | [a; b; c; d; e; f; g; h] =>
      let t1 :=
        add32 (add32 (add32 h (bsig1 e)) (add32 (Ch e f g) (fst kw))) (snd kw) in
      let t2 := add32 (bsig0 a) (Maj a b c) in
      [add32 t1 t2; a; b; c; add32 d t1; e; f; g]
  | _ => s
  end.

Definition compress (h : list Z) (block : list Z) : list Z :=
  let w := schedule 48 (words 16 block) in
  let s := fold_left round (combine K w) h in
  map (fun p => add32 (fst p) (snd p)) (combine h s).

Fixpoint blocks (fuel : nat) (h : list Z) (bytes : list Z) : list Z :=
  match fuel with
  | O => h
  | S fuel' =>
      match bytes with
      | [] => h
      | _ => blocks fuel' (compress h (firstn 64 bytes)) (skipn 64 bytes)
      end
  end.

Definition digest (msg : list Z) : list Z :=
  let p := pad msg in
  flat_map (be_bytes 4) (blocks (length p) H0 p).

Definition hex_digit (n : Z) : ascii :=
  if n <? 10 then ascii_of_N (Z.to_N (48 + n))
  else ascii_of_N (Z.to_N (87 + n)).

Fixpoint hex (bytes : list Z) : string :=
  match bytes with
  | [] => EmptyString
  | b :: rest =>
      String (hex_digit (b / 16)) (String (hex_digit (b mod 16)) (hex rest))
  end.

(** [s.encode("utf-8")] for code points below 256. *)
Fixpoint utf8 (s : string) : list Z :=
  match s with
  | EmptyString => []
  | String c s' =>
      let n := Z.of_N (N_of_ascii c) in
      if n <? 128 then n :: utf8 s'
      else (192 + n / 64) :: (128 + n mod 64) :: utf8 s'
  end.

(** [hashlib.sha256(s.encode("utf-8")).hexdigest()] *)
Definition hexdigest (s : string) : string := hex (digest (utf8 s)).

End SHA256.

(** [stable_review_key], the same in both files that define it. *)
Definition stable_review_key (reviewer date_str link text : string) : string :=
  let link_key := canonical_link (Some link) in
  if PyStr.truthy link_key then "link::" +:+ link_key
  else
    let digest :=
      SHA256.hexdigest
        (PyStr.strip reviewer +:+ "|" +:+ PyStr.strip date_str +:+ "|"
         +:+ PyStr.strip text) in
    "hash::" +:+ digest.

(** ** Dates, cards and the browser *)

(** A calendar day, as [datetime.strptime(date_str, "%Y-%m-%d")] yields
    it (a [datetime] at midnight). *)
Record date := Date { year : Z; month : Z; day : Z }.

Module Clock.
Local Open Scope Z_scope.

Definition is_leap (y : Z) : bool :=
  (y mod 4 =? 0) && (negb (y mod 100 =? 0) || (y mod 400 =? 0)).

Definition days_before_year (y : Z) : Z :=
  let y := y - 1 in
  y * 365 + y / 4 - y / 100 + y / 400.

Definition days_before_month (y m : Z) : Z :=
  nth (Z.to_nat m) [-1; 0; 31; 59; 90; 120; 151; 181; 212; 243; 273; 304; 334] 0
  + (if (2 <? m) && is_leap y then 1 else 0).

(** [date.toordinal()]: 1 January of year 1 is day 1. *)
Definition ymd2ord (d : date) : Z :=
  days_before_year (year d) + days_before_month (year d) (month d) + day d.

Definition us_per_day : Z := 86400000000.

(** A naive [datetime] is a number of microseconds since the midnight
    that starts day 1; [timedelta(days=n)] is [n * us_per_day]. *)
Definition midnight (d : date) : Z := (ymd2ord d - 1) * us_per_day.

Definition digit (n : Z) : ascii := ascii_of_N (Z.to_N (48 + n mod 10)).

(** [str(n)] for a page number. *)
Fixpoint decimal_go (fuel : nat) (n : Z) (acc : string) : string :=
  match fuel with
  | O => acc
  | S fuel' =>
      let acc := String (digit n) acc in
      if n <? 10 then acc else decimal_go fuel' (n / 10) acc
  end.

Definition decimal (n : Z) : string :=
  if n <? 0 then "-" +:+ decimal_go (Z.to_nat (- n)) (- n) ""
  else decimal_go (S (Z.to_nat n)) n "".

(** The number of days of month [m] of year [y]. *)
Definition days_in_month (y m : Z) : Z :=
  nth (Z.to_nat m) [0; 31; 28; 31; 30; 31; 30; 31; 31; 30; 31; 30; 31] 0
  + (if (m =? 2) && is_leap y then 1 else 0).

(** The days that exist: the values a [datetime] can hold, year 1 to
    year 9999.  [datetime.strptime] raises [ValueError] for any other
    day, and the card is then passed over. *)
Definition valid (d : date) : bool :=
  (1 <=? year d) && (year d <=? 9999)
  && (1 <=? month d) && (month d <=? 12)
  && (1 <=? day d) && (day d <=? days_in_month (year d) (month d)).

(** Two digits, for the month and the day. *)
Definition two_digits (n : Z) : string :=
  String (digit (n / 10)) (String (digit n) "").

(** [d.strftime("%Y-%m-%d")] of a day that exists: the year is written
    without leading zeros (the C library does not pad it: year 999 gives
    the text 999-01-01), the month and the day with two digits. *)
Definition strftime (d : date) : string :=
  decimal (year d) +:+ "-" +:+ two_digits (month d) +:+ "-"
  +:+ two_digits (day d).

End Clock.

(** One review card ([article] element) of a page, seen through the
    extractors the loop calls on it.  [review_date] is the outcome of the
    [try] block that reads the [time] element: [None] when one of its
    statements raises. *)
Record block := Block {
  extract_reviewer_name : string;
  extract_review_text : string;
  extract_review_permalink : option string;
  review_date : option date
}.

(** An entry of [reviews]: the dictionary appended by the loop and
    written by [save_reviews]. *)
Record review := Review {
  r_reviewer : string;
  r_date : string;
  r_link : string;
  r_text : string
}.

(** The outside of the loop: the clock read at the start of the session,
    whether [driver.get] raises [WebDriverException] at a given page and
    attempt, and the cards [driver.find_elements] returns for a page. *)
Record world := World {
  now : Z;
  get_raises : Z -> Z -> bool;
  articles : Z -> list block
}.

(** The arguments of [scrape_reviews].  [previous] is what
    [load_previous_reviews] returned when [resume] is set and a file was
    found, and is empty otherwise; [start_date] and [end_date] exist in
    [sortingapp/app/scrape_reviews.py] only. *)
Record args := Args {
  base_url : string;
  mode : Z;
  max_pages : option Z;
  months : option Z;
  keywords : option (list string);
  start_date : option date;
  end_date : option date;
  previous : list review
}.

Inductive event :=
| Get (page attempt : Z)
| Sleep (seconds : Z).

Inductive outcome := Continue | Break.

(** Truth value of an optional integer and of an optional list. *)
Definition truthy_int (n : option Z) : bool :=
  match n with
  | Some n => negb (n =? 0)%Z
  | None => false
  end.

Definition truthy_list {A} (l : option (list A)) : bool :=
  match l with
  | Some (_ :: _) => true
  | _ => false
  end.

Definition truthy_link (l : option string) : bool :=
  match l with
  | Some s => PyStr.truthy s
  | None => false
  end.

(** [review_link or ""] *)
Definition link_or_empty (l : option string) : string :=
  match l with
  | Some s => s
  | None => ""
  end.

Definition max_retries : Z := 3.
Definition max_consecutive_no_additions : Z := 3.

(** [cutoff_date = datetime.now() - timedelta(days=30 * months) if months
    else None] *)
Definition cutoff_of (w : world) (a : args) : option Z :=
  match months a with
  | Some m => if (m =? 0)%Z then None
              else Some (now w - (30 * m) * Clock.us_per_day)%Z
  | None => None
  end.

(** [f"{base_url}&sort=recency&page={page}"] *)
Definition page_url (a : args) (page : Z) : string :=
  base_url a +:+ "&sort=recency&page=" +:+ Clock.decimal page.

(** The retry loop [for attempt in range(1, max_retries + 1)], the same
    in the three scrapers.  [url] is the variable the loop may reset to
    [None]; the events are the calls made, in order. *)
Fixpoint retry_loop (w : world) (page : Z) (attempts : list Z)
    (url : option string) : option string * list event :=
  match attempts with
  | [] => (url, [])
  | attempt :: rest =>
      if get_raises w page attempt then
        if (attempt =? max_retries)%Z then
          let '(u, ev) := retry_loop w page rest None in
          (u, Get page attempt :: ev)
        else
          let '(u, ev) := retry_loop w page rest url in
          (u, Get page attempt :: Sleep 5 :: ev)
      else (url, [Get page attempt; Sleep 2])
  end.

Definition load_page (w : world) (a : args) (page : Z)
    : option string * list event :=
  retry_loop w page [1; 2; 3]%Z (Some (page_url a page)).

(** "Prepare keyword filters": the split of [keywords] into
    [keyword_and] and [keyword_or], the same in the three scrapers. *)
Fixpoint prepare_keywords (ks : list string) : list string * list string :=
  match ks with
  | [] => ([], [])
  | k :: rest =>
      let '(keyword_and, keyword_or) := prepare_keywords rest in
      let k := PyStr.strip k in
      if PyStr.startswith "+" k || PyStr.contains "AND" (PyStr.upper k) then
        (PyStr.strip (PyStr.remove_AND (PyStr.remove_plus k)) :: keyword_and,
         keyword_or)
      else (keyword_and, k :: keyword_or)
  end.

Definition keyword_lists (a : args) : list string * list string :=
  match keywords a with
  | Some ks => prepare_keywords ks
  | None => ([], [])
  end.

(** "Keyword filter logic (AND + OR)": the value of [add_review] after
    the two tests, the same in the three scrapers. *)
Definition keyword_filter (keywords : option (list string))
    (keyword_and keyword_or : list string) (text : string) : bool :=
  let add_review := true in
  if truthy_list keywords then
    let add_review :=
      if negb (match keyword_and with [] => true | _ => false end)
         && negb (forallb (fun k => PyStr.contains (PyStr.lower k) (PyStr.lower text))
                          keyword_and)
      then false else add_review in
    let add_review :=
      if negb (match keyword_or with [] => true | _ => false end)
         && negb (existsb (fun k => PyStr.contains (PyStr.lower k) (PyStr.lower text))
                          keyword_or)
      then (if match keyword_and with [] => true | _ => false end
            then false else add_review)
      else add_review in
    add_review
  else add_review.

(** ** [trustpilot_scraper_dupefix.py] *)

Module Dupefix.
Local Open Scope Z_scope.
Local Open Scope list_scope.

(** The variables of [scrape_reviews] that live across pages; [saved]
    is what the last call of [save_reviews] wrote. *)
Record state := State {
  reviews : list review;
  seen_keys : gset string;
  page : Z;
  consecutive_no_additions : Z;
  previous_page_signature : option (list string);
  same_page_signature_count : Z;
  saved : list review
}.

(** The variables of one pass of [for i, block in enumerate(blocks)]. *)
Record page_state := PageState {
  p_reviews : list review;
  p_seen_keys : gset string;
  page_found : Z;
  page_added : Z;
  page_links_for_signature : list string;
  page_all_older_than_cutoff : bool
}.

(** The body of the loop over the cards, lines 264 to 310. *)
Definition process_block (a : args) (cutoff_date : option Z)
    (ps : page_state) (b : block) : page_state :=
  let '(keyword_and, keyword_or) := keyword_lists a in
  let page_found := page_found ps + 1 in
  let reviewer := extract_reviewer_name b in
  let text := extract_review_text b in
  let review_link := extract_review_permalink b in
  let links :=
    if truthy_link review_link
    then page_links_for_signature ps ++ [canonical_link review_link]
    else page_links_for_signature ps in
  match review_date b with
  | None =>
      PageState (p_reviews ps) (p_seen_keys ps) page_found (page_added ps)
        links (page_all_older_than_cutoff ps)
  | Some review_date =>
      let all_older :=
        match cutoff_date with
        | Some c =>
            if c <=? Clock.midnight review_date then false
            else page_all_older_than_cutoff ps
        | None => page_all_older_than_cutoff ps
        end in
      let add_review :=
        keyword_filter (keywords a) keyword_and keyword_or text in
      if negb add_review then
        PageState (p_reviews ps) (p_seen_keys ps) page_found (page_added ps)
          links all_older
      else
        let key :=
          stable_review_key reviewer (Clock.strftime review_date)
            (link_or_empty review_link) text in
        if bool_decide (key ∈ p_seen_keys ps) then
          PageState (p_reviews ps) (p_seen_keys ps) page_found (page_added ps)
            links all_older
        else
          PageState
            (p_reviews ps ++
               [Review reviewer (Clock.strftime review_date)
                  (canonical_link review_link) text])
            ({[key]} ∪ p_seen_keys ps)
            page_found (page_added ps + 1) links all_older
  end.

Definition process_page (a : args) (cutoff_date : option Z) (st : state)
    (blocks : list block) : page_state :=
  fold_left (process_block a cutoff_date) blocks
    (PageState (reviews st) (seen_keys st) 0 0 []
       (match cutoff_date with Some _ => true | None => false end)).

(** "Mode-specific stopping rules", lines 331 to 348. *)
Definition should_stop (a : args) (cutoff_date : option Z)
    (page_added : Z) (page_all_older_than_cutoff : bool)
    (same_page_signature_count consecutive_no_additions : Z) : bool :=
  if mode a =? 1 then
    if negb (truthy_int (max_pages a)) then
      (1 <=? same_page_signature_count)
      || (max_consecutive_no_additions <=? consecutive_no_additions)
    else false
  else if mode a =? 2 then
    (match cutoff_date with Some _ => true | None => false end
     && page_all_older_than_cutoff
     && ((page_added =? 0) || (1 <=? consecutive_no_additions)))
    || (1 <=? same_page_signature_count)
  else if mode a =? 3 then
    (max_consecutive_no_additions <=? consecutive_no_additions)
    || (1 <=? same_page_signature_count)
  else false.

(** One pass of [while True], lines 223 to 355. *)
Definition iteration (a : args) (w : world) (st : state) : outcome * state :=
  let cutoff_date := cutoff_of w a in
  if (mode a =? 1) && truthy_int (max_pages a)
     && (match max_pages a with Some n => n <? page st | None => false end)
  then (Break, st)
  else
    match fst (load_page w a (page st)) with
    | None =>
        (Continue,
         State (reviews st) (seen_keys st) (page st + 1)
           (consecutive_no_additions st) (previous_page_signature st)
           (same_page_signature_count st) (saved st))
    | Some _ =>
        match articles w (page st) with
        | [] =>
            let cna := consecutive_no_additions st + 1 in
            let st' :=
              State (reviews st) (seen_keys st) (page st + 1) cna
                (previous_page_signature st) (same_page_signature_count st)
                (saved st) in
            if (negb (mode a =? 1) || negb (truthy_int (max_pages a)))
               && (max_consecutive_no_additions <=? cna)
            then (Break, st') else (Continue, st')
        | blocks =>
            let ps := process_page a cutoff_date st blocks in
            let page_signature := firstn 20 (page_links_for_signature ps) in
            let count :=
              match previous_page_signature st with
              | Some prev =>
                  if bool_decide (page_signature = prev)
                  then same_page_signature_count st + 1 else 0
              | None => 0
              end in
            let cna :=
              if page_added ps =? 0 then consecutive_no_additions st + 1
              else 0 in
            let stop :=
              should_stop a cutoff_date (page_added ps)
                (page_all_older_than_cutoff ps) count cna in
            let st' :=
              State (p_reviews ps) (p_seen_keys ps) (page st + 1) cna
                (Some page_signature) count (p_reviews ps) in
            if stop then (Break, st') else (Continue, st')
        end
    end.

(** [while True]: [None] when the loop is still running after [fuel]
    passes. *)
Fixpoint loop (fuel : nat) (a : args) (w : world) (st : state)
    : option state :=
  match fuel with
  | O => None
  | S fuel' =>
      match iteration a w st with
      | (Break, st') => Some st'
      | (Continue, st') => loop fuel' a w st'
      end
  end.

(** The state after [n] passes that did not leave the loop, or the
    state in which a pass left it. *)
Fixpoint passes (n : nat) (a : args) (w : world) (st : state)
    : outcome * state :=
  match n with
  | O => (Continue, st)
  | S n' =>
      match iteration a w st with
      | (Break, st') => (Break, st')
      | (Continue, st') => passes n' a w st'
      end
  end.

(** The state before the first pass: [reviews] and [seen_keys] as the
    resume step leaves them. *)
Definition seed_keys (rs : list review) : gset string :=
  fold_left
    (fun seen r =>
       {[stable_review_key (r_reviewer r) (r_date r) (r_link r) (r_text r)]}
       ∪ seen)
    rs ∅.

Definition initial (a : args) : state :=
  State (previous a) (seed_keys (previous a)) 1 0 None 0 [].

(** [scrape_reviews]: the list returned, which the [finally] clause
    has saved. *)
Definition scrape_reviews (fuel : nat) (a : args) (w : world)
    : option (list review) :=
  match loop fuel a w (initial a) with
  | Some st => Some (reviews st)
  | None => None
  end.

End Dupefix.

(** ** [sortingapp/app/scrape_reviews.py] *)

Module SortingApp.
Local Open Scope Z_scope.
Local Open Scope list_scope.

Record state := State {
  reviews : list review;
  seen_keys : gset string;
  page : Z;
  consecutive_no_additions : Z;
  previous_page_signature : option (list string);
  same_page_signature_count : Z;
  saved : list review
}.

Record page_state := PageState {
  p_reviews : list review;
  p_seen_keys : gset string;
  page_found : Z;
  page_added : Z;
  page_links_for_signature : list string;
  page_all_older_than_cutoff : bool
}.

(** The body of the loop over the cards, lines 282 to 336. *)
Definition process_block (a : args) (cutoff_date : option Z)
    (ps : page_state) (b : block) : page_state :=
  let '(keyword_and, keyword_or) := keyword_lists a in
  let page_found := page_found ps + 1 in
  let reviewer := extract_reviewer_name b in
  let text := extract_review_text b in
  if negb (PyStr.truthy text) || PyStr.endswith "See more" text then
    PageState (p_reviews ps) (p_seen_keys ps) page_found (page_added ps)
      (page_links_for_signature ps) (page_all_older_than_cutoff ps)
  else
  let review_link := extract_review_permalink b in
  let links :=
    if truthy_link review_link
    then page_links_for_signature ps ++ [canonical_link review_link]
    else page_links_for_signature ps in
  match review_date b with
  | None =>
      PageState (p_reviews ps) (p_seen_keys ps) page_found (page_added ps)
        links (page_all_older_than_cutoff ps)
  | Some review_date =>
      let all_older :=
        match cutoff_date with
        | Some c =>
            if c <=? Clock.midnight review_date then false
            else page_all_older_than_cutoff ps
        | None => page_all_older_than_cutoff ps
        end in
      let skip :=
        PageState (p_reviews ps) (p_seen_keys ps) page_found (page_added ps)
          links all_older in
      if match start_date a with
         | Some start_dt => Clock.midnight review_date <? Clock.midnight start_dt
         | None => false
         end
      then skip
      else if match end_date a with
              | Some end_dt => Clock.midnight end_dt <? Clock.midnight review_date
              | None => false
              end
      then skip
      else
      let add_review :=
        keyword_filter (keywords a) keyword_and keyword_or text in
      if negb add_review then skip
      else
        let key :=
          stable_review_key reviewer (Clock.strftime review_date)
            (link_or_empty review_link) text in
        if bool_decide (key ∈ p_seen_keys ps) then skip
        else
          PageState
            (p_reviews ps ++
               [Review reviewer (Clock.strftime review_date)
                  (canonical_link review_link) text])
            ({[key]} ∪ p_seen_keys ps)
            page_found (page_added ps + 1) links all_older
  end.

Definition process_page (a : args) (cutoff_date : option Z) (st : state)
    (blocks : list block) : page_state :=
  fold_left (process_block a cutoff_date) blocks
    (PageState (reviews st) (seen_keys st) 0 0 []
       (match cutoff_date with Some _ => true | None => false end)).

(** "Mode-specific stopping rules", lines 357 to 374: there is a branch
    for the modes 1, 2 and 3 and none for the date interval, mode 4. *)
Definition should_stop (a : args) (cutoff_date : option Z)
    (page_added : Z) (page_all_older_than_cutoff : bool)
    (same_page_signature_count consecutive_no_additions : Z) : bool :=
  if mode a =? 1 then
    if negb (truthy_int (max_pages a)) then
      (1 <=? same_page_signature_count)
      || (max_consecutive_no_additions <=? consecutive_no_additions)
    else false
  else if mode a =? 2 then
    (match cutoff_date with Some _ => true | None => false end
     && page_all_older_than_cutoff
     && ((page_added =? 0) || (1 <=? consecutive_no_additions)))
    || (1 <=? same_page_signature_count)
  else if mode a =? 3 then
    (max_consecutive_no_additions <=? consecutive_no_additions)
    || (1 <=? same_page_signature_count)
  else false.

(** One pass of [while True], lines 241 to 381. *)
Definition iteration (a : args) (w : world) (st : state) : outcome * state :=
  let cutoff_date := cutoff_of w a in
  if (mode a =? 1) && truthy_int (max_pages a)
     && (match max_pages a with Some n => n <? page st | None => false end)
  then (Break, st)
  else
    match fst (load_page w a (page st)) with
    | None =>
        (Continue,
         State (reviews st) (seen_keys st) (page st + 1)
           (consecutive_no_additions st) (previous_page_signature st)
           (same_page_signature_count st) (saved st))
    | Some _ =>
        match articles w (page st) with
        | [] =>
            let cna := consecutive_no_additions st + 1 in
            let st' :=
              State (reviews st) (seen_keys st) (page st + 1) cna
                (previous_page_signature st) (same_page_signature_count st)
                (saved st) in
            if (negb (mode a =? 1) || negb (truthy_int (max_pages a)))
               && (max_consecutive_no_additions <=? cna)
            then (Break, st') else (Continue, st')
        | blocks =>
            let ps := process_page a cutoff_date st blocks in
            let page_signature := firstn 20 (page_links_for_signature ps) in
            let count :=
              match previous_page_signature st with
              | Some prev =>
                  if bool_decide (page_signature = prev)
                  then same_page_signature_count st + 1 else 0
              | None => 0
              end in
            let cna :=
              if page_added ps =? 0 then consecutive_no_additions st + 1
              else 0 in
            let stop :=
              should_stop a cutoff_date (page_added ps)
                (page_all_older_than_cutoff ps) count cna in
            let st' :=
              State (p_reviews ps) (p_seen_keys ps) (page st + 1) cna
                (Some page_signature) count (p_reviews ps) in
            if stop then (Break, st') else (Continue, st')
        end
    end.

Fixpoint loop (fuel : nat) (a : args) (w : world) (st : state)
    : option state :=
  match fuel with
  | O => None
  | S fuel' =>
      match iteration a w st with
      | (Break, st') => Some st'
      | (Continue, st') => loop fuel' a w st'
      end
  end.

(** The state after [n] passes that did not leave the loop, or the
    state in which a pass left it. *)
Fixpoint passes (n : nat) (a : args) (w : world) (st : state)
    : outcome * state :=
  match n with
  | O => (Continue, st)
  | S n' =>
      match iteration a w st with
      | (Break, st') => (Break, st')
      | (Continue, st') => passes n' a w st'
      end
  end.

Definition seed_keys (rs : list review) : gset string :=
  fold_left
    (fun seen r =>
       {[stable_review_key (r_reviewer r) (r_date r) (r_link r) (r_text r)]}
       ∪ seen)
    rs ∅.

Definition initial (a : args) : state :=
  State (previous a) (seed_keys (previous a)) 1 0 None 0 [].

Definition scrape_reviews (fuel : nat) (a : args) (w : world)
    : option (list review) :=
  match loop fuel a w (initial a) with
  | Some st => Some (reviews st)
  | None => None
  end.

End SortingApp.

(** ** [trustpilot_scraper.py] *)

Module Original.
Local Open Scope Z_scope.
Local Open Scope list_scope.

Record state := State {
  reviews : list review;
  seen_links : gset string;
  page : Z;
  saved : list review
}.

Record page_state := PageState {
  p_reviews : list review;
  p_seen_links : gset string;
  page_found : Z;
  page_added : Z
}.

(** The body of the loop over the cards, lines 199 to 241; [url] is
    the address of the page, the link of a card without a permalink. *)
Definition process_block (a : args) (cutoff_date : option Z) (url : string)
    (ps : page_state) (b : block) : page_state :=
  let '(keyword_and, keyword_or) := keyword_lists a in
  let page_found := page_found ps + 1 in
  let reviewer := extract_reviewer_name b in
  let text := extract_review_text b in
  let review_link :=
    if truthy_link (extract_review_permalink b)
    then link_or_empty (extract_review_permalink b) else url in
  let skip :=
    PageState (p_reviews ps) (p_seen_links ps) page_found (page_added ps) in
  match review_date b with
  | None => skip
  | Some review_date =>
      if match cutoff_date with
         | Some c => Clock.midnight review_date <? c
         | None => false
         end
      then skip
      else if bool_decide (review_link ∈ p_seen_links ps) then skip
      else
        let seen_links := {[review_link]} ∪ p_seen_links ps in
        let add_review :=
          keyword_filter (keywords a) keyword_and keyword_or text in
        if negb add_review then
          PageState (p_reviews ps) seen_links page_found (page_added ps)
        else
          PageState
            (p_reviews ps ++
               [Review reviewer (Clock.strftime review_date) review_link text])
            seen_links page_found (page_added ps + 1)
  end.

(** One pass of [while True], lines 165 to 247. *)
Definition iteration (a : args) (w : world) (st : state) : outcome * state :=
  let cutoff_date := cutoff_of w a in
  if (mode a =? 1) && truthy_int (max_pages a)
     && (match max_pages a with Some n => n <? page st | None => false end)
  then (Break, st)
  else
    match fst (load_page w a (page st)) with
    | None =>
        (Continue, State (reviews st) (seen_links st) (page st + 1) (saved st))
    | Some url =>
        match articles w (page st) with
        | [] =>
            (Continue,
             State (reviews st) (seen_links st) (page st + 1) (saved st))
        | blocks =>
            let ps :=
              fold_left (process_block a cutoff_date url) blocks
                (PageState (reviews st) (seen_links st) 0 0) in
            (Continue,
             State (p_reviews ps) (p_seen_links ps) (page st + 1)
               (p_reviews ps))
        end
    end.

Definition initial (a : args) : state :=
  State (previous a) (list_to_set (map r_link (previous a))) 1 [].

End Original.

(** ** [dedupe_results.py] *)

Module Offline.
Local Open Scope list_scope.

(** A record is a dictionary from field names to values; a value is a
    string or [None] (a JSON null, a missing CSV cell). *)
Abbreviation record := (gmap string (option string)).

(** [r.get(k, "")] *)
Definition get (r : record) (k : string) : option string :=
  match r !! k with
  | Some v => v
  | None => Some ""
  end.

Definition _normalize_whitespace (text : option string) : string :=
  match text with
  | None => ""
  | Some text => PyStr.lower (PyStr.collapse_spaces (PyStr.strip text))
  end.

Definition _canonical_link (link : option string) : string :=
  match link with
  | None => ""
  | Some l =>
      if negb (PyStr.truthy l) then ""
      else PyStr.strip (PyStr.split_head "?" l)
  end.

Definition _review_key (reviewer date link text : option string)
    : string * string * string * string :=
  (_normalize_whitespace reviewer,
   _normalize_whitespace date,
   _canonical_link link,
   _normalize_whitespace text).

Definition key_of (r : record) : string * string * string * string :=
  _review_key (get r "reviewer") (get r "date") (get r "link") (get r "text").

(** The body of [for r in records], on the pair ([seen], [unique]). *)
Definition dedupe_step
    (acc : gset (string * string * string * string) * list record)
    (r : record) : gset (string * string * string * string) * list record :=
  let key := key_of r in
  if bool_decide (key ∈ acc.1) then acc
  else ({[key]} ∪ acc.1, acc.2 ++ [r]).

Definition _dedupe_records (records : list record) : list record :=
  (fold_left dedupe_step records (∅, [])).2.

(** The records whose key did not appear earlier in the list, in the
    order of the list: the record at index [i] stays when no record
    before index [i] has its key. *)
Definition first_occurrences (records : list record) : list record :=
  omap
    (λ p : nat * record,
       if bool_decide (key_of p.2 ∈ key_of <$> take p.1 records)
       then None else Some p.2)
    (imap pair records).

End Offline.

(** ** The key of the offline pass, as the specification words it *)

Module OfflineSpec.
Local Open Scope list_scope.

(** A field lower-cased and with its white space collapsed: no white
    space at its ends, one space for every run of white space inside.  A
    missing field counts as an empty one. *)
Definition normalized (field : option string) : string :=
  match field with
  | None => ""
  | Some s => PyStr.collapse_spaces (PyStr.strip (PyStr.lower s))
  end.

(** A link without its query: what stands before the first "?", without
    white space at its ends. *)
Definition query_stripped (link : option string) : string :=
  match link with
  | None => ""
  | Some l => PyStr.strip (PyStr.split_head "?" l)
  end.

(** The normalized four-field key of a record. *)
Definition key (r : Offline.record) : string * string * string * string :=
  (normalized (Offline.get r "reviewer"),
   normalized (Offline.get r "date"),
   query_stripped (Offline.get r "link"),
   normalized (Offline.get r "text")).

(** The records whose key did not appear earlier in the list, in the
    order of the list. *)
Definition first_of_each_key (records : list Offline.record)
    : list Offline.record :=
  omap
    (λ p : nat * Offline.record,
       if bool_decide (key p.2 ∈ key <$> take p.1 records)
       then None else Some p.2)
    (imap pair records).

End OfflineSpec.

(** ** The specification's vocabulary *)

Module Spec.
Local Open Scope list_scope.

(** RecordKey, one of two variants. *)
Inductive RecordKey :=
| LinkKey (canonicalLink : string)
| HashKey (digest : string).

(** The identity keyer as the specification words it. *)
Definition key (reviewer occurredAt link body : string) : RecordKey :=
  if PyStr.truthy (canonical_link (Some link))
  then LinkKey (canonical_link (Some link))
  else HashKey
         (SHA256.hexdigest
            (PyStr.strip reviewer +:+ "|" +:+ PyStr.strip occurredAt +:+ "|"
             +:+ PyStr.strip body)).

(** The string by which the scrapers represent a key in [seen_keys]. *)
Definition render (k : RecordKey) : string :=
  match k with
  | LinkKey l => "link::" +:+ l
  | HashKey d => "hash::" +:+ d
  end.

(** [term] occurs in [body], letter case apart. *)
Definition occurs_ci (term body : string) : Prop :=
  ∃ before after : string,
    PyStr.lower body = before +:+ PyStr.lower term +:+ after.

(** The page signature as the specification words it: the canonical
    links of the first 20 records, an empty string standing for a
    record without a link. *)
Definition signature (records : list block) : list string :=
  map (λ b, canonical_link (extract_review_permalink b)) (firstn 20 records).

(** The entry a card adds to [page_links_for_signature]: its canonical
    link when it has a permalink that is not empty, nothing otherwise. *)
Definition link_entry (b : block) : option string :=
  if truthy_link (extract_review_permalink b)
  then Some (canonical_link (extract_review_permalink b)) else None.

(** The canonical links of the first 20 cards that have a link. *)
Definition linked_signature (records : list block) : list string :=
  firstn 20 (omap link_entry records).

(** The key under which the resume step files a saved review. *)
Definition key_of_review (r : review) : string :=
  stable_review_key (r_reviewer r) (r_date r) (r_link r) (r_text r).

End Spec.

(** ** Concrete sessions *)

Module Examples.
Local Open Scope Z_scope.
Local Open Scope list_scope.

Definition site : string :=
  "https://www.trustpilot.com/review/www.europcar.co.uk?stars=1".

(** Noon of 1 March 2024. *)
Definition noon : Z := Clock.midnight (Date 2024 3 1) + 43200000000.

(** A browser that loads every page at the first attempt. *)
Definition online (pages : Z -> list block) : world :=
  World noon (λ _ _, false) pages.

(** A browser whose every [driver.get] raises. *)
Definition offline : world := World noon (λ _ _, true) (λ _, []).

Definition old_card : block :=
  Block "Ann" "Slow refund"
    (Some "https://www.trustpilot.com/reviews/abc") (Some (Date 2023 6 1)).

Definition praise_card : block :=
  Block "Bob" "Great service"
    (Some "https://www.trustpilot.com/reviews/def") (Some (Date 2024 2 10)).

(** A card without any paragraph: [extract_review_text] returns the
    empty string for it. *)
Definition blank_card : block :=
  Block "Unknown" ""
    (Some "https://www.trustpilot.com/reviews/ghi") (Some (Date 2024 2 10)).

Definition linkless_card : block :=
  Block "Cid" "No permalink on this card" None (Some (Date 2024 2 11)).

Definition only_page_1 (cards : list block) : Z -> list block :=
  λ page, if page =? 1 then cards else [].

(** [scrape_reviews(site, mode=4, start_date="2024-01-01",
    end_date="2024-01-31")] *)
Definition january_2024 : args :=
  Args site 4 None None None (Some (Date 2024 1 1)) (Some (Date 2024 1 31)) [].

(** [scrape_reviews(site, mode=2, months=1)] *)
Definition one_month_back : args :=
  Args site 2 None (Some 1) None None None [].

(** [scrape_reviews(site, mode=3, keywords=["refund"])] *)
Definition refund_only : args :=
  Args site 3 None None (Some ["refund"]) None None [].

(** [scrape_reviews(site, mode=3, keywords=["+refund", "slow", "rude"])] *)
Definition refund_and_tone : args :=
  Args site 3 None None (Some ["+refund"; "slow"; "rude"]) None None [].

(** [scrape_reviews(site, mode=3, keywords=["slow", "rude"])] *)
Definition tone_only : args :=
  Args site 3 None None (Some ["slow"; "rude"]) None None [].

(** [scrape_reviews(site, mode=1, max_pages=1)] *)
Definition one_page : args :=
  Args site 1 (Some 1) None None None None [].

(** [scrape_reviews(site, mode=1, max_pages=None)] *)
Definition all_pages : args :=
  Args site 1 None None None None None [].

(** Every page shows the same card, of June 2023. *)
Definition stale_pages : world := online (λ _, [old_card]).

(** Cards on the pages 1 and 3, none on page 2. *)
Definition gap_pages : Z -> list block :=
  λ page, if (page =? 1) || (page =? 3) then [praise_card] else [].

(** Two records of a results file with the same link and texts that
    differ. *)
Definition first_row : Offline.record :=
  {[ "reviewer" := Some "Ann"; "date" := Some "2024-02-10";
     "link" := Some "https://www.trustpilot.com/reviews/abc";
     "text" := Some "Slow refund" ]}.

Definition second_row : Offline.record :=
  {[ "reviewer" := Some "Ann"; "date" := Some "2024-02-10";
     "link" := Some "https://www.trustpilot.com/reviews/abc";
     "text" := Some "Never again" ]}.

End Examples.

(** ** The session of [trustpilot_scraper.py] *)

Module OriginalSession.

(** [while True] of [trustpilot_scraper.py]: [None] when the loop is
    still running after [fuel] passes. *)
Fixpoint loop (fuel : nat) (a : args) (w : world) (st : Original.state)
    : option Original.state :=
  match fuel with
  | O => None
  | S fuel' =>
      match Original.iteration a w st with
      | (Break, st') => Some st'
      | (Continue, st') => loop fuel' a w st'
      end
  end.

End OriginalSession.

(** ** The extractors, on what the browser hands them *)

Module Cards.
Local Open Scope list_scope.

(** [max(texts, key=len)] on a list that is not empty: the first of the
    longest elements. *)
Definition longest (first : string) (others : list string) : string :=
  fold_left
    (λ best t, if (String.length best <? String.length t)%nat then t else best)
    others first.

(** The paragraphs of a card that are not blank, stripped. *)
Definition stripped_texts (paragraphs : list string) : list string :=
  omap (λ p, if PyStr.truthy (PyStr.strip p) then Some (PyStr.strip p) else None)
    paragraphs.

(** [extract_reviewer_name], the same in the three scrapers; the
    argument is the text of the name element, [None] when
    [find_element] raises [NoSuchElementException]. *)
Definition extract_reviewer_name (span_text : option string) : string :=
  match span_text with
  | Some t =>
      let name := PyStr.strip t in
      if PyStr.truthy name then name else "Unknown"
  | None => "Unknown"
  end.

(** [extract_review_text] of [trustpilot_scraper.py] and
    [trustpilot_scraper_dupefix.py], on the texts of the [p] elements of
    the card. *)
Definition extract_review_text (paragraphs : list string) : string :=
  match stripped_texts paragraphs with
  | [] => ""
  | t :: texts => longest t texts
  end.

(** [extract_review_text] of [sortingapp/app/scrape_reviews.py]; [main]
    is the text of the main review paragraph, [None] when there is no
    such element. *)
Definition extract_review_text_main (main : option string)
    (paragraphs : list string) : string :=
  match main with
  | Some t => PyStr.strip t
  | None =>
      match
        omap (λ p,
                if PyStr.truthy (PyStr.strip p)
                   && negb (PyStr.endswith "See more" (PyStr.strip p))
                then Some (PyStr.strip p) else None)
          paragraphs
      with
      | [] => ""
      | t :: texts => longest t texts
      end
  end.

End Cards.

(** ** File names, the command line and the export *)

Module Files.
Local Open Scope list_scope.

(** [sep.join(parts)] *)
Fixpoint join (sep : string) (parts : list string) : string :=
  match parts with
  | [] => ""
  | [x] => x
  | x :: rest => x +:+ sep +:+ join sep rest
  end.

(** [s.replace(" ", "_")] *)
Fixpoint spaces_to_underscores (s : string) : string :=
  match s with
  | EmptyString => EmptyString
  | String c s' =>
      String (if Ascii.eqb c " " then "_"%char else c) (spaces_to_underscores s')
  end.

(** [",_".join([k.strip().replace(" ", "_") for k in keywords])] *)
Definition clean_keys (keywords : list string) : string :=
  join ",_" (map (λ k, spaces_to_underscores (PyStr.strip k)) keywords).

(** [make_filename] of [trustpilot_scraper.py] and
    [trustpilot_scraper_dupefix.py]; [stamp] is what
    [datetime.now().strftime("%Y-%m-%d_%H-%M-%S")] returns. *)
Definition make_filename (prefix : string) (mode : Z) (pages months : option Z)
    (keywords : option (list string)) (stamp : string) : string :=
  let parts := [prefix] in
  let parts :=
    match pages with
    | Some n => if (mode =? 1)%Z && truthy_int pages
                then parts ++ ["pages-" +:+ Clock.decimal n] else parts
    | None => parts
    end in
  let parts :=
    match months with
    | Some n => if (mode =? 2)%Z && truthy_int months
                then parts ++ ["months-" +:+ Clock.decimal n] else parts
    | None => parts
    end in
  let parts :=
    match keywords with
    | Some ks => if (mode =? 3)%Z && truthy_list keywords
                 then parts ++ ["keywords-" +:+ clean_keys ks] else parts
    | None => parts
    end in
  join "_" (parts ++ [stamp]).

(** The dictionary [json.load] gives back for a review that
    [save_reviews] wrote: its four fields, as strings. *)
Definition saved_record (r : review) : Offline.record :=
  {[ "reviewer" := Some (r_reviewer r); "date" := Some (r_date r);
     "link" := Some (r_link r); "text" := Some (r_text r) ]}.

End Files.

Module Cli.
Local Open Scope list_scope.

(** [s.split(sep)] for a separator of one character. *)
Fixpoint split (sep : ascii) (s : string) : list string :=
  match s with
  | EmptyString => [EmptyString]
  | String c s' =>
      if Ascii.eqb c sep then EmptyString :: split sep s'
      else
        match split sep s' with
        | x :: rest => String c x :: rest
        | [] => [String c EmptyString]
        end
  end.

(** [[w.strip() for w in raw.split(",") if w.strip()]], the keywords
    both command lines pass to [scrape_reviews]. *)
Definition parse_keywords (raw : string) : list string :=
  omap (λ w, if PyStr.truthy (PyStr.strip w) then Some (PyStr.strip w) else None)
    (split "," raw).

End Cli.

Module Exporter.

(** A character of the class [[a-zA-Z0-9_\-]]. *)
Definition allowed (c : ascii) : bool :=
  let n := N_of_ascii c in
  ((97 <=? n) && (n <=? 122) || (65 <=? n) && (n <=? 90)
   || (48 <=? n) && (n <=? 57) || (n =? 95) || (n =? 45))%N.

(** [re.sub(r"[^a-zA-Z0-9_\-]+", "_", s)]: every maximal run of other
    characters becomes one underscore. *)
Fixpoint sub_runs (s : string) : string :=
  match s with
  | EmptyString => EmptyString
  | String c s' =>
      if allowed c then String c (sub_runs s')
      else
        match s' with
        | String d _ =>
            if allowed d then String "_" (sub_runs s') else sub_runs s'
        | EmptyString => "_"
        end
  end.

(** [s[:n]] *)
Fixpoint prefix (n : nat) (s : string) : string :=
  match n, s with
  | S n', String c s' => String c (prefix n' s')
  | _, _ => EmptyString
  end.

(** [safe_query] of [export] in [sortingapp/app/main.py]. *)
Definition safe_query (query : string) : string :=
  prefix 120 (sub_runs (PyStr.strip query)).

End Exporter.

(** ** Two saved reviews that differ in typing only *)

Module SavedExamples.

(** A review saved with a tracking parameter in its link. *)
Definition tracked_review : review :=
  Review "Ann" "2024-02-10" "https://www.trustpilot.com/reviews/abc?utm=1"
    "Slow  refund".

(** The same review, typed with other spacing and letter case. *)
Definition retyped_review : review :=
  Review " ann" "2024-02-10" " https://www.trustpilot.com/reviews/abc"
    "slow refund".

End SavedExamples.

(** ** A page with cards of three months *)

Module IntervalExamples.
Local Open Scope Z_scope.
Local Open Scope list_scope.

(** A card of the middle of January 2024. *)
Definition january_card : block :=
  Block "Dee" "Car was fine"
    (Some "https://www.trustpilot.com/reviews/jkl") (Some (Date 2024 1 15)).

(** Page 1 shows a card of January 2024 between a card of February 2024
    and a card of June 2023; the other pages show no card. *)
Definition winter_pages : world :=
  Examples.online
    (Examples.only_page_1
       [Examples.praise_card; january_card; Examples.old_card]).

End IntervalExamples.

(** * Properties *)

(** ** Facts on the string operations *)

Module PyStrFacts.
Import PyStr.

Lemma lstrip_head c s t : lstrip s = String c t → isspace c = false.
Proof.
  induction s as [|d s IH]; simpl; [discriminate|].
  destruct (isspace d) eqn:Hd; [exact IH|].
  intros [= -> _]. exact Hd.
Qed.

Lemma rstrip_keeps_head c s :
  isspace c = false → ∃ t, rstrip (String c s) = String c t.
Proof.
  intros Hc. simpl. destruct (rstrip s).
  - rewrite Hc. by eexists.
  - by eexists.
Qed.

Lemma rstrip_idem s : rstrip (rstrip s) = rstrip s.
Proof.
  induction s as [|c s IH]; simpl; [done|].
  destruct (rstrip s) as [|d r] eqn:Hr.
  - destruct (isspace c) eqn:Hc; simpl; [done|]. by rewrite Hc.
  - change (rstrip (String c (String d r))) with
      (match rstrip (String d r) with
       | EmptyString => if isspace c then EmptyString else String c EmptyString
       | r' => String c r'
       end).
    by rewrite IH.
Qed.

Lemma strip_idem s : strip (strip s) = strip s.
Proof.
  unfold strip. destruct (lstrip s) as [|c t] eqn:Hl; [done|].
  apply lstrip_head in Hl.
  destruct (rstrip_keeps_head c t Hl) as [t' Ht]. rewrite Ht.
  simpl lstrip. rewrite Hl, <- Ht. apply rstrip_idem.
Qed.

Lemma has_char_lstrip c s : has_char c s = false → has_char c (lstrip s) = false.
Proof.
  induction s as [|d s IH]; simpl; [done|].
  intros [Hd Hs]%orb_false_elim.
  destruct (isspace d); [by apply IH|]. simpl. by rewrite Hd, Hs.
Qed.

Lemma has_char_rstrip c s : has_char c s = false → has_char c (rstrip s) = false.
Proof.
  induction s as [|d s IH]; simpl; [done|].
  intros [Hd Hs]%orb_false_elim. specialize (IH Hs).
  destruct (rstrip s) as [|e r].
  - destruct (isspace d); simpl; [done|]. by rewrite Hd.
  - simpl in *. by rewrite Hd, IH.
Qed.

Lemma has_char_strip c s : has_char c s = false → has_char c (strip s) = false.
Proof. intros H. by apply has_char_rstrip, has_char_lstrip. Qed.

Lemma has_char_split_head_same c s : has_char c (split_head c s) = false.
Proof.
  induction s as [|d s IH]; simpl; [done|].
  destruct (Ascii.eqb d c) eqn:Hd; simpl; [done|]. by rewrite Hd, IH.
Qed.

Lemma has_char_split_head c d s :
  has_char c s = false → has_char c (split_head d s) = false.
Proof.
  induction s as [|e s IH]; simpl; [done|].
  intros [He Hs]%orb_false_elim.
  destruct (Ascii.eqb e d); simpl; [done|]. by rewrite He, IH.
Qed.

Lemma split_head_without c s : has_char c s = false → split_head c s = s.
Proof.
  induction s as [|d s IH]; simpl; [done|].
  intros [Hd Hs]%orb_false_elim. by rewrite Hd, IH.
Qed.

Lemma truthy_false s : truthy s = false → s = "".
Proof. by destruct s. Qed.

End PyStrFacts.

(** ** Link canonicalisation *)

Lemma canonical_link_clean c href :
  c = "#"%char ∨ c = "?"%char →
  PyStr.has_char c (canonical_link href) = false.
Proof.
  intros Hc. destruct href as [h|]; [|done]. unfold canonical_link.
  destruct (PyStr.truthy h); simpl; [|done].
  apply PyStrFacts.has_char_strip. destruct Hc as [-> | ->].
  - apply PyStrFacts.has_char_split_head, PyStrFacts.has_char_split_head_same.
  - apply PyStrFacts.has_char_split_head_same.
Qed.

Lemma canonical_link_fixed (href : option string) :
  canonical_link (Some (canonical_link href)) = canonical_link href.
Proof.
  pose proof (canonical_link_clean "#" href (or_introl eq_refl)) as Hhash.
  pose proof (canonical_link_clean "?" href (or_intror eq_refl)) as Hquery.
  assert (PyStr.strip (canonical_link href) = canonical_link href) as Hstrip.
  { destruct href as [h|]; [|done]. unfold canonical_link.
    destruct (PyStr.truthy h); simpl; [|done]. apply PyStrFacts.strip_idem. }
  revert Hhash Hquery Hstrip. generalize (canonical_link href) as l.
  intros l Hhash Hquery Hstrip. unfold canonical_link.
  destruct (PyStr.truthy l) eqn:Hl; simpl.
  - by rewrite (PyStrFacts.split_head_without _ _ Hhash),
      (PyStrFacts.split_head_without _ _ Hquery).
  - symmetry. by apply PyStrFacts.truthy_false.
Qed.

(** C9.  Canonicalising a link twice gives what canonicalising it once
    gives, for every link: a string, the empty string, or [None]; and the
    result has no fragment, no query string and no white space at either
    end. *)
Theorem canonical_link_idempotent (href : option string) :
  canonical_link (Some (canonical_link href)) = canonical_link href
  ∧ PyStr.has_char "#" (canonical_link href) = false
  ∧ PyStr.has_char "?" (canonical_link href) = false
  ∧ PyStr.strip (canonical_link href) = canonical_link href.
Proof.
  split; [apply canonical_link_fixed|].
  split; [apply canonical_link_clean; by left|].
  split; [apply canonical_link_clean; by right|].
  destruct href as [h|]; [|done]. unfold canonical_link.
  destruct (PyStr.truthy h); simpl; [|done]. apply PyStrFacts.strip_idem.
Qed.

(** ** The identity key *)

(** The digests [hashlib] gives for the empty string, for "abc", for a
    message of two blocks and for a string with a character above
    U+007F. *)
Example sha256_vectors :
  SHA256.hexdigest ""
  = "e3b0c44298fc1c149afbf4c8996fb92427ae41e4649b934ca495991b7852b855"
  ∧ SHA256.hexdigest "abc"
    = "ba7816bf8f01cfea414140de5dae2223b00361a396177a9cb410ff61f20015ad"
  ∧ SHA256.hexdigest
      "abcdbcdecdefdefgefghfghighijhijkijkljklmklmnlmnomnopnopq"
    = "248d6a61d20638b8e5c026930c3e6039a33ce45964ff2167f6ecedd419db06c1"
  ∧ SHA256.hexdigest (String (ascii_of_nat 233) "x")
    = "75ffd91e9de1dcdd5f349e17f877dd3ea559667e1bdbf4c8f3560ca0b81a0b02".
Proof. repeat split; vm_compute; reflexivity. Qed.

Lemma render_inj (k1 k2 : Spec.RecordKey) :
  Spec.render k1 = Spec.render k2 → k1 = k2.
Proof.
  destruct k1, k2; intros H; lazy in H; try discriminate H.
  all: by injection H as ->.
Qed.

(** C6.  The key of a record is the link key of its canonical link when
    that link is not empty, and otherwise the hash key of the SHA-256
    digest of the trimmed reviewer, date and body joined by bars.  The
    string kept in [seen_keys] determines the key, and equal inputs give
    equal keys. *)
Theorem stable_review_key_spec (reviewer occurredAt link body : string) :
  stable_review_key reviewer occurredAt link body
  = Spec.render (Spec.key reviewer occurredAt link body)
  ∧ (canonical_link (Some link) ≠ "" →
     Spec.key reviewer occurredAt link body
     = Spec.LinkKey (canonical_link (Some link)))
  ∧ (canonical_link (Some link) = "" →
     Spec.key reviewer occurredAt link body
     = Spec.HashKey
         (SHA256.hexdigest
            (PyStr.strip reviewer +:+ "|" +:+ PyStr.strip occurredAt +:+ "|"
             +:+ PyStr.strip body)))
  ∧ (∀ k : Spec.RecordKey,
       stable_review_key reviewer occurredAt link body = Spec.render k →
       k = Spec.key reviewer occurredAt link body)
  ∧ (∀ reviewer' occurredAt' link' body' : string,
       reviewer = reviewer' → occurredAt = occurredAt' → link = link' →
       body = body' →
       stable_review_key reviewer occurredAt link body
       = stable_review_key reviewer' occurredAt' link' body').
Proof.
  assert (stable_review_key reviewer occurredAt link body
          = Spec.render (Spec.key reviewer occurredAt link body)) as Hkey.
  { unfold stable_review_key, Spec.key.
    by destruct (PyStr.truthy (canonical_link (Some link))). }
  split; [exact Hkey|]. split; [|split; [|split]].
  - intros Hne. unfold Spec.key.
    destruct (PyStr.truthy (canonical_link (Some link))) eqn:Ht; [done|].
    by apply PyStrFacts.truthy_false in Ht.
  - intros He. unfold Spec.key. by rewrite He.
  - intros k Hk. apply render_inj. by rewrite <- Hk.
  - by intros ? ? ? ? -> -> -> ->.
Qed.

Lemma stable_review_key_spec_witness :
  canonical_link (Some "") = ""
  ∧ Spec.key " Bob " "2024-01-02" "" "hi "
    = Spec.HashKey
        "c9ee803c539f81cc6591071d304aa2553ca895952c1740ec6358372b17805552"
  ∧ canonical_link (Some " https://x/reviews/1?p=2#f ") ≠ ""
  ∧ Spec.key "Bob" "2024-01-02" " https://x/reviews/1?p=2#f " "hi"
    = Spec.LinkKey "https://x/reviews/1".
Proof.
  split; [reflexivity|]. split.
  - destruct (stable_review_key_spec " Bob " "2024-01-02" "" "hi ")
      as (_ & _ & H & _).
    exact (H eq_refl).
  - split; [discriminate|].
    destruct (stable_review_key_spec "Bob" "2024-01-02"
                " https://x/reviews/1?p=2#f " "hi") as (_ & H & _).
    apply H. discriminate.
Defined.

(** ** The keyword filter *)

Lemma startswith_spec p s :
  PyStr.startswith p s = true ↔ ∃ t, s = p +:+ t.
Proof.
  revert s. induction p as [|a p IH]; intros s; simpl.
  - split; [by exists s|done].
  - destruct s as [|b s].
    + split; [done|]. by intros [t Ht].
    + rewrite andb_true_iff, IH. split.
      * intros [Hab [t ->]]. apply Ascii.eqb_eq in Hab as ->. by exists t.
      * intros [t [= -> ->]]. split; [apply Ascii.eqb_refl|by exists t].
Qed.

Lemma contains_spec p s :
  PyStr.contains p s = true ↔ ∃ before after, s = before +:+ p +:+ after.
Proof.
  induction s as [|c s IH].
  - simpl. rewrite orb_false_r, startswith_spec. split.
    + intros [t Ht]. by exists "", t.
    + intros ([|? before] & after & H); [by exists after|done].
  - simpl. rewrite orb_true_iff, startswith_spec, IH. split.
    + intros [[t Ht] | (before & after & ->)].
      * by exists "", t.
      * by exists (String c before), after.
    + intros ([|d before] & after & H).
      * left. by exists after.
      * right. injection H as -> ->. by exists before, after.
Qed.

Lemma occurs_ci_spec term body :
  PyStr.contains (PyStr.lower term) (PyStr.lower body) = true
  ↔ Spec.occurs_ci term body.
Proof. apply contains_spec. Qed.

Lemma forallb_occurs (ks : list string) text :
  forallb (λ k, PyStr.contains (PyStr.lower k) (PyStr.lower text)) ks = true
  ↔ Forall (λ k, Spec.occurs_ci k text) ks.
Proof.
  induction ks as [|k ks IH]; simpl.
  - split; [constructor|done].
  - rewrite andb_true_iff, IH, occurs_ci_spec. split.
    + intros [? ?]. by constructor.
    + by inversion 1.
Qed.

Lemma existsb_occurs (ks : list string) text :
  existsb (λ k, PyStr.contains (PyStr.lower k) (PyStr.lower text)) ks = true
  ↔ Exists (λ k, Spec.occurs_ci k text) ks.
Proof.
  induction ks as [|k ks IH]; simpl.
  - split; [done|by inversion 1].
  - rewrite orb_true_iff, IH, occurs_ci_spec. split.
    + intros [?|?]; [by left|by right].
    + inversion 1; auto.
Qed.

Lemma keyword_lists_truthy a keyword_and keyword_or :
  keyword_lists a = (keyword_and, keyword_or) →
  keyword_and ≠ [] ∨ keyword_or ≠ [] →
  truthy_list (keywords a) = true.
Proof.
  unfold keyword_lists. destruct (keywords a) as [[|k ks]|]; simpl.
  - intros [= <- <-] [?|?]; done.
  - done.
  - intros [= <- <-] [?|?]; done.
Qed.

(** C2.  With AND terms the record passes exactly when every AND term
    occurs in its body, letter case apart, whatever the OR terms; with
    OR terms only it passes exactly when one of them occurs. *)
Theorem keyword_filter_and_or (a : args) (keyword_and keyword_or : list string)
    (text : string) :
  keyword_lists a = (keyword_and, keyword_or) →
  (keyword_and ≠ [] →
     keyword_filter (keywords a) keyword_and keyword_or text = true
     ↔ Forall (λ k, Spec.occurs_ci k text) keyword_and)
  ∧ (keyword_and = [] → keyword_or ≠ [] →
     keyword_filter (keywords a) keyword_and keyword_or text = true
     ↔ Exists (λ k, Spec.occurs_ci k text) keyword_or).
Proof.
  intros Hlists. split.
  - intros Hand. rewrite <- forallb_occurs. unfold keyword_filter.
    rewrite (keyword_lists_truthy a _ _ Hlists (or_introl Hand)).
    destruct keyword_and as [|k ka]; [done|].
    destruct (forallb _ (k :: ka)); destruct keyword_or as [|o ko];
      try destruct (existsb _ (o :: ko)); done.
  - intros -> Hor. rewrite <- existsb_occurs. unfold keyword_filter.
    rewrite (keyword_lists_truthy a _ _ Hlists (or_intror Hor)).
    destruct keyword_or as [|o ko]; [done|].
    by destruct (existsb _ (o :: ko)).
Qed.

Lemma keyword_filter_and_or_witness :
  keyword_lists Examples.refund_and_tone = (["refund"], ["slow"; "rude"])
  ∧ ["refund"] ≠ []
  ∧ keyword_filter (keywords Examples.refund_and_tone) ["refund"]
      ["slow"; "rude"] "Refund only, nothing else" = true.
Proof.
  split; [vm_compute; reflexivity|]. split; [discriminate|].
  apply (proj1 (keyword_filter_and_or Examples.refund_and_tone ["refund"]
                  ["slow"; "rude"] "Refund only, nothing else" eq_refl)).
  - discriminate.
  - constructor; [|constructor].
    exists "", " only, nothing else". reflexivity.
Defined.

(** ** The offline deduplication pass *)

Module OfflineFacts.
Import Offline.
Local Open Scope list_scope.

Lemma omap_imap_ext {A B C} (f g : B → option C) (h : nat → A → B) (l : list A) :
  (∀ i x, l !! i = Some x → f (h i x) = g (h i x)) →
  omap f (imap h l) = omap g (imap h l).
Proof.
  revert h. induction l as [|x l IH]; intros h Hext; [done|].
  assert (omap f (imap (h ∘ S) l) = omap g (imap (h ∘ S) l)) as Htail.
  { apply IH. intros i y Hy. apply (Hext (S i) y Hy). }
  simpl. rewrite (Hext 0%nat x eq_refl).
  destruct (g (h 0%nat x)); [f_equal|]; exact Htail.
Qed.

Lemma first_occurrences_snoc (rs : list record) (r : record) :
  first_occurrences (rs ++ [r])
  = first_occurrences rs
    ++ (if bool_decide (key_of r ∈ key_of <$> rs) then [] else [r]).
Proof.
  unfold first_occurrences. rewrite imap_app, omap_app. f_equal.
  - apply omap_imap_ext. intros i x Hx. simpl.
    apply lookup_lt_Some in Hx.
    by rewrite take_app_le by lia.
  - simpl. rewrite Nat.add_0_r, take_app_length.
    by destruct (bool_decide _).
Qed.

Lemma dedupe_fold (rs : list record) :
  fold_left dedupe_step rs (∅, [])
  = (list_to_set (key_of <$> rs), first_occurrences rs).
Proof.
  induction rs as [|r rs IH] using rev_ind; [done|].
  rewrite fold_left_app, IH, first_occurrences_snoc. simpl.
  unfold dedupe_step at 1. simpl.
  rewrite (bool_decide_ext _ (key_of r ∈ key_of <$> rs))
    by apply elem_of_list_to_set.
  rewrite fmap_app, list_to_set_app_L. simpl.
  destruct (bool_decide (key_of r ∈ key_of <$> rs)) eqn:Hin.
  - apply bool_decide_eq_true in Hin. rewrite app_nil_r. f_equal.
    clear IH. revert Hin. generalize (key_of r), (key_of <$> rs).
    intros k l Hin. apply set_eq. intros x.
    rewrite !elem_of_union, elem_of_singleton, !elem_of_list_to_set.
    split; [tauto|]. intros [?|[->|[]%not_elem_of_empty]]; done.
  - f_equal. clear. generalize (key_of r), (key_of <$> rs).
    intros k l. apply set_eq. intros x.
    rewrite !elem_of_union, elem_of_singleton, !elem_of_list_to_set.
    pose proof (not_elem_of_empty (C:=gset _) x). tauto.
Qed.

Lemma dedupe_first_occurrences (rs : list record) :
  _dedupe_records rs = first_occurrences rs.
Proof. unfold _dedupe_records. by rewrite dedupe_fold. Qed.

Lemma first_occurrences_sublist (rs : list record) :
  sublist (first_occurrences rs) rs.
Proof.
  induction rs as [|r rs IH] using rev_ind; [done|].
  rewrite first_occurrences_snoc.
  destruct (bool_decide _).
  - rewrite app_nil_r. by apply sublist_inserts_r.
  - by apply sublist_app.
Qed.

Lemma first_occurrences_NoDup (rs : list record) :
  NoDup (key_of <$> first_occurrences rs).
Proof.
  induction rs as [|r rs IH] using rev_ind; [constructor|].
  rewrite first_occurrences_snoc.
  destruct (bool_decide _) eqn:Hin.
  - by rewrite app_nil_r.
  - apply bool_decide_eq_false in Hin.
    rewrite fmap_app. apply NoDup_app. split; [done|]. split.
    + intros k Hk ->%list_elem_of_singleton. apply Hin.
      eapply sublist_subseteq; [|exact Hk].
      apply fmap_sublist, first_occurrences_sublist.
    + simpl. apply NoDup_singleton.
Qed.

Lemma first_occurrences_id (rs : list record) :
  NoDup (key_of <$> rs) → first_occurrences rs = rs.
Proof.
  induction rs as [|r rs IH] using rev_ind; [done|].
  rewrite fmap_app. intros (Hrs & Hr & _)%NoDup_app.
  rewrite first_occurrences_snoc, IH by done.
  rewrite bool_decide_eq_false_2; [done|].
  intros Hin. apply (Hr _ Hin). simpl. left.
Qed.

End OfflineFacts.

(** ** Loading a page *)

Local Open Scope list_scope.

Lemma load_page_fails (w : world) (a : args) (page : Z) :
  fst (load_page w a page) = None
  ↔ get_raises w page 1 = true ∧ get_raises w page 2 = true
    ∧ get_raises w page 3 = true.
Proof.
  unfold load_page. simpl.
  destruct (get_raises w page 1), (get_raises w page 2),
    (get_raises w page 3); simpl; intuition discriminate.
Qed.

(** Three attempts at most, five seconds after each failure but the
    last, and no other event. *)
Lemma load_page_trace (w : world) (a : args) (page : Z) :
  ∃ k : nat,
    (k ≤ 2)%nat
    ∧ snd (load_page w a page)
      = flat_map (λ i, [Get page i; Sleep 5]) (firstn k [1; 2]%Z)
        ++ match fst (load_page w a page) with
           | Some _ => [Get page (Z.of_nat k + 1); Sleep 2]
           | None => [Get page 3]
           end.
Proof.
  unfold load_page. simpl.
  destruct (get_raises w page 1);
    [|exists 0%nat; split; [lia|reflexivity]].
  destruct (get_raises w page 2);
    [|exists 1%nat; split; [lia|reflexivity]].
  destruct (get_raises w page 3); exists 2%nat; split; (lia || reflexivity).
Qed.

(** ** The loop of [trustpilot_scraper_dupefix.py] *)

Module DupefixFacts.
Import Dupefix.
Local Open Scope Z_scope.
Local Open Scope list_scope.

(** What one card does to [reviews] and [seen_keys]: nothing, or one
    review at the end of the list and its key, which was not there, in
    the set. *)
Lemma process_block_cases (a : args) (c : option Z) (ps : page_state) (b : block) :
  (p_reviews (process_block a c ps b) = p_reviews ps
   ∧ p_seen_keys (process_block a c ps b) = p_seen_keys ps
   ∧ page_added (process_block a c ps b) = page_added ps)
  ∨ (∃ d : date,
       let r := Review (extract_reviewer_name b) (Clock.strftime d)
                  (canonical_link (extract_review_permalink b))
                  (extract_review_text b) in
       let key := stable_review_key (extract_reviewer_name b) (Clock.strftime d)
                    (link_or_empty (extract_review_permalink b))
                    (extract_review_text b) in
       (review_date b = Some d)
       ∧ keyword_filter (keywords a) (keyword_lists a).1 (keyword_lists a).2
           (extract_review_text b) = true
       ∧ (key ∉ p_seen_keys ps)
       ∧ p_reviews (process_block a c ps b) = p_reviews ps ++ [r]
       ∧ p_seen_keys (process_block a c ps b) = {[key]} ∪ p_seen_keys ps
       ∧ page_added (process_block a c ps b) = page_added ps + 1).
Proof.
  unfold process_block. destruct (keyword_lists a) as [ka ko]. simpl.
  destruct (review_date b) as [d|]; [|by left].
  destruct (keyword_filter (keywords a) ka ko (extract_review_text b)) eqn:Hf;
    simpl; [|by left].
  case_bool_decide as Hseen; [by left|].
  right. by exists d.
Qed.

(** A card adds a review exactly when its date could be read, the
    keyword filter passes its text and its key is new. *)
Lemma process_block_appends_iff (a : args) (c : option Z) (ps : page_state)
    (b : block) :
  page_added (process_block a c ps b) = page_added ps + 1
  ↔ ∃ d : date,
      review_date b = Some d
      ∧ keyword_filter (keywords a) (keyword_lists a).1 (keyword_lists a).2
          (extract_review_text b) = true
      ∧ stable_review_key (extract_reviewer_name b) (Clock.strftime d)
          (link_or_empty (extract_review_permalink b)) (extract_review_text b)
        ∉ p_seen_keys ps.
Proof.
  split.
  - intros Hadded.
    destruct (process_block_cases a c ps b) as [(_&_&Hsame)|(d&Hd&Hf&Hk&_)].
    + lia.
    + by exists d.
  - intros (d & Hd & Hf & Hk). unfold process_block.
    destruct (keyword_lists a) as [ka ko]. simpl in Hf.
    rewrite Hd, Hf. simpl. by rewrite bool_decide_eq_false_2.
Qed.

(** A record the keyword filter rejects leaves [seen_keys] as it was. *)
Lemma rejected_record_leaves_no_key (a : args) (c : option Z)
    (ps : page_state) (b : block) :
  keyword_filter (keywords a) (keyword_lists a).1 (keyword_lists a).2
    (extract_review_text b) = false →
  p_seen_keys (process_block a c ps b) = p_seen_keys ps
  ∧ p_reviews (process_block a c ps b) = p_reviews ps.
Proof.
  intros Hf. destruct (process_block_cases a c ps b) as [(?&?&?)|(d&_&Hf'&_)].
  - done.
  - congruence.
Qed.

Lemma link_or_empty_canonical (l : option string) :
  canonical_link (Some (link_or_empty l)) = canonical_link l.
Proof. by destruct l. Qed.

(** The key computed for a card is the key the resume step computes
    for the review stored from it. *)
Lemma stored_review_key (reviewer date_str text : string) (l : option string) :
  Spec.key_of_review (Review reviewer date_str (canonical_link l) text)
  = stable_review_key reviewer date_str (link_or_empty l) text.
Proof.
  unfold Spec.key_of_review, stable_review_key.
  cbn [r_reviewer r_date r_link r_text].
  by rewrite canonical_link_fixed, link_or_empty_canonical.
Qed.

Lemma seed_keys_snoc (rs : list review) (r : review) :
  seed_keys (rs ++ [r]) = {[Spec.key_of_review r]} ∪ seed_keys rs.
Proof. unfold seed_keys. by rewrite fold_left_app. Qed.

(** [seen_keys] holds the keys of [reviews], card after card. *)
Lemma process_block_seen_keys (a : args) (c : option Z) (ps : page_state)
    (b : block) :
  p_seen_keys ps = seed_keys (p_reviews ps) →
  p_seen_keys (process_block a c ps b)
  = seed_keys (p_reviews (process_block a c ps b)).
Proof.
  intros Hinv.
  destruct (process_block_cases a c ps b)
    as [(Hr&Hk&_)|(d&_&_&_&Hr&Hk&_)]; rewrite Hr, Hk.
  - done.
  - by rewrite seed_keys_snoc, stored_review_key, Hinv.
Qed.

Lemma process_page_seen_keys (a : args) (c : option Z) (st : state)
    (blocks : list block) :
  seen_keys st = seed_keys (reviews st) →
  p_seen_keys (process_page a c st blocks)
  = seed_keys (p_reviews (process_page a c st blocks)).
Proof.
  intros Hinv. unfold process_page.
  set (ps := PageState _ _ _ _ _ _).
  assert (p_seen_keys ps = seed_keys (p_reviews ps)) as Hps by done.
  clearbody ps. revert ps Hps.
  induction blocks as [|b blocks IH]; intros ps Hps; [done|].
  simpl. by apply IH, process_block_seen_keys.
Qed.

(** The links gathered for the signature: one entry for each card with
    a permalink, in the order of the cards. *)
Lemma process_block_links (a : args) (c : option Z) (ps : page_state) (b : block) :
  page_links_for_signature (process_block a c ps b)
  = page_links_for_signature ps
    ++ match Spec.link_entry b with Some l => [l] | None => [] end.
Proof.
  unfold process_block, Spec.link_entry.
  destruct (keyword_lists a) as [ka ko].
  destruct (truthy_link (extract_review_permalink b)); simpl;
    rewrite ?app_nil_r;
    (destruct (review_date b) as [d|]; [|done]);
    (destruct (keyword_filter _ _ _ _); simpl; [|done]);
    by case_bool_decide.
Qed.

Lemma process_page_links (a : args) (c : option Z) (st : state)
    (blocks : list block) :
  page_links_for_signature (process_page a c st blocks)
  = omap Spec.link_entry blocks.
Proof.
  unfold process_page.
  set (ps := PageState _ _ _ _ _ _).
  change (omap Spec.link_entry blocks)
    with (page_links_for_signature ps ++ omap Spec.link_entry blocks).
  clearbody ps. revert ps.
  induction blocks as [|b blocks IH]; intros ps; simpl.
  - by rewrite app_nil_r.
  - rewrite IH, process_block_links, <- app_assoc.
    by destruct (Spec.link_entry b).
Qed.

End DupefixFacts.

(** A pass whose page could not be loaded moves to the next page and
    changes nothing else: no counter is touched. *)
Lemma dupefix_failed_load (a : args) (w : world) (st : Dupefix.state) :
  (mode a =? 1)%Z && truthy_int (max_pages a)
  && match max_pages a with
     | Some n => (n <? Dupefix.page st)%Z
     | None => false
     end = false →
  fst (load_page w a (Dupefix.page st)) = None →
  Dupefix.iteration a w st
  = (Continue,
     Dupefix.State (Dupefix.reviews st) (Dupefix.seen_keys st)
       (Dupefix.page st + 1) (Dupefix.consecutive_no_additions st)
       (Dupefix.previous_page_signature st)
       (Dupefix.same_page_signature_count st) (Dupefix.saved st)).
Proof. intros Hlimit Hload. unfold Dupefix.iteration. by rewrite Hlimit, Hload. Qed.

Lemma dupefix_failed_load_witness :
  Dupefix.iteration Examples.all_pages Examples.offline
    (Dupefix.initial Examples.all_pages)
  = (Continue, Dupefix.State [] ∅ 2 0 None 0 []).
Proof.
  exact (dupefix_failed_load Examples.all_pages Examples.offline
           (Dupefix.initial Examples.all_pages) eq_refl eq_refl).
Defined.

Lemma offline_pass (p : Z) :
  Dupefix.iteration Examples.all_pages Examples.offline
    (Dupefix.State [] ∅ p 0 None 0 [])
  = (Continue, Dupefix.State [] ∅ (p + 1) 0 None 0 []).
Proof. by apply dupefix_failed_load. Qed.

(** C8.  With every page of an unbounded session failing its three
    attempts, each pass moves to the next page and leaves the count of
    pages without additions at 0: after any number of failed pages the
    loop is still running. *)
Theorem failed_pages_are_not_counted (n : nat) :
  Dupefix.passes n Examples.all_pages Examples.offline
    (Dupefix.initial Examples.all_pages)
  = (Continue, Dupefix.State [] ∅ (1 + Z.of_nat n) 0 None 0 []).
Proof.
  unfold Dupefix.initial. simpl previous.
  change (Dupefix.seed_keys []) with (∅ : gset string).
  generalize 1%Z as p. induction n as [|n IH]; intros p.
  - simpl. do 2 f_equal. lia.
  - cbn [Dupefix.passes]. rewrite offline_pass, IH. do 2 f_equal. lia.
Qed.

(** C5, as the claim words it, fails: a card without a link leaves no
    empty entry in the signature, and a page that repeats the page before
    the last, after a page without cards, counts as a repeat. *)
Lemma page_signature_counterexample :
  Dupefix.previous_page_signature
    (Dupefix.iteration Examples.all_pages
       (Examples.online
          (Examples.only_page_1 [Examples.linkless_card; Examples.praise_card]))
       (Dupefix.initial Examples.all_pages)).2
  ≠ Some (Spec.signature [Examples.linkless_card; Examples.praise_card])
  ∧ Dupefix.same_page_signature_count
      (Dupefix.passes 3 Examples.all_pages
         (Examples.online Examples.gap_pages)
         (Dupefix.initial Examples.all_pages)).2 = 1%Z
  ∧ Spec.signature (Examples.gap_pages 3) ≠ Spec.signature (Examples.gap_pages 2).
Proof.
  split; [vm_compute; discriminate|].
  split; [vm_compute; reflexivity|vm_compute; discriminate].
Qed.

(** C5, amended.  On a page that shows cards the signature is the
    sequence of the canonical links of the first 20 cards that have a
    link, in the order of the cards, and the repeat count goes up exactly
    when that sequence is the signature kept from the last page that
    showed cards; a pass that stops at the page limit, fails to load its
    page or finds no card keeps the signature and the count. *)
Theorem page_signature_tracking (a : args) (w : world) (st : Dupefix.state) :
  let st' := (Dupefix.iteration a w st).2 in
  let limit :=
    (mode a =? 1)%Z && truthy_int (max_pages a)
    && match max_pages a with
       | Some n => (n <? Dupefix.page st)%Z
       | None => false
       end in
  match limit, (load_page w a (Dupefix.page st)).1,
        articles w (Dupefix.page st) with
  | false, Some _, (_ :: _) as cards =>
      Dupefix.previous_page_signature st' = Some (Spec.linked_signature cards)
      ∧ Dupefix.same_page_signature_count st'
        = (if bool_decide (Dupefix.previous_page_signature st
                           = Some (Spec.linked_signature cards))
           then Dupefix.same_page_signature_count st + 1 else 0)%Z
  | _, _, _ =>
      Dupefix.previous_page_signature st' = Dupefix.previous_page_signature st
      ∧ Dupefix.same_page_signature_count st'
        = Dupefix.same_page_signature_count st
  end.
Proof.
  unfold Dupefix.iteration.
  destruct ((mode a =? 1)%Z && truthy_int (max_pages a) && _) eqn:Hlimit;
    [done|].
  destruct (load_page w a (Dupefix.page st)).1 as [url|]; [|done].
  destruct (articles w (Dupefix.page st)) as [|b blocks] eqn:Hcards.
  - cbv zeta.
    match goal with
    | |- context [if ?c then (Break, ?s) else (Continue, ?s)] => by destruct c
    end.
  - rewrite DupefixFacts.process_page_links. fold (Spec.linked_signature (b :: blocks)).
    set (sig := Spec.linked_signature (b :: blocks)).
    assert (match Dupefix.previous_page_signature st with
            | Some prev =>
                if bool_decide (sig = prev)
                then (Dupefix.same_page_signature_count st + 1)%Z else 0%Z
            | None => 0%Z
            end
            = if bool_decide (Dupefix.previous_page_signature st = Some sig)
              then (Dupefix.same_page_signature_count st + 1)%Z else 0%Z) as ->.
    { destruct (Dupefix.previous_page_signature st) as [prev|]; [|done].
      repeat case_bool_decide; congruence. }
    cbv zeta. by destruct (Dupefix.should_stop _ _ _ _ _ _).
Qed.

(** ** The months-back window *)

(** [trustpilot_scraper.py] drops a card dated before the cutoff. *)
Lemma original_rejects_before_cutoff (a : args) (cutoff : Z) (url : string)
    (ps : Original.page_state) (b : block) (d : date) :
  review_date b = Some d →
  (Clock.midnight d < cutoff)%Z →
  Original.p_reviews (Original.process_block a (Some cutoff) url ps b)
  = Original.p_reviews ps.
Proof.
  intros Hd Hold. unfold Original.process_block.
  destruct (keyword_lists a) as [ka ko]. rewrite Hd.
  by rewrite (proj2 (Z.ltb_lt _ _) Hold).
Qed.

Lemma original_rejects_before_cutoff_witness :
  Original.p_reviews
    (Original.process_block Examples.one_month_back (Some 63842299200000000%Z)
       (page_url Examples.one_month_back 1) (Original.PageState [] ∅ 0 0)
       Examples.old_card)
  = [].
Proof.
  exact (original_rejects_before_cutoff Examples.one_month_back
           63842299200000000%Z (page_url Examples.one_month_back 1)
           (Original.PageState [] ∅ 0 0) Examples.old_card (Date 2023 6 1)
           eq_refl eq_refl).
Defined.

(** C3.  In [trustpilot_scraper_dupefix.py] and in
    [sortingapp/app/scrape_reviews.py] a session of one month back, begun
    at noon of 1 March 2024, returns the review of 1 June 2023 that page 1
    shows, a day before the cutoff of 31 January 2024; the session of
    [trustpilot_scraper.py] does not take it. *)
Theorem months_back_keeps_record_before_cutoff :
  let w := Examples.online (Examples.only_page_1 [Examples.old_card]) in
  let old :=
    Review "Ann" "2023-06-01" "https://www.trustpilot.com/reviews/abc"
      "Slow refund" in
  cutoff_of w Examples.one_month_back
  = Some (Clock.midnight (Date 2024 1 31) + 43200000000)%Z
  ∧ (Clock.midnight (Date 2023 6 1)
     < Clock.midnight (Date 2024 1 31) + 43200000000)%Z
  ∧ Dupefix.scrape_reviews 4 Examples.one_month_back w = Some [old]
  ∧ SortingApp.scrape_reviews 4 Examples.one_month_back w = Some [old]
  ∧ Original.reviews
      (Original.iteration Examples.one_month_back w
         (Original.initial Examples.one_month_back)).2 = [].
Proof.
  cbv zeta. split; [vm_compute; reflexivity|].
  split; [vm_compute; reflexivity|].
  split; [vm_compute; reflexivity|].
  split; vm_compute; reflexivity.
Qed.

(** ** Cards without text *)

(** [sortingapp/app/scrape_reviews.py] never stores a review without
    text. *)
Lemma sortingapp_skips_empty_text (a : args) (c : option Z)
    (ps : SortingApp.page_state) (b : block) :
  Forall (λ r, r_text r ≠ "") (SortingApp.p_reviews ps) →
  Forall (λ r, r_text r ≠ "")
    (SortingApp.p_reviews (SortingApp.process_block a c ps b)).
Proof.
  intros Hps. unfold SortingApp.process_block.
  destruct (keyword_lists a) as [ka ko].
  destruct (PyStr.truthy (extract_review_text b)) eqn:Htext; simpl; [|done].
  destruct (PyStr.endswith "See more" (extract_review_text b)); [done|].
  destruct (review_date b) as [d|]; [|done].
  repeat (match goal with
          | |- context [if ?c then _ else _] => destruct c
          end; simpl; try done).
  apply Forall_app. split; [done|]. constructor; [|constructor].
  simpl. intros Hempty. by rewrite Hempty in Htext.
Qed.

Lemma sortingapp_skips_empty_text_witness :
  Forall (λ r, r_text r ≠ "")
    (SortingApp.p_reviews
       (SortingApp.process_block Examples.one_page None
          (SortingApp.PageState [] ∅ 0 0 [] false) Examples.blank_card)).
Proof.
  apply (sortingapp_skips_empty_text Examples.one_page None
           (SortingApp.PageState [] ∅ 0 0 [] false) Examples.blank_card).
  constructor.
Defined.

(** C7.  In [trustpilot_scraper_dupefix.py] a session of one page whose
    page shows a card without any paragraph returns, and has saved, a
    review with an empty text; [sortingapp/app/scrape_reviews.py] skips
    the card. *)
Theorem dupefix_stores_empty_text :
  let w := Examples.online (Examples.only_page_1 [Examples.blank_card]) in
  let blank :=
    Review "Unknown" "2024-02-10" "https://www.trustpilot.com/reviews/ghi" "" in
  Dupefix.reviews <$> Dupefix.loop 2 Examples.one_page w
                        (Dupefix.initial Examples.one_page) = Some [blank]
  ∧ Dupefix.saved <$> Dupefix.loop 2 Examples.one_page w
                        (Dupefix.initial Examples.one_page) = Some [blank]
  ∧ Dupefix.scrape_reviews 2 Examples.one_page w = Some [blank]
  ∧ SortingApp.scrape_reviews 2 Examples.one_page w = Some [].
Proof.
  cbv zeta. split; [vm_compute; reflexivity|].
  split; [vm_compute; reflexivity|].
  split; vm_compute; reflexivity.
Qed.

(** ** The order of deduplication and filtering *)

(** [trustpilot_scraper.py] files the link of a card before it looks at
    the keywords: the link is in [seen_links] whether or not the review
    is taken. *)
Lemma original_marks_before_filtering (a : args) (url : string)
    (ps : Original.page_state) (b : block) (d : date) :
  review_date b = Some d →
  truthy_link (extract_review_permalink b) = true →
  link_or_empty (extract_review_permalink b)
  ∈ Original.p_seen_links (Original.process_block a None url ps b).
Proof.
  intros Hd Hlink. unfold Original.process_block.
  destruct (keyword_lists a) as [ka ko]. rewrite Hd, Hlink.
  case_bool_decide as Hseen; [exact Hseen|].
  destruct (keyword_filter _ _ _ _); simpl; set_solver.
Qed.

Lemma original_marks_before_filtering_witness :
  "https://www.trustpilot.com/reviews/def"
  ∈ Original.p_seen_links
      (Original.process_block Examples.refund_only None
         (page_url Examples.refund_only 1) (Original.PageState [] ∅ 0 0)
         Examples.praise_card).
Proof.
  exact (original_marks_before_filtering Examples.refund_only
           (page_url Examples.refund_only 1) (Original.PageState [] ∅ 0 0)
           Examples.praise_card (Date 2024 2 10) eq_refl eq_refl).
Defined.

(** C4.  In [trustpilot_scraper.py] a session on the keyword "refund"
    whose page 1 shows a review that does not mention it ends the pass
    with the link of that review in [seen_links] and no review taken;
    [trustpilot_scraper_dupefix.py] leaves [seen_keys] empty on the same
    page. *)
Theorem original_files_link_of_rejected_record :
  let w := Examples.online (Examples.only_page_1 [Examples.praise_card]) in
  keyword_filter (keywords Examples.refund_only)
    (keyword_lists Examples.refund_only).1
    (keyword_lists Examples.refund_only).2 "Great service" = false
  ∧ Original.iteration Examples.refund_only w
      (Original.initial Examples.refund_only)
    = (Continue,
       Original.State [] {["https://www.trustpilot.com/reviews/def"]} 2 [])
  ∧ Dupefix.seen_keys
      (Dupefix.iteration Examples.refund_only w
         (Dupefix.initial Examples.refund_only)).2 = ∅.
Proof.
  cbv zeta. split; [vm_compute; reflexivity|].
  split; vm_compute; reflexivity.
Qed.

(** ** The date interval *)

(** In the date interval mode a pass that finds cards never leaves the
    loop, whatever the counters say: the stopping rules have no branch
    for mode 4. *)
Lemma date_interval_pass_continues (a : args) (w : world)
    (st : SortingApp.state) (url : string) :
  mode a = 4%Z →
  fst (load_page w a (SortingApp.page st)) = Some url →
  articles w (SortingApp.page st) ≠ [] →
  (SortingApp.iteration a w st).1 = Continue.
Proof.
  intros Hmode Hload Hcards. unfold SortingApp.iteration.
  rewrite Hmode, Hload. simpl.
  destruct (articles w (SortingApp.page st)) as [|b blocks]; [done|].
  unfold SortingApp.should_stop. by rewrite Hmode.
Qed.

Lemma date_interval_pass_continues_witness :
  (SortingApp.iteration Examples.january_2024 Examples.stale_pages
     (SortingApp.State [] ∅ 3 2 (Some ["https://www.trustpilot.com/reviews/abc"])
        1 [])).1 = Continue.
Proof.
  apply (date_interval_pass_continues Examples.january_2024
           Examples.stale_pages
           (SortingApp.State [] ∅ 3 2
              (Some ["https://www.trustpilot.com/reviews/abc"]) 1 [])
           (page_url Examples.january_2024 3)).
  - reflexivity.
  - reflexivity.
  - discriminate.
Defined.

(** Without cards the same mode does stop, at the third page in a row. *)
Lemma date_interval_stops_without_cards (a : args) (w : world)
    (st : SortingApp.state) (url : string) :
  mode a = 4%Z →
  fst (load_page w a (SortingApp.page st)) = Some url →
  articles w (SortingApp.page st) = [] →
  (2 ≤ SortingApp.consecutive_no_additions st)%Z →
  (SortingApp.iteration a w st).1 = Break.
Proof.
  intros Hmode Hload Hcards Hcount. unfold SortingApp.iteration.
  rewrite Hmode, Hload, Hcards. simpl.
  unfold max_consecutive_no_additions.
  by rewrite (proj2 (Z.leb_le 3 _)) by lia.
Qed.

Lemma date_interval_stops_without_cards_witness :
  (SortingApp.iteration Examples.january_2024
     (Examples.online (λ _, [])) (SortingApp.State [] ∅ 3 2 None 0 [])).1
  = Break.
Proof.
  apply (date_interval_stops_without_cards Examples.january_2024
           (Examples.online (λ _, [])) (SortingApp.State [] ∅ 3 2 None 0 [])
           (page_url Examples.january_2024 3)).
  - reflexivity.
  - reflexivity.
  - reflexivity.
  - simpl. lia.
Defined.

Lemma stale_first_pass :
  SortingApp.iteration Examples.january_2024 Examples.stale_pages
    (SortingApp.initial Examples.january_2024)
  = (Continue,
     SortingApp.State [] ∅ 2 1
       (Some ["https://www.trustpilot.com/reviews/abc"]) 0 []).
Proof. vm_compute. reflexivity. Qed.

Lemma stale_pass (p c k : Z) :
  SortingApp.iteration Examples.january_2024 Examples.stale_pages
    (SortingApp.State [] ∅ p c
       (Some ["https://www.trustpilot.com/reviews/abc"]) k [])
  = (Continue,
     SortingApp.State [] ∅ (p + 1) (c + 1)
       (Some ["https://www.trustpilot.com/reviews/abc"]) (k + 1) []).
Proof. vm_compute. reflexivity. Qed.

Lemma stale_passes (n : nat) (p c k : Z) :
  SortingApp.passes n Examples.january_2024 Examples.stale_pages
    (SortingApp.State [] ∅ p c
       (Some ["https://www.trustpilot.com/reviews/abc"]) k [])
  = (Continue,
     SortingApp.State [] ∅ (p + Z.of_nat n) (c + Z.of_nat n)
       (Some ["https://www.trustpilot.com/reviews/abc"]) (k + Z.of_nat n) []).
Proof.
  revert p c k. induction n as [|n IH]; intros p c k.
  - simpl. f_equal. f_equal; lia.
  - cbn [SortingApp.passes]. rewrite stale_pass, IH.
    f_equal. f_equal; lia.
Qed.

(** C1.  A session on the interval of January 2024 whose every page
    shows the same review of June 2023: after [n + 1] passes the loop is
    still running, at page [n + 2], with [n + 1] pages in a row without
    additions and [n] repeats of the signature in a row; and it never
    returns, whatever the number of passes allowed. *)
Theorem date_interval_loop_never_stops (n : nat) :
  SortingApp.passes (S n) Examples.january_2024 Examples.stale_pages
    (SortingApp.initial Examples.january_2024)
  = (Continue,
     SortingApp.State [] ∅ (2 + Z.of_nat n) (1 + Z.of_nat n)
       (Some ["https://www.trustpilot.com/reviews/abc"]) (Z.of_nat n) [])
  ∧ SortingApp.loop n Examples.january_2024 Examples.stale_pages
      (SortingApp.initial Examples.january_2024) = None.
Proof.
  split.
  - cbn [SortingApp.passes]. rewrite stale_first_pass. apply stale_passes.
  - destruct n as [|n]; [done|].
    cbn [SortingApp.loop]. rewrite stale_first_pass.
    generalize 2%Z, 1%Z, 0%Z. induction n as [|n IH]; intros p c k; [done|].
    cbn [SortingApp.loop]. rewrite stale_pass. apply IH.
Qed.

(** * Further properties *)

(** ** Sessions of [trustpilot_scraper_dupefix.py] *)

Module DupefixSession.
Import Dupefix.
Local Open Scope Z_scope.
Local Open Scope list_scope.

(** What holds of [reviews] and [seen_keys] before a pass and is kept by
    every card holds after the pass. *)
Lemma iteration_invariant (P : list review → gset string → Prop)
    (a : args) (w : world) (st : state) :
  (∀ c ps b,
     P (p_reviews ps) (p_seen_keys ps) →
     P (p_reviews (process_block a c ps b)) (p_seen_keys (process_block a c ps b))) →
  P (reviews st) (seen_keys st) →
  P (reviews (iteration a w st).2) (seen_keys (iteration a w st).2).
Proof.
  intros Hstep Hst. unfold iteration.
  destruct (_ && _ && _); [done|].
  destruct (load_page w a (page st)).1; [|done].
  destruct (articles w (page st)) as [|b blocks].
  - cbv zeta.
    match goal with
    | |- context [if ?c then (Break, ?s) else (Continue, ?s)] => by destruct c
    end.
  - cbv zeta.
    match goal with
    | |- context [if ?c then (Break, ?s) else (Continue, ?s)] => destruct c
    end; simpl; unfold process_page;
      set (ps := PageState _ _ _ _ _ _);
      (assert (P (p_reviews ps) (p_seen_keys ps)) as Hps by done);
      clearbody ps; revert ps Hps; generalize (b :: blocks);
      (intros l; induction l as [|x l IH]; intros ps Hps; [done|]);
      simpl; by apply IH, Hstep.
Qed.

Lemma passes_invariant (P : list review → gset string → Prop)
    (a : args) (w : world) (n : nat) (st : state) :
  (∀ c ps b,
     P (p_reviews ps) (p_seen_keys ps) →
     P (p_reviews (process_block a c ps b)) (p_seen_keys (process_block a c ps b))) →
  P (reviews st) (seen_keys st) →
  P (reviews (passes n a w st).2) (seen_keys (passes n a w st).2).
Proof.
  intros Hstep. revert st. induction n as [|n IH]; intros st Hst; [done|].
  simpl. pose proof (iteration_invariant P a w st Hstep Hst) as Hnext.
  destruct (iteration a w st) as [[|] st']; [by apply IH|done].
Qed.

(** A session that returns has made at most [fuel] passes, the last of
    which left the loop. *)
Lemma loop_passes (fuel : nat) (a : args) (w : world) (st st' : state) :
  loop fuel a w st = Some st' → passes fuel a w st = (Break, st').
Proof.
  revert st. induction fuel as [|fuel IH]; intros st; [done|].
  simpl. destruct (iteration a w st) as [[|] st1]; [apply IH|congruence].
Qed.

Lemma scrape_reviews_passes (fuel : nat) (a : args) (w : world)
    (rs : list review) :
  scrape_reviews fuel a w = Some rs →
  rs = reviews (passes fuel a w (initial a)).2.
Proof.
  unfold scrape_reviews.
  destruct (loop fuel a w (initial a)) as [st|] eqn:Hloop; [|done].
  intros [= <-]. by rewrite (loop_passes _ _ _ _ _ Hloop).
Qed.

Lemma elem_of_seed_keys (k : string) (rs : list review) :
  k ∈ seed_keys rs ↔ k ∈ Spec.key_of_review <$> rs.
Proof.
  induction rs as [|r rs IH] using rev_ind.
  - unfold seed_keys. simpl. rewrite elem_of_empty. by rewrite elem_of_nil.
  - rewrite DupefixFacts.seed_keys_snoc, fmap_app, elem_of_union, elem_of_app,
      elem_of_singleton, IH. simpl. rewrite list_elem_of_singleton. tauto.
Qed.

Lemma block_keeps_prefix (a : args) (c : option Z) (ps : page_state)
    (b : block) :
  p_reviews ps `prefix_of` p_reviews (process_block a c ps b).
Proof.
  destruct (DupefixFacts.process_block_cases a c ps b)
    as [(Hr&_)|(d&_&_&_&Hr&_)]; rewrite Hr; [done|].
  by apply prefix_app_r.
Qed.

Lemma block_keeps_keys_distinct (a : args) (c : option Z) (ps : page_state)
    (b : block) :
  p_seen_keys ps = seed_keys (p_reviews ps)
  ∧ NoDup (Spec.key_of_review <$> p_reviews ps) →
  p_seen_keys (process_block a c ps b)
  = seed_keys (p_reviews (process_block a c ps b))
  ∧ NoDup (Spec.key_of_review <$> p_reviews (process_block a c ps b)).
Proof.
  intros [Hseen Hdistinct].
  split; [by apply DupefixFacts.process_block_seen_keys|].
  destruct (DupefixFacts.process_block_cases a c ps b)
    as [(Hr&_)|(d&_&_&Hnew&Hr&_)]; rewrite Hr; [done|].
  rewrite fmap_app. apply NoDup_app. split; [done|].
  split; [|apply NoDup_singleton].
  intros k Hk ->%list_elem_of_singleton. apply Hnew.
  rewrite Hseen, elem_of_seed_keys.
  by rewrite DupefixFacts.stored_review_key in Hk.
Qed.

Lemma block_stores_canonical_link (a : args) (c : option Z) (ps : page_state)
    (b : block) :
  Forall (λ r, canonical_link (Some (r_link r)) = r_link r) (p_reviews ps) →
  Forall (λ r, canonical_link (Some (r_link r)) = r_link r)
    (p_reviews (process_block a c ps b)).
Proof.
  intros Hps.
  destruct (DupefixFacts.process_block_cases a c ps b)
    as [(Hr&_)|(d&_&_&_&Hr&_)]; rewrite Hr; [done|].
  apply Forall_app. split; [done|]. constructor; [|constructor].
  apply canonical_link_fixed.
Qed.

End DupefixSession.

(** X1.  The reviews loaded at resume stay at the head of the list, in
    their order, after any number of passes, and so in any list the
    session returns: a pass only appends. *)
Theorem session_extends_previous (a : args) (w : world) :
  (∀ n : nat,
     previous a `prefix_of`
       Dupefix.reviews (Dupefix.passes n a w (Dupefix.initial a)).2)
  ∧ (∀ (fuel : nat) (rs : list review),
       Dupefix.scrape_reviews fuel a w = Some rs → previous a `prefix_of` rs).
Proof.
  assert (∀ n : nat,
            previous a `prefix_of`
              Dupefix.reviews (Dupefix.passes n a w (Dupefix.initial a)).2)
    as Hpasses.
  { intros n.
    apply (DupefixSession.passes_invariant (λ rs _, previous a `prefix_of` rs));
      [|done].
    intros c ps b Hps. etrans; [exact Hps|].
    apply DupefixSession.block_keeps_prefix. }
  split; [exact Hpasses|].
  intros fuel rs ->%DupefixSession.scrape_reviews_passes. apply Hpasses.
Qed.

(** X2.  When the reviews loaded at resume have distinct keys, the
    reviews of the session have distinct keys after any number of passes,
    and [seen_keys] is the set of their keys: no review is stored twice,
    in one run or across a resume. *)
Theorem session_keys_distinct (a : args) (w : world) (n : nat) :
  NoDup (Spec.key_of_review <$> previous a) →
  NoDup (Spec.key_of_review
           <$> Dupefix.reviews (Dupefix.passes n a w (Dupefix.initial a)).2)
  ∧ ∀ k : string,
      k ∈ Dupefix.seen_keys (Dupefix.passes n a w (Dupefix.initial a)).2
      ↔ k ∈ Spec.key_of_review
              <$> Dupefix.reviews (Dupefix.passes n a w (Dupefix.initial a)).2.
Proof.
  intros Hprev.
  destruct (DupefixSession.passes_invariant
              (λ rs seen,
                 seen = Dupefix.seed_keys rs
                 ∧ NoDup (Spec.key_of_review <$> rs))
              a w n (Dupefix.initial a)) as [Hseen Hdistinct].
  - intros c ps b. apply DupefixSession.block_keeps_keys_distinct.
  - by split.
  - split; [exact Hdistinct|].
    intros k. rewrite Hseen. apply DupefixSession.elem_of_seed_keys.
Qed.

Lemma session_keys_distinct_witness :
  NoDup (Spec.key_of_review
           <$> Dupefix.reviews
                 (Dupefix.passes 2 Examples.all_pages Examples.stale_pages
                    (Dupefix.initial Examples.all_pages)).2).
Proof.
  apply (session_keys_distinct Examples.all_pages Examples.stale_pages 2).
  constructor.
Defined.

(** X3.  When the links of the reviews loaded at resume are canonical,
    so are the links of all reviews of the session: a stored link has no
    query string and no fragment, and canonicalising it again changes
    nothing. *)
Theorem session_links_canonical (a : args) (w : world) (n : nat) :
  Forall (λ r, canonical_link (Some (r_link r)) = r_link r) (previous a) →
  Forall (λ r, canonical_link (Some (r_link r)) = r_link r
               ∧ PyStr.has_char "?" (r_link r) = false
               ∧ PyStr.has_char "#" (r_link r) = false)
    (Dupefix.reviews (Dupefix.passes n a w (Dupefix.initial a)).2).
Proof.
  intros Hprev.
  eapply Forall_impl.
  - apply (DupefixSession.passes_invariant
             (λ rs _, Forall (λ r, canonical_link (Some (r_link r)) = r_link r) rs));
      [|exact Hprev].
    intros c ps b. apply DupefixSession.block_stores_canonical_link.
  - intros r Hr. cbv beta in Hr. split; [exact Hr|]. rewrite <- Hr.
    split; apply canonical_link_clean; [by right|by left].
Qed.

Lemma session_links_canonical_witness :
  Forall (λ r, canonical_link (Some (r_link r)) = r_link r
               ∧ PyStr.has_char "?" (r_link r) = false
               ∧ PyStr.has_char "#" (r_link r) = false)
    (Dupefix.reviews
       (Dupefix.passes 2 Examples.all_pages Examples.stale_pages
          (Dupefix.initial Examples.all_pages)).2).
Proof.
  apply (session_links_canonical Examples.all_pages Examples.stale_pages 2).
  constructor.
Defined.

(** ** When a session of [trustpilot_scraper_dupefix.py] stops *)

Module DupefixStops.
Import Dupefix.
Local Open Scope Z_scope.
Local Open Scope list_scope.

(** [page_added] counts the reviews the cards of the page added. *)
Lemma page_added_counts (a : args) (c : option Z) (st : state)
    (blocks : list block) :
  page_added (process_page a c st blocks)
  = Z.of_nat (length (p_reviews (process_page a c st blocks)))
    - Z.of_nat (length (reviews st)).
Proof.
  unfold process_page. set (ps := PageState _ _ _ _ _ _).
  assert (page_added ps
          = Z.of_nat (length (p_reviews ps)) - Z.of_nat (length (reviews st)))
    as Hps by (simpl; lia).
  clearbody ps. revert ps Hps.
  induction blocks as [|b blocks IH]; intros ps Hps; [done|].
  simpl. apply IH.
  destruct (DupefixFacts.process_block_cases a c ps b)
    as [(Hr&_&Hn)|(d&_&_&_&Hr&_&Hn)]; rewrite Hr, Hn; [done|].
  rewrite length_app. simpl. lia.
Qed.

(** The flag a page ends with: set exactly when there is a cutoff and
    every card whose date could be read is dated before it. *)
Lemma all_older_flag (a : args) (cutoff : Z) (st : state) (blocks : list block) :
  page_all_older_than_cutoff (process_page a (Some cutoff) st blocks) = true
  ↔ ∀ b d, b ∈ blocks → review_date b = Some d → Clock.midnight d < cutoff.
Proof.
  unfold process_page. set (ps := PageState _ _ _ _ _ _).
  assert (page_all_older_than_cutoff ps = true) as Hps by done.
  assert (∀ ps : page_state,
            page_all_older_than_cutoff
              (fold_left (process_block a (Some cutoff)) blocks ps) = true
            ↔ page_all_older_than_cutoff ps = true
              ∧ ∀ b d, b ∈ blocks → review_date b = Some d →
                       Clock.midnight d < cutoff) as Hfold.
  { clear. induction blocks as [|b blocks IH]; intros ps.
    - simpl. split; [intros Hflag; split; [done|]|tauto].
      intros b d Hb. by apply elem_of_nil in Hb.
    - simpl. rewrite IH.
      assert (page_all_older_than_cutoff (process_block a (Some cutoff) ps b)
              = true
              ↔ page_all_older_than_cutoff ps = true
                ∧ ∀ d, review_date b = Some d → Clock.midnight d < cutoff)
        as ->.
      { unfold process_block. destruct (keyword_lists a) as [ka ko].
        destruct (review_date b) as [d|]; simpl.
        - destruct (cutoff <=? Clock.midnight d) eqn:Hc.
          + apply Z.leb_le in Hc.
            destruct (keyword_filter _ _ _ _); simpl;
              try case_bool_decide; simpl;
              (split; [done|]); intros [_ Hdate];
              specialize (Hdate d eq_refl); lia.
          + apply Z.leb_gt in Hc.
            destruct (keyword_filter _ _ _ _); simpl;
              try case_bool_decide; simpl;
              (split; [intros Hflag; split; [done|]; by intros ? [= <-]|tauto]).
        - split; [intros Hflag; split; [done|]; by intros|tauto]. }
      split.
      + intros [[Hps Hb] Hrest]. split; [done|].
        intros b' d [->|Hin]%elem_of_cons; [apply Hb|by apply Hrest].
      + intros [Hps Hall]. split; [split; [done|]|].
        * intros d. apply Hall. by left.
        * intros b' d Hin. apply Hall. by right. }
  rewrite Hfold. tauto.
Qed.

(** A pass below the page limit of a bounded session goes on to the
    next page. *)
Lemma bounded_pass_continues (a : args) (w : world) (st : state) (n : Z) :
  mode a = 1 → max_pages a = Some n → n ≠ 0 → page st ≤ n →
  ∃ st', iteration a w st = (Continue, st') ∧ page st' = page st + 1.
Proof.
  intros Hmode Hmax Hn Hpage. unfold iteration, should_stop.
  rewrite Hmode, Hmax. simpl.
  rewrite (proj2 (Z.eqb_neq n 0)) by done. simpl.
  rewrite (proj2 (Z.ltb_ge n (page st))) by done.
  destruct (load_page w a (page st)).1; [|by eexists].
  destruct (articles w (page st)); by eexists.
Qed.

Lemma bounded_pass_breaks (a : args) (w : world) (st : state) (n : Z) :
  mode a = 1 → max_pages a = Some n → n ≠ 0 → n < page st →
  iteration a w st = (Break, st).
Proof.
  intros Hmode Hmax Hn Hpage. unfold iteration.
  rewrite Hmode, Hmax. simpl.
  rewrite (proj2 (Z.eqb_neq n 0)) by done. simpl.
  by rewrite (proj2 (Z.ltb_lt n (page st))) by done.
Qed.

Lemma bounded_loop (a : args) (w : world) (n : Z) (k : nat) (st : state) :
  mode a = 1 → max_pages a = Some n → n ≠ 0 →
  page st + Z.of_nat k = n + 1 →
  (∃ st', loop (S k) a w st = Some st' ∧ page st' = n + 1)
  ∧ ∀ fuel : nat, (fuel ≤ k)%nat → loop fuel a w st = None.
Proof.
  intros Hmode Hmax Hn. revert st. induction k as [|k IH]; intros st Hpage.
  - split.
    + exists st. simpl. rewrite (bounded_pass_breaks a w st n) by (done || lia).
      split; [done|lia].
    + intros fuel Hfuel. by replace fuel with 0%nat by lia.
  - destruct (bounded_pass_continues a w st n) as (st1 & Hpass & Hnext);
      [done..|lia|].
    destruct (IH st1) as [Hreturns Hruns]; [lia|].
    split.
    + change (loop (S (S k)) a w st)
        with (match iteration a w st with
              | (Break, st') => Some st'
              | (Continue, st') => loop (S k) a w st'
              end).
      by rewrite Hpass.
    + intros [|fuel] Hfuel; [done|]. simpl. rewrite Hpass. apply Hruns. lia.
Qed.

End DupefixStops.

(** X4.  A session limited to [n] pages, [n] at least 1, makes exactly
    [n] passes over pages and returns at the next one, whatever the site
    serves: it returns with [n + 1] passes allowed, its page counter at
    [n + 1], and is still running after any smaller number. *)
Theorem page_limit_ends_session (a : args) (w : world) (n : Z) :
  mode a = 1%Z → max_pages a = Some n → (1 ≤ n)%Z →
  (∃ st : Dupefix.state,
     Dupefix.loop (S (Z.to_nat n)) a w (Dupefix.initial a) = Some st
     ∧ Dupefix.page st = (n + 1)%Z
     ∧ Dupefix.scrape_reviews (S (Z.to_nat n)) a w = Some (Dupefix.reviews st))
  ∧ ∀ fuel : nat,
      (fuel ≤ Z.to_nat n)%nat → Dupefix.scrape_reviews fuel a w = None.
Proof.
  intros Hmode Hmax Hn.
  destruct (DupefixStops.bounded_loop a w n (Z.to_nat n) (Dupefix.initial a))
    as [(st & Hloop & Hpage) Hruns]; [done|done|lia|simpl; lia|].
  split.
  - exists st. split; [done|]. split; [done|].
    unfold Dupefix.scrape_reviews. by rewrite Hloop.
  - intros fuel Hfuel. unfold Dupefix.scrape_reviews. by rewrite Hruns.
Qed.

Lemma page_limit_ends_session_witness :
  (∃ st : Dupefix.state,
     Dupefix.loop 2 Examples.one_page Examples.stale_pages
       (Dupefix.initial Examples.one_page) = Some st
     ∧ Dupefix.page st = 2%Z
     ∧ Dupefix.scrape_reviews 2 Examples.one_page Examples.stale_pages
       = Some (Dupefix.reviews st))
  ∧ ∀ fuel : nat,
      (fuel ≤ 1)%nat →
      Dupefix.scrape_reviews fuel Examples.one_page Examples.stale_pages = None.
Proof.
  apply (page_limit_ends_session Examples.one_page Examples.stale_pages 1).
  - reflexivity.
  - reflexivity.
  - lia.
Defined.

Lemma zero_limit_pass (u : string) (m : Z) (mo : option Z)
    (ks : option (list string)) (s e : option date) (p : list review)
    (w : world) (st : Dupefix.state) :
  Dupefix.iteration (Args u m (Some 0%Z) mo ks s e p) w st
  = Dupefix.iteration (Args u m None mo ks s e p) w st.
Proof.
  unfold Dupefix.iteration. cbn [mode max_pages truthy_int negb].
  destruct (m =? 1)%Z; reflexivity.
Qed.

(** X5.  A page limit of 0 is no limit: the session with
    [max_pages = 0] makes the same passes and returns the same list as
    the session with [max_pages = None]. *)
Theorem zero_page_limit_is_no_limit (u : string) (m : Z) (mo : option Z)
    (ks : option (list string)) (s e : option date) (p : list review)
    (w : world) (fuel : nat) :
  Dupefix.scrape_reviews fuel (Args u m (Some 0%Z) mo ks s e p) w
  = Dupefix.scrape_reviews fuel (Args u m None mo ks s e p) w
  ∧ Dupefix.passes fuel (Args u m (Some 0%Z) mo ks s e p) w
      (Dupefix.initial (Args u m (Some 0%Z) mo ks s e p))
    = Dupefix.passes fuel (Args u m None mo ks s e p) w
        (Dupefix.initial (Args u m None mo ks s e p)).
Proof.
  unfold Dupefix.scrape_reviews.
  change (Dupefix.initial (Args u m (Some 0%Z) mo ks s e p))
    with (Dupefix.initial (Args u m None mo ks s e p)).
  generalize (Dupefix.initial (Args u m None mo ks s e p)) as st.
  induction fuel as [|fuel IH]; intros st; [done|].
  cbn [Dupefix.loop Dupefix.passes]. rewrite zero_limit_pass.
  destruct (Dupefix.iteration (Args u m None mo ks s e p) w st) as [[|] st'];
    [|done].
  apply IH.
Qed.

(** X6.  In the keyword mode and in the page mode without limit, a pass
    that loads its page and adds no review, after two passes in a row
    that added none, leaves the loop: three loaded pages in a row without
    additions end the session. *)
Theorem three_pages_without_additions_stop (a : args) (w : world)
    (st : Dupefix.state) (url : string) :
  mode a = 3%Z ∨ (mode a = 1%Z ∧ truthy_int (max_pages a) = false) →
  (load_page w a (Dupefix.page st)).1 = Some url →
  (2 ≤ Dupefix.consecutive_no_additions st)%Z →
  Dupefix.reviews (Dupefix.iteration a w st).2 = Dupefix.reviews st →
  (Dupefix.iteration a w st).1 = Break.
Proof.
  intros Hmode Hload Hcount. unfold Dupefix.iteration.
  assert ((mode a =? 1)%Z && truthy_int (max_pages a) = false) as Hlimit.
  { destruct Hmode as [->|[-> ->]]; done. }
  rewrite Hlimit, Hload. simpl.
  destruct (articles w (Dupefix.page st)) as [|b blocks].
  - intros _. cbv zeta.
    assert (negb (mode a =? 1)%Z || negb (truthy_int (max_pages a)) = true)
      as -> by (destruct Hmode as [->|[-> ->]]; done).
    unfold max_consecutive_no_additions.
    by rewrite (proj2 (Z.leb_le 3 _)) by lia.
  - cbv zeta.
    pose proof (DupefixStops.page_added_counts a (cutoff_of w a) st (b :: blocks))
      as Hadded.
    set (ps := Dupefix.process_page a (cutoff_of w a) st (b :: blocks)) in *.
    assert (Dupefix.reviews
              (if Dupefix.should_stop a (cutoff_of w a) (Dupefix.page_added ps)
                    (Dupefix.page_all_older_than_cutoff ps)
                    match Dupefix.previous_page_signature st with
                    | Some prev =>
                        if bool_decide
                             (take 20 (Dupefix.page_links_for_signature ps) = prev)
                        then (Dupefix.same_page_signature_count st + 1)%Z
                        else 0%Z
                    | None => 0%Z
                    end
                    (if (Dupefix.page_added ps =? 0)%Z
                     then (Dupefix.consecutive_no_additions st + 1)%Z else 0%Z)
               then (Break, _) else (Continue, _)).2
            = Dupefix.p_reviews ps) as -> by (by destruct (Dupefix.should_stop _ _ _ _ _ _)).
    intros Hsame. rewrite Hsame in Hadded.
    replace (Dupefix.page_added ps) with 0%Z by lia. simpl.
    assert (∀ k : Z,
              Dupefix.should_stop a (cutoff_of w a) 0
                (Dupefix.page_all_older_than_cutoff ps) k
                (Dupefix.consecutive_no_additions st + 1) = true) as Hstop.
    { intros k. unfold Dupefix.should_stop, max_consecutive_no_additions.
      assert ((3 <=? Dupefix.consecutive_no_additions st + 1)%Z = true) as ->
        by (apply Z.leb_le; lia).
      destruct Hmode as [->|[-> ->]]; simpl; [done|].
      by rewrite orb_true_r. }
    by rewrite Hstop.
Qed.

Lemma three_pages_without_additions_stop_witness :
  (Dupefix.iteration Examples.refund_only
     (Examples.online (λ _, [Examples.praise_card]))
     (Dupefix.State [] ∅ 3 2 None 0 [])).1 = Break.
Proof.
  apply (three_pages_without_additions_stop Examples.refund_only
           (Examples.online (λ _, [Examples.praise_card]))
           (Dupefix.State [] ∅ 3 2 None 0 [])
           (page_url Examples.refund_only 3)).
  - left. reflexivity.
  - reflexivity.
  - simpl. lia.
  - vm_compute. reflexivity.
Defined.

Lemma dupefix_pass_with_cards (a : args) (w : world) (st : Dupefix.state)
    (url : string) (b : block) (blocks : list block) :
  (mode a =? 1)%Z && truthy_int (max_pages a)
  && match max_pages a with
     | Some n => (n <? Dupefix.page st)%Z
     | None => false
     end = false →
  (load_page w a (Dupefix.page st)).1 = Some url →
  articles w (Dupefix.page st) = b :: blocks →
  ∃ count : Z,
    (Dupefix.iteration a w st).1
    = (if Dupefix.should_stop a (cutoff_of w a)
            (Dupefix.page_added
               (Dupefix.process_page a (cutoff_of w a) st (b :: blocks)))
            (Dupefix.page_all_older_than_cutoff
               (Dupefix.process_page a (cutoff_of w a) st (b :: blocks)))
            count
            (if (Dupefix.page_added
                   (Dupefix.process_page a (cutoff_of w a) st (b :: blocks))
                 =? 0)%Z
             then (Dupefix.consecutive_no_additions st + 1)%Z else 0%Z)
       then Break else Continue)
    ∧ Dupefix.reviews (Dupefix.iteration a w st).2
      = Dupefix.p_reviews
          (Dupefix.process_page a (cutoff_of w a) st (b :: blocks)).
Proof.
  intros Hlimit Hload Hcards. unfold Dupefix.iteration.
  rewrite Hlimit, Hload, Hcards. cbv zeta.
  exists (match Dupefix.previous_page_signature st with
          | Some prev =>
              if bool_decide
                   (take 20
                      (Dupefix.page_links_for_signature
                         (Dupefix.process_page a (cutoff_of w a) st (b :: blocks)))
                    = prev)
              then (Dupefix.same_page_signature_count st + 1)%Z else 0%Z
          | None => 0%Z
          end).
  by destruct (Dupefix.should_stop _ _ _ _ _ _).
Qed.

(** X7.  In the months mode, a pass that loads a page with cards, every
    card whose date could be read being older than the cutoff, and that
    adds no review, leaves the loop: the session ends at the first page
    wholly past the window that brings nothing new. *)
Theorem page_past_window_stops (a : args) (w : world) (st : Dupefix.state)
    (url : string) (cutoff : Z) :
  mode a = 2%Z →
  cutoff_of w a = Some cutoff →
  (load_page w a (Dupefix.page st)).1 = Some url →
  articles w (Dupefix.page st) ≠ [] →
  (∀ b d, b ∈ articles w (Dupefix.page st) → review_date b = Some d →
          (Clock.midnight d < cutoff)%Z) →
  Dupefix.reviews (Dupefix.iteration a w st).2 = Dupefix.reviews st →
  (Dupefix.iteration a w st).1 = Break.
Proof.
  intros Hmode Hcutoff Hload Hcards Hold Hsame.
  destruct (articles w (Dupefix.page st)) as [|b blocks] eqn:Harticles; [done|].
  destruct (dupefix_pass_with_cards a w st url b blocks)
    as (count & Hpass & Hreviews); [by rewrite Hmode|done|done|].
  rewrite Hpass. rewrite Hreviews in Hsame.
  pose proof (DupefixStops.page_added_counts a (cutoff_of w a) st (b :: blocks))
    as Hadded.
  rewrite Hsame in Hadded. rewrite Hcutoff in *.
  replace (Dupefix.page_added _) with 0%Z by lia.
  rewrite (proj2 (DupefixStops.all_older_flag a cutoff st (b :: blocks)))
    by exact Hold.
  unfold Dupefix.should_stop. by rewrite Hmode.
Qed.

Lemma page_past_window_stops_witness :
  (Dupefix.iteration Examples.one_month_back Examples.stale_pages
     (Dupefix.State [Review "Ann" "2023-06-01"
                       "https://www.trustpilot.com/reviews/abc" "Slow refund"]
        {["link::https://www.trustpilot.com/reviews/abc"]} 2 0
        (Some ["https://www.trustpilot.com/reviews/zzz"]) 0 [])).1 = Break.
Proof.
  apply (page_past_window_stops Examples.one_month_back Examples.stale_pages
           (Dupefix.State [Review "Ann" "2023-06-01"
                             "https://www.trustpilot.com/reviews/abc"
                             "Slow refund"]
              {["link::https://www.trustpilot.com/reviews/abc"]} 2 0
              (Some ["https://www.trustpilot.com/reviews/zzz"]) 0 [])
           (page_url Examples.one_month_back 2) 63842299200000000%Z).
  - reflexivity.
  - vm_compute. reflexivity.
  - reflexivity.
  - discriminate.
  - intros b d Hb. change (b ∈ [Examples.old_card]) in Hb.
    apply list_elem_of_singleton in Hb as ->.
    intros [= <-]. vm_compute. reflexivity.
  - vm_compute. reflexivity.
Defined.

(** ** Sessions of [trustpilot_scraper.py] *)

Lemma original_pass_continues (a : args) (w : world) (st : Original.state) :
  (mode a =? 1)%Z && truthy_int (max_pages a) = false →
  (Original.iteration a w st).1 = Continue.
Proof.
  intros Hlimit. unfold Original.iteration. rewrite Hlimit. simpl.
  destruct (load_page w a (Original.page st)).1; [|done].
  by destruct (articles w (Original.page st)).
Qed.

(** X8.  [trustpilot_scraper.py] leaves its loop at the page limit only:
    a session by months, by keywords or over all pages never returns,
    whatever the site serves and however many passes it is given. *)
Theorem original_stops_only_at_limit (a : args) (w : world) (fuel : nat)
    (st : Original.state) :
  (mode a =? 1)%Z && truthy_int (max_pages a) = false →
  OriginalSession.loop fuel a w st = None.
Proof.
  intros Hlimit. revert st. induction fuel as [|fuel IH]; intros st; [done|].
  simpl. pose proof (original_pass_continues a w st Hlimit) as Hpass.
  destruct (Original.iteration a w st) as [[|] st']; [apply IH|done].
Qed.

Lemma original_stops_only_at_limit_witness :
  OriginalSession.loop 50 Examples.refund_only
    (Examples.online (λ _, [])) (Original.initial Examples.refund_only) = None.
Proof.
  exact (original_stops_only_at_limit Examples.refund_only
           (Examples.online (λ _, [])) 50
           (Original.initial Examples.refund_only) eq_refl).
Defined.

(** A card without permalink is filed under the address of the page:
    once that address is in [seen_links] such a card adds nothing. *)
Lemma original_linkless_seen (a : args) (c : option Z) (url : string)
    (ps : Original.page_state) (b : block) :
  truthy_link (extract_review_permalink b) = false →
  url ∈ Original.p_seen_links ps →
  Original.p_reviews (Original.process_block a c url ps b)
  = Original.p_reviews ps
  ∧ url ∈ Original.p_seen_links (Original.process_block a c url ps b).
Proof.
  intros Hlink Hseen. unfold Original.process_block.
  destruct (keyword_lists a) as [ka ko]. rewrite Hlink.
  destruct (review_date b) as [d|]; [|done].
  destruct (match c with Some _ => _ | None => _ end); [done|].
  by rewrite bool_decide_eq_true_2.
Qed.

Lemma original_linkless_first (a : args) (c : option Z) (url : string)
    (ps : Original.page_state) (b : block) :
  truthy_link (extract_review_permalink b) = false →
  Original.p_reviews (Original.process_block a c url ps b)
  = Original.p_reviews ps
  ∨ (length (Original.p_reviews (Original.process_block a c url ps b))
     = S (length (Original.p_reviews ps))
     ∧ url ∈ Original.p_seen_links (Original.process_block a c url ps b)).
Proof.
  intros Hlink. unfold Original.process_block.
  destruct (keyword_lists a) as [ka ko]. rewrite Hlink.
  destruct (review_date b) as [d|]; [|by left].
  destruct (match c with Some _ => _ | None => _ end); [by left|].
  case_bool_decide; [by left|].
  destruct (keyword_filter _ _ _ _); simpl; [|by left].
  right. rewrite length_app. simpl. split; [lia|set_solver].
Qed.

(** X9.  On a page of [trustpilot_scraper.py] whose cards have no
    permalink, at most one review is stored: all such cards share the
    address of the page as their link, and the second one is taken for
    a duplicate of the first. *)
Theorem original_one_linkless_review_per_page (a : args) (c : option Z)
    (url : string) (ps : Original.page_state) (blocks : list block) :
  Forall (λ b, truthy_link (extract_review_permalink b) = false) blocks →
  (length (Original.p_reviews
             (fold_left (Original.process_block a c url) blocks ps))
   ≤ S (length (Original.p_reviews ps)))%nat.
Proof.
  intros Hlinkless. revert ps.
  induction Hlinkless as [|b blocks Hb Hrest IH]; intros ps; [simpl; lia|].
  simpl.
  destruct (original_linkless_first a c url ps b Hb) as [Hr|[Hr Hin]].
  - specialize (IH (Original.process_block a c url ps b)).
    rewrite Hr in IH. exact IH.
  - assert (Original.p_reviews
              (fold_left (Original.process_block a c url) blocks
                 (Original.process_block a c url ps b))
            = Original.p_reviews (Original.process_block a c url ps b)) as ->.
    { clear IH. revert Hin.
      generalize (Original.process_block a c url ps b) as ps'.
      induction Hrest as [|b' blocks' Hb' _ IH']; intros ps' Hin; [done|].
      simpl.
      destruct (original_linkless_seen a c url ps' b' Hb' Hin) as [Hr' Hin'].
      by rewrite IH', Hr'. }
    lia.
Qed.

Lemma original_one_linkless_review_per_page_witness :
  (length (Original.p_reviews
             (fold_left
                (Original.process_block Examples.all_pages None
                   (page_url Examples.all_pages 1))
                [Examples.linkless_card;
                 Block "Dan" "Another card without permalink" None
                   (Some (Date 2024 2 12))]
                (Original.PageState [] ∅ 0 0)))
   ≤ 1)%nat.
Proof.
  apply (original_one_linkless_review_per_page Examples.all_pages None
           (page_url Examples.all_pages 1) (Original.PageState [] ∅ 0 0)
           [Examples.linkless_card;
            Block "Dan" "Another card without permalink" None
              (Some (Date 2024 2 12))]).
  repeat constructor.
Defined.

(** ** Sessions of [sortingapp/app/scrape_reviews.py] *)

Module SortingAppSession.
Import SortingApp.
Local Open Scope Z_scope.
Local Open Scope list_scope.

(** What one card does to [reviews]: nothing, or one review at the end,
    made from a card with text that is no teaser, with a date inside the
    interval asked for. *)
Lemma card_cases (a : args) (c : option Z) (ps : page_state) (b : block) :
  p_reviews (process_block a c ps b) = p_reviews ps
  ∨ (∃ d : date,
       (review_date b = Some d)
       ∧ p_reviews (process_block a c ps b)
         = p_reviews ps
           ++ [Review (extract_reviewer_name b) (Clock.strftime d)
                 (canonical_link (extract_review_permalink b))
                 (extract_review_text b)]
       ∧ extract_review_text b ≠ ""
       ∧ PyStr.endswith "See more" (extract_review_text b) = false
       ∧ (∀ s, start_date a = Some s → Clock.midnight s ≤ Clock.midnight d)
       ∧ (∀ e, end_date a = Some e → Clock.midnight d ≤ Clock.midnight e)).
Proof.
  unfold process_block. destruct (keyword_lists a) as [ka ko].
  destruct (PyStr.truthy (extract_review_text b)) eqn:Htext; simpl; [|by left].
  destruct (PyStr.endswith "See more" (extract_review_text b)) eqn:Hteaser;
    [by left|].
  destruct (review_date b) as [d|]; [|by left].
  destruct (match start_date a with Some _ => _ | None => _ end) eqn:Hstart;
    [by left|].
  destruct (match end_date a with Some _ => _ | None => _ end) eqn:Hend;
    [by left|].
  destruct (keyword_filter _ _ _ _); simpl; [|by left].
  case_bool_decide; [by left|].
  right. exists d. split; [done|]. split; [done|].
  split; [intros Hempty; by rewrite Hempty in Htext|]. split; [done|].
  split.
  - intros s Hs. rewrite Hs in Hstart. by apply Z.ltb_ge in Hstart.
  - intros e He. rewrite He in Hend. by apply Z.ltb_ge in Hend.
Qed.

Lemma pass_invariant (P : list review → Prop)
    (a : args) (w : world) (st : state) :
  (∀ c ps b, P (p_reviews ps) → P (p_reviews (process_block a c ps b))) →
  P (reviews st) → P (reviews (iteration a w st).2).
Proof.
  intros Hstep Hst. unfold iteration.
  destruct (_ && _ && _); [done|].
  destruct (load_page w a (page st)).1; [|done].
  destruct (articles w (page st)) as [|b blocks].
  - cbv zeta.
    match goal with
    | |- context [if ?c then (Break, ?s) else (Continue, ?s)] => by destruct c
    end.
  - cbv zeta.
    match goal with
    | |- context [if ?c then (Break, ?s) else (Continue, ?s)] => destruct c
    end; simpl; unfold process_page;
      set (ps := PageState _ _ _ _ _ _);
      (assert (P (p_reviews ps)) as Hps by done);
      clearbody ps; revert ps Hps; generalize (b :: blocks);
      (intros l; induction l as [|x l IH]; intros ps Hps; [done|]);
      simpl; by apply IH, Hstep.
Qed.

Lemma session_invariant (P : list review → Prop)
    (a : args) (w : world) (n : nat) (st : state) :
  (∀ c ps b, P (p_reviews ps) → P (p_reviews (process_block a c ps b))) →
  P (reviews st) → P (reviews (passes n a w st).2).
Proof.
  intros Hstep. revert st. induction n as [|n IH]; intros st Hst; [done|].
  simpl. pose proof (pass_invariant P a w st Hstep Hst) as Hnext.
  destruct (iteration a w st) as [[|] st']; [by apply IH|done].
Qed.

End SortingAppSession.

(** X10.  Every review a session of [sortingapp/app/scrape_reviews.py]
    adds to the reviews loaded at resume has a text that is not empty and
    does not end with "See more": neither blank cards nor teasers are
    stored, after any number of passes. *)
Theorem sortingapp_stores_no_blank_or_teaser (a : args) (w : world) (n : nat) :
  ∃ added : list review,
    SortingApp.reviews (SortingApp.passes n a w (SortingApp.initial a)).2
    = previous a ++ added
    ∧ Forall (λ r, r_text r ≠ ""
                   ∧ PyStr.endswith "See more" (r_text r) = false) added.
Proof.
  apply (SortingAppSession.session_invariant
           (λ rs, ∃ added : list review,
              rs = previous a ++ added
              ∧ Forall (λ r, r_text r ≠ ""
                             ∧ PyStr.endswith "See more" (r_text r) = false)
                  added)).
  - intros c ps b (added & Hrs & Hadded).
    destruct (SortingAppSession.card_cases a c ps b)
      as [Hr|(d & _ & Hr & Htext & Hteaser & _)]; rewrite Hr.
    + by exists added.
    + exists (added ++ [Review (extract_reviewer_name b) (Clock.strftime d)
                          (canonical_link (extract_review_permalink b))
                          (extract_review_text b)]).
      split; [by rewrite Hrs, app_assoc|].
      apply Forall_app. split; [done|]. by repeat constructor.
  - exists []. by rewrite app_nil_r.
Qed.

(** ** Days and their text *)

Module ClockFacts.
Import Clock.
Local Open Scope Z_scope.

Lemma digit_code (n : Z) :
  N_of_ascii (digit n) = Z.to_N (48 + n mod 10).
Proof.
  unfold digit. apply N_ascii_embedding.
  pose proof (Z.mod_pos_bound n 10 eq_refl). lia.
Qed.

Lemma digit_inj (a b : Z) : digit a = digit b → a mod 10 = b mod 10.
Proof.
  intros H. apply (f_equal N_of_ascii) in H. rewrite !digit_code in H.
  pose proof (Z.mod_pos_bound a 10 eq_refl).
  pose proof (Z.mod_pos_bound b 10 eq_refl). lia.
Qed.

Lemma digit_no_dash (n : Z) : digit n ≠ "-"%char.
Proof.
  intros H. apply (f_equal N_of_ascii) in H. rewrite digit_code in H.
  pose proof (Z.mod_pos_bound n 10 eq_refl).
  change (N_of_ascii "-") with 45%N in H. lia.
Qed.

Lemma decimal_go_S (f : nat) (n : Z) (acc : string) :
  decimal_go (S f) n acc
  = if n <? 10 then String (digit n) acc
    else decimal_go f (n / 10) (String (digit n) acc).
Proof. reflexivity. Qed.

(** The digits of a year. *)
Lemma decimal_year (y : Z) :
  1 ≤ y ≤ 9999 →
  decimal y
  = if y <? 10 then String (digit y) ""
    else if y <? 100 then String (digit (y / 10)) (String (digit y) "")
    else if y <? 1000
      then String (digit (y / 100)) (String (digit (y / 10)) (String (digit y) ""))
    else String (digit (y / 1000))
           (String (digit (y / 100)) (String (digit (y / 10))
              (String (digit y) ""))).
Proof.
  intros Hy. unfold decimal.
  destruct (y <? 0) eqn:Hneg; [apply Z.ltb_lt in Hneg; lia|].
  assert (y / 10 / 10 = y / 100) as H100 by (rewrite Z.div_div by lia; reflexivity).
  assert (y / 100 / 10 = y / 1000) as H1000 by (rewrite Z.div_div by lia; reflexivity).
  assert ((y / 10 <? 10) = (y <? 100)) as Hlt100.
  { destruct (Z.ltb_spec (y / 10) 10), (Z.ltb_spec y 100); try done;
      Z.to_euclidean_division_equations; lia. }
  assert ((y / 100 <? 10) = (y <? 1000)) as Hlt1000.
  { destruct (Z.ltb_spec (y / 100) 10), (Z.ltb_spec y 1000); try done;
      Z.to_euclidean_division_equations; lia. }
  assert ((y / 1000 <? 10) = true) as Hlt10000.
  { apply Z.ltb_lt. Z.to_euclidean_division_equations. lia. }
  destruct (Z.to_nat y) as [|[|[|f]]] eqn:Hf.
  - lia.
  - rewrite decimal_go_S. by destruct (Z.ltb_spec y 10); [|lia].
  - rewrite !decimal_go_S, Hlt100.
    destruct (Z.ltb_spec y 10); [done|].
    by destruct (Z.ltb_spec y 100); [|lia].
  - rewrite !decimal_go_S, Hlt100, H100, Hlt1000, H1000, Hlt10000.
    destruct (Z.ltb_spec y 10); [done|].
    destruct (Z.ltb_spec y 100); [done|].
    by destruct (Z.ltb_spec y 1000).
Qed.

Lemma days_in_month_bound (y m : Z) : days_in_month y m ≤ 31.
Proof.
  unfold days_in_month.
  destruct (Z.eqb_spec m 2) as [-> | _]; [by destruct (is_leap y)|].
  rewrite Z.add_0_r. generalize (Z.to_nat m). intros n.
  do 13 (destruct n as [|n]; [simpl; lia|]).
  simpl. destruct n; lia.
Qed.

(** The fields of a day that exists. *)
Lemma valid_bounds (d : date) :
  valid d = true →
  1 ≤ year d ≤ 9999 ∧ 1 ≤ month d ≤ 12 ∧ 1 ≤ day d ≤ 31.
Proof.
  unfold valid. rewrite !andb_true_iff, !Z.leb_le.
  pose proof (days_in_month_bound (year d) (month d)). lia.
Qed.

Lemma text_cons (c : ascii) (s t : string) :
  String c s +:+ t = String c (s +:+ t).
Proof. reflexivity. Qed.

Lemma text_nil (t : string) : "" +:+ t = t.
Proof. reflexivity. Qed.

(** The text of a day that exists tells the day. *)
Lemma strftime_inj (d1 d2 : date) :
  valid d1 = true → valid d2 = true → strftime d1 = strftime d2 → d1 = d2.
Proof.
  intros (Hy1 & Hm1 & Hd1)%valid_bounds (Hy2 & Hm2 & Hd2)%valid_bounds.
  destruct d1 as [y1 m1 dd1], d2 as [y2 m2 dd2]. simpl in *.
  unfold strftime. simpl. rewrite !decimal_year by done.
  intros H.
  assert (y1 = y2 ∧ m1 = m2 ∧ dd1 = dd2) as (-> & -> & ->); [|done].
  unfold two_digits in H.
  destruct (Z.ltb_spec y1 10), (Z.ltb_spec y2 10);
      [|try destruct (Z.ltb_spec y2 100); try destruct (Z.ltb_spec y2 1000)
       |try destruct (Z.ltb_spec y1 100); try destruct (Z.ltb_spec y1 1000)
       |try destruct (Z.ltb_spec y1 100); try destruct (Z.ltb_spec y1 1000);
        try destruct (Z.ltb_spec y2 100); try destruct (Z.ltb_spec y2 1000)];
      rewrite ?text_cons, ?text_nil in H;
      simplify_eq;
      repeat match goal with
             | H : digit _ = "-"%char |- _ => by apply digit_no_dash in H
             | H : "-"%char = digit _ |- _ =>
                 symmetry in H; by apply digit_no_dash in H
             | H : digit _ = digit _ |- _ => apply digit_inj in H
             end;
      Z.to_euclidean_division_equations; lia.
Qed.

End ClockFacts.

(** ** The cards behind the reviews of [sortingapp/app/scrape_reviews.py] *)

Module SortingAppCards.
Import SortingApp.
Local Open Scope Z_scope.
Local Open Scope list_scope.

(** A property of [reviews] kept by every card of the page at hand is
    kept by a pass. *)
Lemma pass_invariant_on_cards (P : list review → Prop)
    (a : args) (w : world) (st : state) :
  (∀ c ps b, b ∈ articles w (page st) →
             P (p_reviews ps) → P (p_reviews (process_block a c ps b))) →
  P (reviews st) → P (reviews (iteration a w st).2).
Proof.
  intros Hstep Hst. unfold iteration.
  destruct (_ && _ && _); [done|].
  destruct (load_page w a (page st)).1; [|done].
  destruct (articles w (page st)) as [|b blocks] eqn:Hcards.
  - cbv zeta.
    match goal with
    | |- context [if ?c then (Break, ?s) else (Continue, ?s)] => by destruct c
    end.
  - assert (P (p_reviews (process_page a (cutoff_of w a) st (b :: blocks))))
      as Hpage.
    { unfold process_page.
      set (ps := PageState _ _ _ _ _ _).
      assert (P (p_reviews ps)) as Hps by done.
      clearbody ps. revert ps Hps Hstep. generalize (b :: blocks).
      intros l. induction l as [|x l IH]; intros ps Hps Hstep; [done|].
      simpl. apply IH.
      - apply Hstep; [by left|done].
      - intros c ps' b' Hb'. apply Hstep. by right. }
    cbv zeta.
    match goal with
    | |- context [if ?c then (Break, ?s) else (Continue, ?s)] => by destruct c
    end.
Qed.

Lemma session_invariant_on_cards (P : list review → Prop)
    (a : args) (w : world) (n : nat) (st : state) :
  (∀ page c ps b, b ∈ articles w page →
                  P (p_reviews ps) → P (p_reviews (process_block a c ps b))) →
  P (reviews st) → P (reviews (passes n a w st).2).
Proof.
  intros Hstep. revert st. induction n as [|n IH]; intros st Hst; [done|].
  simpl.
  pose proof (pass_invariant_on_cards P a w st (Hstep (page st)) Hst) as Hnext.
  destruct (iteration a w st) as [[|] st']; [by apply IH|done].
Qed.

End SortingAppCards.

(** X11.  Every review a session of [sortingapp/app/scrape_reviews.py]
    adds is made from a card of the site whose day lies inside the
    interval asked for, neither before [start_date] nor after
    [end_date]: the review has the name, the canonical link and the text
    of the card and the text of its day as its date, and no other day
    that exists has that text, so that no date outside the interval is
    stored.  The days read from the cards are days that exist, as
    [datetime.strptime] yields no other. *)
Theorem sortingapp_adds_inside_interval (a : args) (w : world) (n : nat)
    (s e : date) :
  start_date a = Some s → end_date a = Some e →
  (∀ page b d, b ∈ articles w page → review_date b = Some d →
               Clock.valid d = true) →
  ∃ added : list review,
    SortingApp.reviews (SortingApp.passes n a w (SortingApp.initial a)).2
    = previous a ++ added
    ∧ Forall
        (λ r, ∃ (page : Z) (b : block) (d : date),
           b ∈ articles w page
           ∧ review_date b = Some d
           ∧ r = Review (extract_reviewer_name b) (Clock.strftime d)
                   (canonical_link (extract_review_permalink b))
                   (extract_review_text b)
           ∧ (Clock.midnight s ≤ Clock.midnight d ≤ Clock.midnight e)%Z
           ∧ ∀ d' : date,
               Clock.valid d' = true → Clock.strftime d' = r_date r →
               (Clock.midnight s ≤ Clock.midnight d' ≤ Clock.midnight e)%Z)
        added.
Proof.
  intros Hs He Hvalid.
  apply (SortingAppCards.session_invariant_on_cards
           (λ rs, ∃ added : list review,
              rs = previous a ++ added
              ∧ Forall
                  (λ r, ∃ (page : Z) (b : block) (d : date),
                     b ∈ articles w page
                     ∧ review_date b = Some d
                     ∧ r = Review (extract_reviewer_name b) (Clock.strftime d)
                             (canonical_link (extract_review_permalink b))
                             (extract_review_text b)
                     ∧ (Clock.midnight s ≤ Clock.midnight d
                        ≤ Clock.midnight e)%Z
                     ∧ ∀ d' : date,
                         Clock.valid d' = true →
                         Clock.strftime d' = r_date r →
                         (Clock.midnight s ≤ Clock.midnight d'
                          ≤ Clock.midnight e)%Z) added)).
  - intros page c ps b Hb (added & Hrs & Hadded).
    destruct (SortingAppSession.card_cases a c ps b)
      as [Hr|(d & Hd & Hr & _ & _ & Hstart & Hend)]; rewrite Hr.
    + by exists added.
    + exists (added ++ [Review (extract_reviewer_name b) (Clock.strftime d)
                          (canonical_link (extract_review_permalink b))
                          (extract_review_text b)]).
      split; [by rewrite Hrs, app_assoc|].
      apply Forall_app. split; [done|]. constructor; [|constructor].
      exists page, b, d.
      assert (Clock.midnight s ≤ Clock.midnight d ≤ Clock.midnight e)%Z
        as Hinside by (split; [by apply Hstart|by apply Hend]).
      repeat (split; [done|]).
      intros d' Hd' Htext. cbn [r_date] in Htext.
      by rewrite (ClockFacts.strftime_inj d' d Hd' (Hvalid page b d Hb Hd) Htext).
  - exists []. by rewrite app_nil_r.
Qed.

Lemma sortingapp_adds_inside_interval_witness :
  (∃ added : list review,
     SortingApp.reviews
       (SortingApp.passes 2 Examples.january_2024 IntervalExamples.winter_pages
          (SortingApp.initial Examples.january_2024)).2
     = previous Examples.january_2024 ++ added
     ∧ Forall
         (λ r, ∃ (page : Z) (b : block) (d : date),
            b ∈ articles IntervalExamples.winter_pages page
            ∧ review_date b = Some d
            ∧ r = Review (extract_reviewer_name b) (Clock.strftime d)
                    (canonical_link (extract_review_permalink b))
                    (extract_review_text b)
            ∧ (Clock.midnight (Date 2024 1 1) ≤ Clock.midnight d
               ≤ Clock.midnight (Date 2024 1 31))%Z
            ∧ ∀ d' : date,
                Clock.valid d' = true → Clock.strftime d' = r_date r →
                (Clock.midnight (Date 2024 1 1) ≤ Clock.midnight d'
                 ≤ Clock.midnight (Date 2024 1 31))%Z)
         added)
  ∧ SortingApp.reviews
      (SortingApp.passes 2 Examples.january_2024 IntervalExamples.winter_pages
         (SortingApp.initial Examples.january_2024)).2
    = [Review "Dee" "2024-01-15" "https://www.trustpilot.com/reviews/jkl"
         "Car was fine"].
Proof.
  split; [|vm_compute; reflexivity].
  apply (sortingapp_adds_inside_interval Examples.january_2024
           IntervalExamples.winter_pages 2 (Date 2024 1 1) (Date 2024 1 31)).
  - reflexivity.
  - reflexivity.
  - intros page b d Hb Hd.
    change (b ∈ Examples.only_page_1
                  [Examples.praise_card; IntervalExamples.january_card;
                   Examples.old_card] page) in Hb.
    unfold Examples.only_page_1 in Hb. destruct (page =? 1)%Z.
    + apply elem_of_cons in Hb as [-> | Hb]; [by injection Hd as <-|].
      apply elem_of_cons in Hb as [-> | Hb]; [by injection Hd as <-|].
      apply list_elem_of_singleton in Hb as ->. by injection Hd as <-.
    + by apply elem_of_nil in Hb.
Defined.

(** ** Normalisation in [dedupe_results.py] *)

Module NormalizeFacts.
Import PyStr.

Lemma isspace_lower_char c : isspace (lower_char c) = isspace c.
Proof. destruct c as [[] [] [] [] [] [] [] []]; reflexivity. Qed.

Lemma lower_char_idem c : lower_char (lower_char c) = lower_char c.
Proof. destruct c as [[] [] [] [] [] [] [] []]; reflexivity. Qed.

Lemma lower_idem s : lower (lower s) = lower s.
Proof.
  induction s as [|c s IH]; simpl; [done|]. by rewrite lower_char_idem, IH.
Qed.

Lemma lstrip_lower s : lstrip (lower s) = lower (lstrip s).
Proof.
  induction s as [|c s IH]; simpl; [done|].
  rewrite isspace_lower_char. by destruct (isspace c).
Qed.

Lemma rstrip_lower s : rstrip (lower s) = lower (rstrip s).
Proof.
  induction s as [|c s IH]; simpl; [done|].
  rewrite IH, isspace_lower_char.
  destruct (rstrip s); simpl; [by destruct (isspace c)|done].
Qed.

Lemma strip_lower s : strip (lower s) = lower (strip s).
Proof. unfold strip. by rewrite lstrip_lower, rstrip_lower. Qed.

Lemma collapse_lower s : collapse_spaces (lower s) = lower (collapse_spaces s).
Proof.
  induction s as [|c s IH]; [done|].
  cbn [lower collapse_spaces]. rewrite isspace_lower_char.
  destruct (isspace c) eqn:Hc.
  - destruct s as [|d s]; [done|].
    cbn [lower]. rewrite isspace_lower_char.
    cbn [lower] in IH.
    destruct (isspace d); [exact IH|]. cbn [lower]. by rewrite IH.
  - cbn [lower]. by rewrite IH.
Qed.

Lemma collapse_nonempty c s : collapse_spaces (String c s) ≠ "".
Proof.
  revert c. induction s as [|d s IH]; intros c; simpl.
  - by destruct (isspace c).
  - destruct (isspace c); [|done].
    destruct (isspace d) eqn:Hd; [|done].
    specialize (IH d). simpl in IH. by rewrite Hd in IH.
Qed.

Lemma collapse_idem s : collapse_spaces (collapse_spaces s) = collapse_spaces s.
Proof.
  induction s as [|c s IH]; [done|].
  cbn [collapse_spaces]. destruct (isspace c) eqn:Hc.
  - destruct s as [|d s]; [done|].
    destruct (isspace d) eqn:Hd; [exact IH|].
    cbn [collapse_spaces] in IH |- *. rewrite Hd in IH |- *.
    change (isspace " ") with true. cbn iota.
    by rewrite Hd, IH.
  - cbn [collapse_spaces]. by rewrite Hc, IH.
Qed.

Lemma lstrip_collapse s : lstrip s = s → lstrip (collapse_spaces s) = collapse_spaces s.
Proof.
  destruct s as [|c s]; [done|]. simpl.
  destruct (isspace c) eqn:Hc.
  - intros Hs. exfalso. clear -Hs.
    assert (∀ t, String.length (lstrip t) ≤ String.length t)%nat as Hlen.
    { induction t as [|d t IH]; simpl; [done|].
      destruct (isspace d); simpl; lia. }
    pose proof (Hlen s) as Hle. rewrite Hs in Hle. simpl in Hle. lia.
  - intros _. simpl. by rewrite Hc.
Qed.

Lemma rstrip_collapse s : rstrip s = s → rstrip (collapse_spaces s) = collapse_spaces s.
Proof.
  induction s as [|c s IH]; [done|].
  cbn [rstrip]. destruct (rstrip s) as [|e r] eqn:Hr.
  - destruct (isspace c) eqn:Hc; [done|]. intros [= Hs]. subst s.
    simpl. rewrite Hc. simpl. by rewrite Hc.
  - intros [= Hs]. rewrite <- Hs in IH. specialize (IH eq_refl).
    rewrite <- Hs. rewrite <- Hs in Hr. clear Hs.
    assert (∀ x, rstrip (String x (collapse_spaces (String e r)))
                 = String x (collapse_spaces (String e r))) as Hcons.
    { intros x. cbn [rstrip]. rewrite IH.
      pose proof (collapse_nonempty e r) as Hne.
      by destruct (collapse_spaces (String e r)). }
    cbn [collapse_spaces] in IH, Hcons |- *. destruct (isspace c).
    + destruct (isspace e) eqn:He; [exact IH|apply Hcons].
    + apply Hcons.
Qed.

Lemma strip_collapse_strip s :
  strip (collapse_spaces (strip s)) = collapse_spaces (strip s).
Proof.
  unfold strip at 1.
  assert (lstrip (strip s) = strip s) as Hl.
  { pose proof (PyStrFacts.strip_idem s) as Hidem. unfold strip in *.
    destruct (lstrip s) as [|c t] eqn:Hs; [done|].
    apply PyStrFacts.lstrip_head in Hs.
    destruct (PyStrFacts.rstrip_keeps_head c t Hs) as [t' ->].
    simpl. by rewrite Hs. }
  assert (rstrip (strip s) = strip s) as Hr
    by (unfold strip; apply PyStrFacts.rstrip_idem).
  rewrite (lstrip_collapse _ Hl). by apply rstrip_collapse.
Qed.

End NormalizeFacts.

(** X12.  The normalisation of a field is stable: normalising twice is
    normalising once, and neither the letter case of the field nor white
    space around it changes the result; a missing field counts as an
    empty one.  Fields that differ in these respects only give one key. *)
Theorem normalize_whitespace_stable (s : string) :
  Offline._normalize_whitespace (Some (Offline._normalize_whitespace (Some s)))
  = Offline._normalize_whitespace (Some s)
  ∧ Offline._normalize_whitespace (Some (PyStr.lower s))
    = Offline._normalize_whitespace (Some s)
  ∧ Offline._normalize_whitespace (Some (PyStr.strip s))
    = Offline._normalize_whitespace (Some s)
  ∧ Offline._normalize_whitespace None = Offline._normalize_whitespace (Some "").
Proof.
  unfold Offline._normalize_whitespace. split; [|split; [|split]].
  - rewrite NormalizeFacts.strip_lower, NormalizeFacts.collapse_lower,
      NormalizeFacts.lower_idem.
    by rewrite NormalizeFacts.strip_collapse_strip, NormalizeFacts.collapse_idem.
  - by rewrite NormalizeFacts.strip_lower, NormalizeFacts.collapse_lower,
      NormalizeFacts.lower_idem.
  - by rewrite PyStrFacts.strip_idem.
  - done.
Qed.

Module DedupeFacts.
Import Offline.
Local Open Scope list_scope.

Lemma first_occurrences_keys (rs : list record)
    (k : string * string * string * string) :
  k ∈ key_of <$> first_occurrences rs ↔ k ∈ key_of <$> rs.
Proof.
  induction rs as [|r rs IH] using rev_ind; [done|].
  rewrite OfflineFacts.first_occurrences_snoc, !fmap_app, !elem_of_app, IH.
  case_bool_decide as Hin; simpl; [|done].
  rewrite list_elem_of_singleton. split.
  - intros [?|Hnil]; [by left|]. by apply elem_of_nil in Hnil.
  - intros [? | ->]; by left.
Qed.

Lemma first_occurrences_head (r : record) (rs : list record) :
  ∃ tail, first_occurrences (r :: rs) = r :: tail.
Proof.
  unfold first_occurrences. simpl. by eexists.
Qed.

Lemma key_of_saved_record (r : review) :
  key_of (Files.saved_record r)
  = (_normalize_whitespace (Some (r_reviewer r)),
     _normalize_whitespace (Some (r_date r)),
     _canonical_link (Some (r_link r)),
     _normalize_whitespace (Some (r_text r))).
Proof. reflexivity. Qed.

Lemma offline_link_of_canonical (l : string) :
  canonical_link (Some l) = l → _canonical_link (Some l) = l.
Proof.
  intros Hl. unfold _canonical_link.
  destruct (PyStr.truthy l) eqn:Ht; simpl;
    [|symmetry; by apply PyStrFacts.truthy_false].
  pose proof (canonical_link_clean "?" (Some l) (or_intror eq_refl)) as Hquery.
  pose proof (canonical_link_clean "#" (Some l) (or_introl eq_refl)) as Hhash.
  rewrite Hl in Hquery, Hhash.
  rewrite (PyStrFacts.split_head_without _ _ Hquery).
  unfold canonical_link in Hl. rewrite Ht in Hl. simpl in Hl.
  by rewrite (PyStrFacts.split_head_without _ _ Hhash),
    (PyStrFacts.split_head_without _ _ Hquery) in Hl.
Qed.

End DedupeFacts.

Lemma sublist_full {A} (l k : list A) :
  l `sublist_of` k → (length k ≤ length l)%nat → l = k.
Proof.
  induction 1 as [|x l k Hsub IH|x l k Hsub IH]; simpl; intros Hlen.
  - done.
  - f_equal. apply IH. lia.
  - apply sublist_length in Hsub. lia.
Qed.

(** X13.  The offline pass loses no review: every key of the input is
    the key of a record of the result and the result has no other key.
    It never returns more records than it got, returns as many exactly
    when no key occurs twice (the list then comes back unchanged), and
    the first record of the input is the first record of the result. *)
Theorem dedupe_keeps_every_key (records : list Offline.record) :
  (∀ k, k ∈ Offline.key_of <$> Offline._dedupe_records records
        ↔ k ∈ Offline.key_of <$> records)
  ∧ (length (Offline._dedupe_records records) ≤ length records)%nat
  ∧ (length (Offline._dedupe_records records) = length records
     ↔ NoDup (Offline.key_of <$> records))
  ∧ (NoDup (Offline.key_of <$> records) →
     Offline._dedupe_records records = records)
  ∧ head (Offline._dedupe_records records) = head records.
Proof.
  rewrite OfflineFacts.dedupe_first_occurrences.
  pose proof (OfflineFacts.first_occurrences_sublist records) as Hsub.
  split; [intros k; apply DedupeFacts.first_occurrences_keys|].
  split; [by apply sublist_length|].
  split; [|split].
  - split.
    + intros Hlen. rewrite <- (sublist_full _ _ Hsub) at 1 by lia.
      apply OfflineFacts.first_occurrences_NoDup.
    + intros Hdistinct. by rewrite OfflineFacts.first_occurrences_id.
  - apply OfflineFacts.first_occurrences_id.
  - destruct records as [|r rs]; [done|].
    by destruct (DedupeFacts.first_occurrences_head r rs) as [tail ->].
Qed.

(** X14.  Running the offline pass on the reviews of a fresh session of
    [trustpilot_scraper_dupefix.py], as [save_reviews] wrote them, removes
    nothing when every review has a link: reviews the scraper told apart
    by their links are told apart by the offline key too. *)
Theorem dedupe_leaves_linked_session_output (a : args) (w : world) (n : nat) :
  previous a = [] →
  Forall (λ r, r_link r ≠ "")
    (Dupefix.reviews (Dupefix.passes n a w (Dupefix.initial a)).2) →
  Offline._dedupe_records
    (Files.saved_record
       <$> Dupefix.reviews (Dupefix.passes n a w (Dupefix.initial a)).2)
  = Files.saved_record
      <$> Dupefix.reviews (Dupefix.passes n a w (Dupefix.initial a)).2.
Proof.
  intros Hfresh Hlinked.
  destruct (DupefixSession.passes_invariant
              (λ rs seen,
                 seen = Dupefix.seed_keys rs
                 ∧ NoDup (Spec.key_of_review <$> rs))
              a w n (Dupefix.initial a)) as [_ Hdistinct].
  { intros c ps b. apply DupefixSession.block_keeps_keys_distinct. }
  { simpl. rewrite Hfresh. split; [done|constructor]. }
  pose proof (DupefixSession.passes_invariant
                (λ rs _, Forall (λ r, canonical_link (Some (r_link r)) = r_link r) rs)
                a w n (Dupefix.initial a)
                (λ c ps b, DupefixSession.block_stores_canonical_link a c ps b))
    as Hcanonical.
  change (Dupefix.reviews (Dupefix.initial a)) with (previous a) in Hcanonical.
  rewrite Hfresh in Hcanonical.
  specialize (Hcanonical (Forall_nil_2 _)).
  revert Hlinked Hdistinct Hcanonical.
  generalize (Dupefix.reviews (Dupefix.passes n a w (Dupefix.initial a)).2) as rs.
  intros rs Hlinked Hdistinct Hcanonical.
  rewrite OfflineFacts.dedupe_first_occurrences.
  apply OfflineFacts.first_occurrences_id.
  apply (NoDup_fmap_1 (λ k : string * string * string * string, k.1.2)).
  rewrite <- !list_fmap_compose.
  assert ((λ k : string * string * string * string, k.1.2)
            ∘ Offline.key_of ∘ Files.saved_record <$> rs = r_link <$> rs) as ->.
  { apply Forall_fmap_ext_1. eapply Forall_impl; [exact Hcanonical|].
    intros r Hr. cbv beta in Hr. unfold compose.
    rewrite DedupeFacts.key_of_saved_record. simpl.
    by apply DedupeFacts.offline_link_of_canonical. }
  apply (NoDup_fmap_1 (λ l, "link::" +:+ l)).
  rewrite <- list_fmap_compose.
  assert ((λ l, "link::" +:+ l) ∘ r_link <$> rs = Spec.key_of_review <$> rs)
    as ->; [|done].
  apply Forall_fmap_ext_1.
  eapply Forall_impl; [apply Forall_and; split; [exact Hlinked|exact Hcanonical]|].
  intros r [Hlink Hr]. cbv beta in Hlink, Hr. unfold compose.
  unfold Spec.key_of_review, stable_review_key. rewrite Hr.
  by destruct (r_link r).
Qed.

Lemma dedupe_leaves_linked_session_output_witness :
  Offline._dedupe_records
    (Files.saved_record
       <$> Dupefix.reviews
             (Dupefix.passes 2 Examples.all_pages IntervalExamples.winter_pages
                (Dupefix.initial Examples.all_pages)).2)
  = Files.saved_record
      <$> Dupefix.reviews
            (Dupefix.passes 2 Examples.all_pages IntervalExamples.winter_pages
               (Dupefix.initial Examples.all_pages)).2
  ∧ r_link
      <$> Dupefix.reviews
            (Dupefix.passes 2 Examples.all_pages IntervalExamples.winter_pages
               (Dupefix.initial Examples.all_pages)).2
    = ["https://www.trustpilot.com/reviews/def";
       "https://www.trustpilot.com/reviews/jkl";
       "https://www.trustpilot.com/reviews/abc"].
Proof.
  split; [|vm_compute; reflexivity].
  apply (dedupe_leaves_linked_session_output Examples.all_pages
           IntervalExamples.winter_pages 2).
  - reflexivity.
  - vm_compute. repeat constructor; discriminate.
Defined.

(** ** File names *)

Module FilesFacts.
Import Files.
Local Open Scope list_scope.

Lemma append_cons (x : ascii) (a b : string) :
  String x a +:+ b = String x (a +:+ b).
Proof. reflexivity. Qed.

Lemma append_assoc (a b c : string) : (a +:+ b) +:+ c = a +:+ (b +:+ c).
Proof.
  induction a as [|x a IH]; [done|]. by rewrite !append_cons, IH.
Qed.

Lemma has_char_append (c : ascii) (a b : string) :
  PyStr.has_char c (a +:+ b) = PyStr.has_char c a || PyStr.has_char c b.
Proof.
  induction a as [|x a IH]; [done|].
  rewrite append_cons. cbn [PyStr.has_char]. by rewrite IH, orb_assoc.
Qed.

(** The parts joined by underscores: the first, an underscore, what lies
    between, and the last. *)
Lemma join_parts (prefix stamp : string) (parts : list string) :
  ∃ middle : string,
    join "_" (prefix :: parts ++ [stamp]) = prefix +:+ "_" +:+ middle +:+ stamp
    ∧ (Forall (λ p, PyStr.has_char " " p = false) parts →
       PyStr.has_char " " middle = false).
Proof.
  revert prefix. induction parts as [|p parts IH]; intros prefix.
  - by exists "".
  - destruct (IH p) as (middle & Hjoin & Hspace).
    exists (p +:+ "_" +:+ middle). split.
    + change (join "_" (prefix :: (p :: parts) ++ [stamp]))
        with (prefix +:+ "_" +:+ join "_" (p :: parts ++ [stamp])).
      by rewrite Hjoin, !append_assoc.
    + intros [Hp Hparts]%Forall_cons.
      by rewrite !has_char_append, Hp, Hspace.
Qed.

Lemma has_space_join (sep : string) (parts : list string) :
  PyStr.has_char " " sep = false →
  Forall (λ p, PyStr.has_char " " p = false) parts →
  PyStr.has_char " " (join sep parts) = false.
Proof.
  intros Hsep. induction 1 as [|p parts Hp Hparts IH]; [done|].
  destruct parts as [|q parts]; [done|].
  change (join sep (p :: q :: parts)) with (p +:+ sep +:+ join sep (q :: parts)).
  by rewrite !has_char_append, Hp, Hsep, IH.
Qed.

Lemma has_space_underscored (s : string) :
  PyStr.has_char " " (spaces_to_underscores s) = false.
Proof.
  induction s as [|c s IH]; [done|]. simpl. rewrite IH.
  destruct (Ascii.eqb c " ") eqn:Hc; [done|]. by rewrite Hc.
Qed.

Lemma has_space_clean_keys (ks : list string) :
  PyStr.has_char " " (clean_keys ks) = false.
Proof.
  unfold clean_keys. apply has_space_join; [done|].
  induction ks as [|k ks IH]; constructor; [|done].
  apply has_space_underscored.
Qed.

Lemma digit_is_no_space (n : Z) : Ascii.eqb (Clock.digit n) " " = false.
Proof.
  unfold Clock.digit. pose proof (Z.mod_pos_bound n 10 eq_refl) as Hmod.
  assert (n mod 10 = 0 ∨ n mod 10 = 1 ∨ n mod 10 = 2 ∨ n mod 10 = 3
          ∨ n mod 10 = 4 ∨ n mod 10 = 5 ∨ n mod 10 = 6 ∨ n mod 10 = 7
          ∨ n mod 10 = 8 ∨ n mod 10 = 9)%Z as Hcases by lia.
  destruct Hcases as [->|[->|[->|[->|[->|[->|[->|[->|[->| ->]]]]]]]]];
    reflexivity.
Qed.

Lemma has_space_decimal_go (fuel : nat) (n : Z) (acc : string) :
  PyStr.has_char " " acc = false →
  PyStr.has_char " " (Clock.decimal_go fuel n acc) = false.
Proof.
  revert n acc. induction fuel as [|fuel IH]; intros n acc Hacc; [done|].
  simpl.
  assert (PyStr.has_char " " (String (Clock.digit n) acc) = false) as Hnext.
  { simpl. by rewrite digit_is_no_space, Hacc. }
  destruct (n <? 10)%Z; [done|]. by apply IH.
Qed.

Lemma has_space_decimal (n : Z) : PyStr.has_char " " (Clock.decimal n) = false.
Proof.
  unfold Clock.decimal. destruct (n <? 0)%Z.
  - rewrite has_char_append. simpl. by apply has_space_decimal_go.
  - by apply has_space_decimal_go.
Qed.

End FilesFacts.

(** X15.  The name [make_filename] builds starts with the prefix and an
    underscore and ends with the time stamp, whatever lies between; and
    when neither the prefix nor the stamp holds a space the name holds
    none, also when keywords of several words are part of it. *)
Theorem make_filename_shape (prefix : string) (mode : Z) (pages months : option Z)
    (keywords : option (list string)) (stamp : string) :
  PyStr.has_char " " prefix = false →
  PyStr.has_char " " stamp = false →
  (∃ middle : string,
     Files.make_filename prefix mode pages months keywords stamp
     = prefix +:+ "_" +:+ middle +:+ stamp)
  ∧ PyStr.has_char " "
      (Files.make_filename prefix mode pages months keywords stamp) = false.
Proof.
  intros Hprefix Hstamp.
  assert (∃ extra : list string,
            Files.make_filename prefix mode pages months keywords stamp
            = Files.join "_" (prefix :: extra ++ [stamp])
            ∧ Forall (λ p, PyStr.has_char " " p = false) extra)
    as (extra & -> & Hextra).
  { assert (∀ n, PyStr.has_char " " ("pages-" +:+ Clock.decimal n) = false)
      as Hpages
      by (intros n; by rewrite FilesFacts.has_char_append,
                       FilesFacts.has_space_decimal).
    assert (∀ n, PyStr.has_char " " ("months-" +:+ Clock.decimal n) = false)
      as Hmonths
      by (intros n; by rewrite FilesFacts.has_char_append,
                       FilesFacts.has_space_decimal).
    assert (∀ ks, PyStr.has_char " " ("keywords-" +:+ Files.clean_keys ks) = false)
      as Hkeys
      by (intros ks; by rewrite FilesFacts.has_char_append,
                        FilesFacts.has_space_clean_keys).
    exists (match pages with
            | Some n => if (mode =? 1)%Z && truthy_int pages
                        then ["pages-" +:+ Clock.decimal n] else []
            | None => []
            end
            ++ match months with
               | Some n => if (mode =? 2)%Z && truthy_int months
                           then ["months-" +:+ Clock.decimal n] else []
               | None => []
               end
            ++ match keywords with
               | Some ks => if (mode =? 3)%Z && truthy_list keywords
                            then ["keywords-" +:+ Files.clean_keys ks] else []
               | None => []
               end).
    unfold Files.make_filename.
    destruct pages as [n|], months as [m|], keywords as [ks|];
      repeat match goal with
             | |- context [if ?c then _ else _] => destruct c
             end;
      (split; [reflexivity|]); repeat constructor; auto. }
  destruct (FilesFacts.join_parts prefix stamp extra) as (middle & Hjoin & Hspace).
  rewrite Hjoin. split; [by exists middle|].
  by rewrite !FilesFacts.has_char_append, Hprefix, (Hspace Hextra), Hstamp.
Qed.

Lemma make_filename_shape_witness :
  (∃ middle : string,
     Files.make_filename "europcar_reviews" 3 None None
       (Some ["+late refund"; " slow "]) "2024-03-01_12-00-00"
     = "europcar_reviews" +:+ "_" +:+ middle +:+ "2024-03-01_12-00-00")
  ∧ PyStr.has_char " "
      (Files.make_filename "europcar_reviews" 3 None None
         (Some ["+late refund"; " slow "]) "2024-03-01_12-00-00") = false.
Proof.
  apply (make_filename_shape "europcar_reviews" 3 None None
           (Some ["+late refund"; " slow "]) "2024-03-01_12-00-00").
  - reflexivity.
  - reflexivity.
Defined.

(** ** The extractors *)

Module CardsFacts.
Import Cards.
Local Open Scope list_scope.

Lemma strip_truthy_stripped (p : string) :
  PyStr.strip (PyStr.strip p) = PyStr.strip p.
Proof. apply PyStrFacts.strip_idem. Qed.

Lemma longest_spec (first : string) (others : list string) :
  longest first others ∈ first :: others
  ∧ Forall (λ t, String.length t ≤ String.length (longest first others))%nat
      (first :: others).
Proof.
  unfold longest. revert first.
  induction others as [|t others IH]; intros first.
  - simpl. split; [by left|]. by repeat constructor.
  - simpl. destruct (String.length first <? String.length t)%nat eqn:Hlt.
    + apply Nat.ltb_lt in Hlt. destruct (IH t) as [Hin Hmax].
      split; [by right|].
      pose proof (Forall_inv Hmax) as Ht. cbv beta in Ht.
      constructor; [lia|done].
    + apply Nat.ltb_ge in Hlt. destruct (IH first) as [Hin Hmax].
      split.
      * apply elem_of_cons in Hin as [->|Hin]; [by left|by right; right].
      * pose proof (Forall_inv Hmax) as Hfirst. cbv beta in Hfirst.
        constructor; [done|]. constructor; [lia|by apply Forall_inv_tail in Hmax].
Qed.

Lemma stripped_texts_spec (paragraphs : list string) (t : string) :
  t ∈ stripped_texts paragraphs
  ↔ t ≠ "" ∧ ∃ p, p ∈ paragraphs ∧ t = PyStr.strip p.
Proof.
  unfold stripped_texts. rewrite list_elem_of_omap. split.
  - intros (p & Hp & Ht).
    destruct (PyStr.truthy (PyStr.strip p)) eqn:Htruthy; [|done].
    injection Ht as <-. split; [by destruct (PyStr.strip p)|by exists p].
  - intros (Hne & p & Hp & ->). exists p. split; [done|].
    by destruct (PyStr.strip p).
Qed.

End CardsFacts.

(** X16.  The name of a reviewer is never empty and has no white space
    around it: it is the stripped text of the name element, or "Unknown"
    when the card has no such element or the element is blank. *)
Theorem extract_reviewer_name_total (span_text : option string) :
  Cards.extract_reviewer_name span_text ≠ ""
  ∧ PyStr.strip (Cards.extract_reviewer_name span_text)
    = Cards.extract_reviewer_name span_text
  ∧ (Cards.extract_reviewer_name span_text = "Unknown"
     ∨ ∃ t, span_text = Some t
            ∧ Cards.extract_reviewer_name span_text = PyStr.strip t).
Proof.
  unfold Cards.extract_reviewer_name.
  destruct span_text as [t|]; [|by repeat split; [|left]].
  destruct (PyStr.truthy (PyStr.strip t)) eqn:Ht; simpl.
  - split; [by destruct (PyStr.strip t)|].
    split; [apply PyStrFacts.strip_idem|]. right. by exists t.
  - by repeat split; [|left].
Qed.

(** X17.  The text of a card is empty exactly when every paragraph of
    the card is blank; otherwise it is one of the paragraphs, stripped,
    and no paragraph of the card is longer once stripped. *)
Theorem extract_review_text_longest (paragraphs : list string) :
  (Cards.extract_review_text paragraphs = ""
   ↔ Forall (λ p, PyStr.strip p = "") paragraphs)
  ∧ (Cards.extract_review_text paragraphs = ""
     ∨ ∃ p, p ∈ paragraphs
            ∧ Cards.extract_review_text paragraphs = PyStr.strip p)
  ∧ Forall (λ p, String.length (PyStr.strip p)
                 ≤ String.length (Cards.extract_review_text paragraphs))%nat
      paragraphs.
Proof.
  unfold Cards.extract_review_text.
  destruct (Cards.stripped_texts paragraphs) as [|t texts] eqn:Htexts.
  - assert (Forall (λ p, PyStr.strip p = "") paragraphs) as Hblank.
    { apply Forall_forall. intros p Hp.
      destruct (PyStr.strip p) as [|c s] eqn:Hs; [done|].
      assert (String c s ∈ Cards.stripped_texts paragraphs) as Hin.
      { apply CardsFacts.stripped_texts_spec. split; [done|]. by exists p. }
      rewrite Htexts in Hin. by apply elem_of_nil in Hin. }
    split; [done|]. split; [by left|].
    eapply Forall_impl; [exact Hblank|]. intros p ->. simpl. lia.
  - destruct (CardsFacts.longest_spec t texts) as [Hin Hmax].
    rewrite <- Htexts in Hin, Hmax.
    apply CardsFacts.stripped_texts_spec in Hin as (Hne & p & Hp & Hlongest).
    split; [|split].
    + split; [done|]. intros Hblank. exfalso. apply Hne.
      rewrite Hlongest. by apply (proj1 (Forall_forall _ _) Hblank).
    + right. by exists p.
    + apply Forall_forall. intros q Hq.
      destruct (PyStr.strip q) as [|c s] eqn:Hs; [simpl; lia|].
      assert (String c s ∈ Cards.stripped_texts paragraphs) as Hin.
      { apply CardsFacts.stripped_texts_spec. split; [done|]. by exists q. }
      by apply (proj1 (Forall_forall _ _) Hmax) in Hin.
Qed.

(** ** The text of a card in [sortingapp/app/scrape_reviews.py] *)

Module CardsMainFacts.
Import Cards.
Local Open Scope list_scope.

Lemma main_texts_spec (paragraphs : list string) (t : string) :
  t ∈ omap (λ p, if PyStr.truthy (PyStr.strip p)
                    && negb (PyStr.endswith "See more" (PyStr.strip p))
                 then Some (PyStr.strip p) else None) paragraphs
  ↔ t ≠ "" ∧ PyStr.endswith "See more" t = false
    ∧ ∃ p, p ∈ paragraphs ∧ t = PyStr.strip p.
Proof.
  rewrite list_elem_of_omap. split.
  - intros (p & Hp & Ht).
    destruct (PyStr.truthy (PyStr.strip p)) eqn:Htruthy; [|done].
    destruct (PyStr.endswith "See more" (PyStr.strip p)) eqn:Hends; [done|].
    injection Ht as <-.
    split; [by destruct (PyStr.strip p)|]. split; [done|by exists p].
  - intros (Hne & Hends & p & Hp & ->). exists p. split; [done|].
    rewrite Hends. by destruct (PyStr.strip p).
Qed.

End CardsMainFacts.

(** X18.  The text [sortingapp/app/scrape_reviews.py] reads from a card
    has no white space around it.  With a main review paragraph it is
    the stripped text of that paragraph.  Without one it never ends with
    "See more": it is empty, or it is one of the paragraphs of the card,
    stripped, and every paragraph that is no teaser is at most as long
    once stripped. *)
Theorem extract_review_text_main_no_teaser (main : option string)
    (paragraphs : list string) :
  PyStr.strip (Cards.extract_review_text_main main paragraphs)
  = Cards.extract_review_text_main main paragraphs
  ∧ (∀ t, Cards.extract_review_text_main (Some t) paragraphs = PyStr.strip t)
  ∧ PyStr.endswith "See more"
      (Cards.extract_review_text_main None paragraphs) = false
  ∧ (Cards.extract_review_text_main None paragraphs = ""
     ∨ ∃ p, p ∈ paragraphs
            ∧ Cards.extract_review_text_main None paragraphs = PyStr.strip p)
  ∧ Forall (λ p, PyStr.endswith "See more" (PyStr.strip p) = true
                 ∨ (String.length (PyStr.strip p)
                    ≤ String.length
                        (Cards.extract_review_text_main None paragraphs))%nat)
      paragraphs.
Proof.
  assert (PyStr.endswith "See more"
            (Cards.extract_review_text_main None paragraphs) = false
          ∧ (Cards.extract_review_text_main None paragraphs = ""
             ∨ ∃ p, p ∈ paragraphs
                    ∧ Cards.extract_review_text_main None paragraphs
                      = PyStr.strip p)
          ∧ Forall (λ p, PyStr.endswith "See more" (PyStr.strip p) = true
                         ∨ (String.length (PyStr.strip p)
                            ≤ String.length
                                (Cards.extract_review_text_main None
                                   paragraphs))%nat)
              paragraphs) as (Hends & Hshape & Hmax).
  { unfold Cards.extract_review_text_main.
    destruct (omap _ paragraphs) as [|t texts] eqn:Htexts.
    - split; [done|]. split; [by left|].
      apply Forall_forall. intros p Hp.
      destruct (PyStr.endswith "See more" (PyStr.strip p)) eqn:Hp_ends;
        [by left|right].
      destruct (PyStr.strip p) as [|c s] eqn:Hs; [simpl; lia|].
      assert (String c s ∈ @nil string) as Hin; [|by apply elem_of_nil in Hin].
      rewrite <- Htexts. apply CardsMainFacts.main_texts_spec.
      split; [done|]. split; [done|]. by exists p.
    - destruct (CardsFacts.longest_spec t texts) as [Hin Hmax].
      rewrite <- Htexts in Hin, Hmax.
      apply CardsMainFacts.main_texts_spec in Hin as (Hne & Hends & p & Hp & Hl).
      split; [done|]. split; [right; by exists p|].
      apply Forall_forall. intros q Hq.
      destruct (PyStr.endswith "See more" (PyStr.strip q)) eqn:Hq_ends;
        [by left|right].
      destruct (PyStr.strip q) as [|c s] eqn:Hs; [simpl; lia|].
      apply (proj1 (Forall_forall _ _) Hmax).
      apply CardsMainFacts.main_texts_spec.
      split; [done|]. split; [done|]. by exists q. }
  split; [|done].
  destruct main as [t|]; [apply PyStrFacts.strip_idem|].
  destruct Hshape as [-> | (p & _ & ->)]; [done|apply PyStrFacts.strip_idem].
Qed.

(** ** The keywords of the command line *)

Module KeywordFacts.
Local Open Scope list_scope.

Lemma has_char_cons (c d : ascii) (s : string) :
  PyStr.has_char c (String d s) = true ↔ d = c ∨ PyStr.has_char c s = true.
Proof.
  simpl. rewrite orb_true_iff, Ascii.eqb_eq. tauto.
Qed.

Lemma split_cons (sep c : ascii) (s : string) :
  Cli.split sep (String c s)
  = if Ascii.eqb c sep then "" :: Cli.split sep s
    else match Cli.split sep s with
         | x :: rest => String c x :: rest
         | [] => [String c ""]
         end.
Proof. reflexivity. Qed.

Lemma split_nonempty (sep : ascii) (s : string) : Cli.split sep s ≠ [].
Proof.
  destruct s as [|c s]; [done|]. rewrite split_cons.
  destruct (Ascii.eqb c sep); [done|]. by destruct (Cli.split sep s).
Qed.

Lemma has_char_split (sep : ascii) (s : string) :
  Forall (λ w, PyStr.has_char sep w = false) (Cli.split sep s).
Proof.
  induction s as [|c s IH]; [by repeat constructor|].
  rewrite split_cons. destruct (Ascii.eqb c sep) eqn:Hc.
  - by constructor.
  - destruct (Cli.split sep s) as [|x rest] eqn:Hsplit;
      [by apply split_nonempty in Hsplit|].
    inversion_clear IH as [|? ? Hx Hrest]. constructor; [|done].
    simpl. by rewrite Hc, Hx.
Qed.

Lemma strip_cons_blank (c : ascii) (x : string) :
  PyStr.strip (String c x) = ""
  ↔ PyStr.isspace c = true ∧ PyStr.strip x = "".
Proof.
  unfold PyStr.strip. simpl. destruct (PyStr.isspace c) eqn:Hc.
  - tauto.
  - simpl. rewrite Hc. destruct (PyStr.rstrip x); split; try done; by intros [].
Qed.

Lemma omap_blank (l : list string) :
  omap (λ w, if PyStr.truthy (PyStr.strip w)
             then Some (PyStr.strip w) else None) l = []
  ↔ Forall (λ w, PyStr.strip w = "") l.
Proof.
  induction l as [|w l IH]; [done|]. simpl.
  destruct (PyStr.strip w) as [|a t] eqn:Hw; simpl.
  - rewrite IH. split; [by constructor|by inversion 1].
  - split; [done|]. intros H. inversion H. congruence.
Qed.

Lemma blank_pieces (raw : string) :
  Forall (λ w, PyStr.strip w = "") (Cli.split "," raw)
  ↔ ∀ c, PyStr.has_char c raw = true → PyStr.isspace c = true ∨ c = ","%char.
Proof.
  induction raw as [|a raw IH]; [split; [done|by repeat constructor]|].
  rewrite split_cons. destruct (Ascii.eqb a ",") eqn:Ha.
  - apply Ascii.eqb_eq in Ha as ->. rewrite Forall_cons, IH. split.
    + intros [_ H] c [<- | Hc]%has_char_cons; [by right|by apply H].
    + intros H. split; [done|]. intros c Hc. apply H, has_char_cons. by right.
  - destruct (Cli.split "," raw) as [|x rest] eqn:Hsplit;
      [by apply split_nonempty in Hsplit|].
    rewrite Forall_cons, strip_cons_blank. rewrite Forall_cons in IH. split.
    + intros [[Hspace Hx] Hrest] c [<- | Hc]%has_char_cons; [by left|].
      by apply IH.
    + intros H. assert (PyStr.isspace a = true) as Hspace.
      { destruct (H a) as [? | ->]; [apply has_char_cons; by left|done|].
        by rewrite Ascii.eqb_refl in Ha. }
      assert (PyStr.strip x = "" ∧ Forall (λ w, PyStr.strip w = "") rest)
        as [Hx Hrest]; [|done].
      apply IH. intros c Hc. apply H, has_char_cons. by right.
Qed.

(** [s.replace("+", "")] leaves no "+". *)
Lemma has_char_remove_plus (s : string) :
  PyStr.has_char "+" (PyStr.remove_plus s) = false.
Proof.
  induction s as [|c s IH]; [done|]. simpl.
  destruct (Ascii.eqb c "+") eqn:Hc; [done|]. simpl. by rewrite Hc, IH.
Qed.

(** The two cases of [s.replace("AND", "")] at the head of [s]. *)
Lemma remove_AND_cons (a : ascii) (s : string) :
  (∃ rest, s = String "N" (String "D" rest)
           ∧ PyStr.remove_AND (String a s) = PyStr.remove_AND rest)
  ∨ PyStr.remove_AND (String a s) = String a (PyStr.remove_AND s).
Proof.
  destruct a as [[] [] [] [] [] [] [] []]; try (right; reflexivity).
  destruct s as [|b s]; [right; reflexivity|].
  destruct b as [[] [] [] [] [] [] [] []]; try (right; reflexivity).
  destruct s as [|d s]; [right; reflexivity|].
  destruct d as [[] [] [] [] [] [] [] []]; try (right; reflexivity).
  left. by exists s.
Qed.

Lemma has_char_remove_AND (c : ascii) (s : string) :
  PyStr.has_char c s = false → PyStr.has_char c (PyStr.remove_AND s) = false.
Proof.
  remember (String.length s) as n eqn:Hn.
  revert s Hn. induction (lt_wf n) as [n _ IH]. intros s -> Hs.
  destruct s as [|a s]; [done|].
  apply orb_false_elim in Hs as [Ha Hs].
  destruct (remove_AND_cons a s) as [(rest & -> & ->) | ->].
  - apply orb_false_elim in Hs as [_ Hs]. apply orb_false_elim in Hs as [_ Hs].
    eapply IH; [|reflexivity|done]. simpl. lia.
  - simpl. rewrite Ha. simpl. eapply IH; [|reflexivity|done]. simpl. lia.
Qed.

Lemma prepare_keywords_cons (k : string) (ks : list string) :
  prepare_keywords (k :: ks)
  = if PyStr.startswith "+" (PyStr.strip k)
       || PyStr.contains "AND" (PyStr.upper (PyStr.strip k))
    then (PyStr.strip (PyStr.remove_AND (PyStr.remove_plus (PyStr.strip k)))
            :: (prepare_keywords ks).1,
          (prepare_keywords ks).2)
    else ((prepare_keywords ks).1, PyStr.strip k :: (prepare_keywords ks).2).
Proof.
  cbn [prepare_keywords]. by destruct (prepare_keywords ks).
Qed.

End KeywordFacts.

(** X19.  The keywords the command lines make of the answer to their
    prompt are not empty, have no white space around them and hold no
    comma.  The answer gives no keyword exactly when it consists of
    white space and commas only, and the keyword filter then accepts
    every text. *)
Theorem parse_keywords_clean (raw : string) :
  Forall (λ k, k ≠ "" ∧ PyStr.strip k = k ∧ PyStr.has_char "," k = false)
    (Cli.parse_keywords raw)
  ∧ (Cli.parse_keywords raw = []
     ↔ ∀ c, PyStr.has_char c raw = true
            → PyStr.isspace c = true ∨ c = ","%char)
  ∧ (Cli.parse_keywords raw = [] →
     ∀ (keyword_and keyword_or : list string) (text : string),
       keyword_filter (Some (Cli.parse_keywords raw)) keyword_and keyword_or
         text = true).
Proof.
  split; [|split].
  - apply Forall_forall. intros k Hk. unfold Cli.parse_keywords in Hk.
    apply list_elem_of_omap in Hk as (w & Hw & Hk).
    destruct (PyStr.truthy (PyStr.strip w)) eqn:Htruthy; [|done].
    injection Hk as <-.
    split; [by destruct (PyStr.strip w)|].
    split; [apply PyStrFacts.strip_idem|].
    apply PyStrFacts.has_char_strip.
    by apply (proj1 (Forall_forall _ _) (KeywordFacts.has_char_split "," raw)).
  - unfold Cli.parse_keywords.
    rewrite KeywordFacts.omap_blank. apply KeywordFacts.blank_pieces.
  - by intros ->.
Qed.

(** X20.  "Prepare keyword filters" puts every keyword in exactly one of
    the two lists, and keeps the order of the keywords in each.  A
    keyword is marked when, stripped, it starts with "+" or its
    upper-case form contains "AND".  [keyword_or] holds the stripped
    keywords that are not marked, as they are; [keyword_and] holds, for
    every marked keyword, the stripped keyword without its "+" signs and
    its "AND", stripped again, a term without "+" and without white
    space around it. *)
Theorem prepare_keywords_partition (ks : list string) :
  (prepare_keywords ks).1
  = (λ k, PyStr.strip (PyStr.remove_AND (PyStr.remove_plus k)))
      <$> List.filter
            (λ k, PyStr.startswith "+" k
                  || PyStr.contains "AND" (PyStr.upper k))
            (PyStr.strip <$> ks)
  ∧ (prepare_keywords ks).2
    = List.filter
        (λ k, negb (PyStr.startswith "+" k
                    || PyStr.contains "AND" (PyStr.upper k)))
        (PyStr.strip <$> ks)
  ∧ (∀ k, k ∈ ks →
       if PyStr.startswith "+" (PyStr.strip k)
          || PyStr.contains "AND" (PyStr.upper (PyStr.strip k))
       then PyStr.strip (PyStr.remove_AND (PyStr.remove_plus (PyStr.strip k)))
            ∈ (prepare_keywords ks).1
       else PyStr.strip k ∈ (prepare_keywords ks).2)
  ∧ (∀ t, t ∈ (prepare_keywords ks).1 →
       ∃ k, k ∈ ks
            ∧ PyStr.startswith "+" (PyStr.strip k)
              || PyStr.contains "AND" (PyStr.upper (PyStr.strip k)) = true
            ∧ t = PyStr.strip
                    (PyStr.remove_AND (PyStr.remove_plus (PyStr.strip k))))
  ∧ (∀ t, t ∈ (prepare_keywords ks).2 →
       ∃ k, k ∈ ks
            ∧ PyStr.startswith "+" (PyStr.strip k)
              || PyStr.contains "AND" (PyStr.upper (PyStr.strip k)) = false
            ∧ t = PyStr.strip k)
  ∧ (length (prepare_keywords ks).1 + length (prepare_keywords ks).2
     = length ks)%nat
  ∧ Forall (λ t, PyStr.has_char "+" t = false ∧ PyStr.strip t = t)
      (prepare_keywords ks).1
  ∧ Forall (λ t, PyStr.strip t = t) (prepare_keywords ks).2.
Proof.
  induction ks as [|k ks (Hand & Hor & Hin & Hfrom_and & Hfrom_or & Hlen
                          & Hclean & Hstripped)].
  { repeat split; try done; try constructor.
    - intros k Hk. by apply elem_of_nil in Hk.
    - intros t Ht. by apply elem_of_nil in Ht.
    - intros t Ht. by apply elem_of_nil in Ht. }
  rewrite KeywordFacts.prepare_keywords_cons, fmap_cons.
  cbn [List.filter].
  destruct (PyStr.startswith "+" (PyStr.strip k)
            || PyStr.contains "AND" (PyStr.upper (PyStr.strip k))) eqn:Hmark;
    cbn [fst snd length negb].
  - split; [by rewrite fmap_cons, Hand|]. split; [done|]. split.
    { intros k' [-> | Hk']%elem_of_cons.
      - rewrite Hmark. by left.
      - specialize (Hin k' Hk'). destruct (_ || _); [by right|done]. }
    split.
    { intros t [-> | Ht]%elem_of_cons.
      - exists k. split; [by left|done].
      - destruct (Hfrom_and t Ht) as (k' & Hk' & Hm & ->).
        exists k'. split; [by right|done]. }
    split.
    { intros t Ht. destruct (Hfrom_or t Ht) as (k' & Hk' & Hm & ->).
      exists k'. split; [by right|done]. }
    split; [lia|]. split; [|done].
    constructor; [|done]. split; [|apply PyStrFacts.strip_idem].
    apply PyStrFacts.has_char_strip, KeywordFacts.has_char_remove_AND,
      KeywordFacts.has_char_remove_plus.
  - split; [done|]. split; [by rewrite Hor|]. split.
    { intros k' [-> | Hk']%elem_of_cons.
      - rewrite Hmark. by left.
      - specialize (Hin k' Hk'). destruct (_ || _); [done|by right]. }
    split.
    { intros t Ht. destruct (Hfrom_and t Ht) as (k' & Hk' & Hm & ->).
      exists k'. split; [by right|done]. }
    split.
    { intros t [-> | Ht]%elem_of_cons.
      - exists k. split; [by left|done].
      - destruct (Hfrom_or t Ht) as (k' & Hk' & Hm & ->).
        exists k'. split; [by right|done]. }
    split; [lia|]. split; [done|].
    constructor; [apply PyStrFacts.strip_idem|done].
Qed.

(** ** The file name of an export *)

Module ExporterFacts.
Import Exporter.

Lemma allowed_no_space (c : ascii) : allowed c = true → PyStr.isspace c = false.
Proof.
  unfold allowed, PyStr.isspace. generalize (N_of_ascii c). intros n H.
  repeat match type of H with
         | (_ || _ = true) => apply orb_true_iff in H as [H | H]
         | (_ && _ = true) => apply andb_true_iff in H as [? ?]
         end;
  repeat match goal with
         | H : (_ <=? _)%N = true |- _ => apply N.leb_le in H
         | H : (_ =? _)%N = true |- _ => apply N.eqb_eq in H
         end;
  repeat (apply orb_false_intro);
    try (apply andb_false_iff;
         first [left; apply N.leb_gt; lia | right; apply N.leb_gt; lia]);
    apply N.eqb_neq; lia.
Qed.

Lemma sub_runs_allowed (s : string) (c : ascii) :
  PyStr.has_char c (sub_runs s) = true → allowed c = true.
Proof.
  induction s as [|a s IH]; [done|]. simpl.
  destruct (allowed a) eqn:Ha.
  - intros [<- | Hc]%KeywordFacts.has_char_cons; [done|by apply IH].
  - destruct s as [|d s]; [by intros [<- | Hc]%KeywordFacts.has_char_cons|].
    destruct (allowed d) eqn:Hd; [|done].
    intros [<- | Hc]%KeywordFacts.has_char_cons; [done|by apply IH].
Qed.

Lemma has_char_prefix (n : nat) (s : string) (c : ascii) :
  PyStr.has_char c (prefix n s) = true → PyStr.has_char c s = true.
Proof.
  revert s. induction n as [|n IH]; intros [|a s]; try done.
  intros [<- | Hc]%KeywordFacts.has_char_cons;
    apply KeywordFacts.has_char_cons; [by left|right; by apply IH].
Qed.

Lemma length_prefix (n : nat) (s : string) :
  (String.length (prefix n s) ≤ n)%nat.
Proof.
  revert s. induction n as [|n IH]; intros [|a s]; simpl; try lia.
  specialize (IH s). lia.
Qed.

Lemma prefix_all (n : nat) (s : string) :
  (String.length s ≤ n)%nat → prefix n s = s.
Proof.
  revert s. induction n as [|n IH]; intros [|a s]; simpl; try done; try lia.
  intros H. f_equal. apply IH. lia.
Qed.

Lemma sub_runs_fixed (s : string) :
  (∀ c, PyStr.has_char c s = true → allowed c = true) → sub_runs s = s.
Proof.
  induction s as [|a s IH]; [done|]. intros H. simpl.
  rewrite (H a); [|apply KeywordFacts.has_char_cons; by left].
  f_equal. apply IH. intros c Hc. apply H, KeywordFacts.has_char_cons. by right.
Qed.

Lemma rstrip_fixed (s : string) :
  (∀ c, PyStr.has_char c s = true → PyStr.isspace c = false) →
  PyStr.rstrip s = s.
Proof.
  induction s as [|a s IH]; [done|]. intros H. simpl.
  rewrite IH; [|intros c Hc; apply H, KeywordFacts.has_char_cons; by right].
  rewrite (H a); [|apply KeywordFacts.has_char_cons; by left].
  by destruct s.
Qed.

Lemma strip_fixed (s : string) :
  (∀ c, PyStr.has_char c s = true → PyStr.isspace c = false) →
  PyStr.strip s = s.
Proof.
  intros H. unfold PyStr.strip.
  assert (PyStr.lstrip s = s) as ->; [|by apply rstrip_fixed].
  destruct s as [|a s]; [done|]. simpl.
  by rewrite (H a); [|apply KeywordFacts.has_char_cons; by left].
Qed.

Lemma safe_query_fixed (query : string) :
  (String.length query ≤ 120)%nat →
  (∀ c, PyStr.has_char c query = true → allowed c = true) →
  safe_query query = query.
Proof.
  intros Hlen Hallowed. unfold safe_query.
  rewrite strip_fixed; [|intros c Hc; by apply allowed_no_space, Hallowed].
  rewrite sub_runs_fixed; [|done]. by apply prefix_all.
Qed.

End ExporterFacts.

(** X21.  The name [export] of [sortingapp/app/main.py] makes of a query
    for its archive has at most 120 characters, all of them letters
    a to z or A to Z, digits, "_" or "-": it holds no path separator, no
    dot and no white space.  A query that is such a name already is kept
    as it is, so that making the name of a name changes nothing. *)
Theorem safe_query_safe (query : string) :
  (String.length (Exporter.safe_query query) ≤ 120)%nat
  ∧ (∀ c, PyStr.has_char c (Exporter.safe_query query) = true →
          Exporter.allowed c = true)
  ∧ PyStr.has_char "/" (Exporter.safe_query query) = false
  ∧ PyStr.has_char "." (Exporter.safe_query query) = false
  ∧ ((String.length query ≤ 120)%nat →
     (∀ c, PyStr.has_char c query = true → Exporter.allowed c = true) →
     Exporter.safe_query query = query)
  ∧ Exporter.safe_query (Exporter.safe_query query) = Exporter.safe_query query.
Proof.
  assert (∀ c, PyStr.has_char c (Exporter.safe_query query) = true →
               Exporter.allowed c = true) as Hallowed.
  { intros c Hc. unfold Exporter.safe_query in Hc.
    by apply ExporterFacts.has_char_prefix, ExporterFacts.sub_runs_allowed in Hc. }
  assert (∀ c, Exporter.allowed c = false →
               PyStr.has_char c (Exporter.safe_query query) = false) as Hnot.
  { intros c Hc. destruct (PyStr.has_char c _) eqn:Hin; [|done].
    apply Hallowed in Hin. congruence. }
  pose proof (ExporterFacts.length_prefix 120
                (Exporter.sub_runs (PyStr.strip query))) as Hlen.
  split; [done|]. split; [done|].
  split; [by apply Hnot|]. split; [by apply Hnot|].
  split; [apply ExporterFacts.safe_query_fixed|].
  by apply ExporterFacts.safe_query_fixed.
Qed.

(** ** The two notions of a link *)

Module LinkFacts.

Lemma split_head_comm (c d : ascii) (s : string) :
  PyStr.split_head c (PyStr.split_head d s)
  = PyStr.split_head d (PyStr.split_head c s).
Proof.
  induction s as [|a s IH]; [done|]. simpl.
  destruct (Ascii.eqb a d) eqn:Hd, (Ascii.eqb a c) eqn:Hc; simpl;
    rewrite ?Hd, ?Hc; try done. by rewrite IH.
Qed.

Lemma lstrip_split_head (c : ascii) (s : string) :
  PyStr.isspace c = false →
  PyStr.lstrip (PyStr.split_head c s) = PyStr.split_head c (PyStr.lstrip s).
Proof.
  intros Hc. induction s as [|a s IH]; [done|]. simpl.
  destruct (PyStr.isspace a) eqn:Ha.
  - destruct (Ascii.eqb a c) eqn:Hac; [apply Ascii.eqb_eq in Hac; congruence|].
    simpl. by rewrite Ha.
  - simpl. destruct (Ascii.eqb a c); [done|]. simpl. by rewrite Ha.
Qed.

Lemma rstrip_head (a : ascii) (s : string) :
  PyStr.isspace a = false →
  ∃ r, PyStr.rstrip (String a s) = String a r.
Proof.
  intros Ha. simpl. rewrite Ha. destruct (PyStr.rstrip s); by eexists.
Qed.

Lemma rstrip_split_head (c : ascii) (s : string) :
  PyStr.isspace c = false →
  PyStr.rstrip (PyStr.split_head c s)
  = PyStr.rstrip (PyStr.split_head c (PyStr.rstrip s)).
Proof.
  intros Hc. induction s as [|a s IH]; [done|].
  destruct (Ascii.eqb a c) eqn:Hac.
  - apply Ascii.eqb_eq in Hac as ->.
    destruct (rstrip_head c s Hc) as [r ->]. simpl. by rewrite Ascii.eqb_refl.
  - cbn [PyStr.split_head PyStr.rstrip]. rewrite Hac.
    cbn [PyStr.rstrip]. rewrite IH.
    destruct (PyStr.rstrip s) as [|b r] eqn:Hr.
    + simpl. destruct (PyStr.isspace a) eqn:Ha; [done|].
      simpl. rewrite Hac. simpl. by rewrite Ha.
    + cbn [PyStr.split_head]. rewrite Hac. by cbn [PyStr.rstrip].
Qed.

(** The strip of the part before [c] is a function of the strip. *)
Lemma strip_split_head (c : ascii) (s : string) :
  PyStr.isspace c = false →
  PyStr.strip (PyStr.split_head c s)
  = PyStr.rstrip (PyStr.split_head c (PyStr.strip s)).
Proof.
  intros Hc. unfold PyStr.strip.
  by rewrite lstrip_split_head, <- rstrip_split_head.
Qed.

Lemma strip_split_head_strip (c : ascii) (s : string) :
  PyStr.isspace c = false →
  PyStr.strip (PyStr.split_head c (PyStr.strip s))
  = PyStr.strip (PyStr.split_head c s).
Proof.
  intros Hc.
  by rewrite (strip_split_head c (PyStr.strip s)), PyStrFacts.strip_idem,
    <- strip_split_head.
Qed.

Lemma canonical_link_of_offline (link : option string) :
  canonical_link (Some (Offline._canonical_link link)) = canonical_link link.
Proof.
  destruct link as [l|]; [|done].
  unfold Offline._canonical_link.
  destruct (PyStr.truthy l) eqn:Hl; [|by destruct l]. simpl.
  unfold canonical_link. rewrite Hl. simpl.
  rewrite (split_head_comm "?" "#" l).
  assert (PyStr.split_head "?" (PyStr.split_head "#"
            (PyStr.strip (PyStr.split_head "?" l)))
          = PyStr.split_head "#" (PyStr.strip (PyStr.split_head "?" l)))
    as Hquery.
  { rewrite split_head_comm. f_equal.
    apply PyStrFacts.split_head_without, PyStrFacts.has_char_strip,
      PyStrFacts.has_char_split_head_same. }
  destruct (PyStr.truthy (PyStr.strip (PyStr.split_head "?" l))) eqn:Ht; simpl.
  - rewrite Hquery. by apply strip_split_head_strip.
  - apply PyStrFacts.truthy_false in Ht.
    rewrite <- (strip_split_head_strip "#" (PyStr.split_head "?" l)) by done.
    by rewrite Ht.
Qed.

End LinkFacts.

(** X22.  The offline pass merges only what the scraper takes for one
    review, when the review has a link: two saved reviews with one
    offline key have one canonical link, and so, when that link is not
    empty, one key of [stable_review_key].  The scraper's canonical link
    is the canonical link of the offline one. *)
Theorem offline_key_refines_link_key (r1 r2 : review) :
  Offline.key_of (Files.saved_record r1) = Offline.key_of (Files.saved_record r2) →
  canonical_link (Some (r_link r1)) ≠ "" →
  canonical_link (Some (r_link r1)) = canonical_link (Some (r_link r2))
  ∧ Spec.key_of_review r1 = Spec.key_of_review r2
  ∧ canonical_link (Some (Offline._canonical_link (Some (r_link r1))))
    = canonical_link (Some (r_link r1)).
Proof.
  intros Hkey Hlink.
  rewrite !DedupeFacts.key_of_saved_record in Hkey.
  assert (Offline._canonical_link (Some (r_link r1))
          = Offline._canonical_link (Some (r_link r2))) as Hoffline.
  { injection Hkey as _ _ H _. exact H. }
  assert (canonical_link (Some (r_link r1)) = canonical_link (Some (r_link r2)))
    as Hcanon.
  { rewrite <- (LinkFacts.canonical_link_of_offline (Some (r_link r1))),
      <- (LinkFacts.canonical_link_of_offline (Some (r_link r2))).
    by rewrite Hoffline. }
  split; [done|]. split; [|apply LinkFacts.canonical_link_of_offline].
  unfold Spec.key_of_review, stable_review_key. cbv zeta.
  rewrite <- Hcanon.
  by destruct (canonical_link (Some (r_link r1))).
Qed.

Lemma offline_key_refines_link_key_witness :
  canonical_link (Some (r_link SavedExamples.tracked_review))
  = canonical_link (Some (r_link SavedExamples.retyped_review))
  ∧ Spec.key_of_review SavedExamples.tracked_review
    = Spec.key_of_review SavedExamples.retyped_review
  ∧ canonical_link
      (Some (Offline._canonical_link (Some (r_link SavedExamples.tracked_review))))
    = canonical_link (Some (r_link SavedExamples.tracked_review)).
Proof.
  apply (offline_key_refines_link_key SavedExamples.tracked_review
           SavedExamples.retyped_review).
  - rewrite !DedupeFacts.key_of_saved_record. reflexivity.
  - discriminate.
Defined.

(** ** The key of the offline pass *)

Module OfflineKeyFacts.
Local Open Scope list_scope.

Lemma normalize_whitespace_normalized (field : option string) :
  Offline._normalize_whitespace field = OfflineSpec.normalized field.
Proof.
  destruct field as [s|]; [|done]. simpl.
  by rewrite NormalizeFacts.strip_lower, NormalizeFacts.collapse_lower.
Qed.

Lemma canonical_link_query_stripped (link : option string) :
  Offline._canonical_link link = OfflineSpec.query_stripped link.
Proof. by destruct link as [[|c l]|]. Qed.

Lemma key_of_key (r : Offline.record) : Offline.key_of r = OfflineSpec.key r.
Proof.
  unfold Offline.key_of, Offline._review_key, OfflineSpec.key.
  by rewrite !normalize_whitespace_normalized, canonical_link_query_stripped.
Qed.

Lemma first_occurrences_first_of_each_key (rs : list Offline.record) :
  Offline.first_occurrences rs = OfflineSpec.first_of_each_key rs.
Proof.
  unfold Offline.first_occurrences, OfflineSpec.first_of_each_key.
  apply OfflineFacts.omap_imap_ext. intros i r _. simpl.
  rewrite key_of_key.
  by rewrite (list_fmap_ext Offline.key_of OfflineSpec.key (take i rs))
    by (intros; apply key_of_key).
Qed.

Lemma dedupe_pair (r1 r2 : Offline.record) :
  Offline._dedupe_records [r1; r2]
  = if bool_decide (OfflineSpec.key r1 = OfflineSpec.key r2)
    then [r1] else [r1; r2].
Proof.
  rewrite OfflineFacts.dedupe_first_occurrences.
  change [r1; r2] with ([r1] ++ [r2]).
  rewrite OfflineFacts.first_occurrences_snoc, !key_of_key.
  rewrite (bool_decide_ext _ (OfflineSpec.key r1 = OfflineSpec.key r2)).
  - by destruct (bool_decide _).
  - change (Offline.key_of <$> [r1]) with [Offline.key_of r1].
    rewrite list_elem_of_singleton, key_of_key. split; by intros ->.
Qed.

End OfflineKeyFacts.

(** C10.  The key of [_review_key] is the normalized four-field key:
    reviewer, date and text lower-cased and with their white space
    collapsed, and the link without its query.  [_dedupe_records]
    returns the records whose key did not appear earlier in the list, in
    the order of the list: the result is a subsequence of the input, no
    key occurs twice in it, and a second pass changes nothing.  Of two
    records the second one is dropped exactly when the keys are equal,
    so that records which differ in letter case, spacing or the query of
    the link only are merged.  Two records with one link and texts that
    differ once normalized are both kept, where the key of the scrapers
    is the same for both. *)
Theorem dedupe_records_first_occurrences (records : list Offline.record) :
  (∀ r : Offline.record,
     Offline._review_key (Offline.get r "reviewer") (Offline.get r "date")
       (Offline.get r "link") (Offline.get r "text")
     = OfflineSpec.key r)
  ∧ Offline._dedupe_records records = OfflineSpec.first_of_each_key records
  ∧ sublist (Offline._dedupe_records records) records
  ∧ NoDup (OfflineSpec.key <$> Offline._dedupe_records records)
  ∧ (∀ k, k ∈ OfflineSpec.key <$> Offline._dedupe_records records
          ↔ k ∈ OfflineSpec.key <$> records)
  ∧ Offline._dedupe_records (Offline._dedupe_records records)
    = Offline._dedupe_records records
  ∧ (∀ r1 r2 : Offline.record,
       Offline._dedupe_records [r1; r2]
       = if bool_decide (OfflineSpec.key r1 = OfflineSpec.key r2)
         then [r1] else [r1; r2])
  ∧ (∀ link reviewer1 date1 text1 reviewer2 date2 text2 : string,
       canonical_link (Some link) ≠ "" →
       OfflineSpec.normalized (Some text1) ≠ OfflineSpec.normalized (Some text2) →
       Offline._dedupe_records
         [Files.saved_record (Review reviewer1 date1 link text1);
          Files.saved_record (Review reviewer2 date2 link text2)]
       = [Files.saved_record (Review reviewer1 date1 link text1);
          Files.saved_record (Review reviewer2 date2 link text2)]
       ∧ stable_review_key reviewer1 date1 link text1
         = stable_review_key reviewer2 date2 link text2).
Proof.
  assert (OfflineSpec.key <$> Offline._dedupe_records records
          = Offline.key_of <$> Offline.first_occurrences records) as Hkeys.
  { rewrite OfflineFacts.dedupe_first_occurrences.
    apply list_fmap_ext. intros i r _. symmetry. apply OfflineKeyFacts.key_of_key. }
  split; [apply OfflineKeyFacts.key_of_key|].
  split; [rewrite OfflineFacts.dedupe_first_occurrences;
          apply OfflineKeyFacts.first_occurrences_first_of_each_key|].
  split; [rewrite OfflineFacts.dedupe_first_occurrences;
          apply OfflineFacts.first_occurrences_sublist|].
  split; [rewrite Hkeys; apply OfflineFacts.first_occurrences_NoDup|].
  split.
  { intros k. rewrite Hkeys, DedupeFacts.first_occurrences_keys.
    by rewrite (list_fmap_ext Offline.key_of OfflineSpec.key records)
      by (intros; apply OfflineKeyFacts.key_of_key). }
  split; [rewrite !OfflineFacts.dedupe_first_occurrences;
          apply OfflineFacts.first_occurrences_id,
                OfflineFacts.first_occurrences_NoDup|].
  split; [apply OfflineKeyFacts.dedupe_pair|].
  intros link ? ? ? ? ? ? Hlink Htext. split.
  - rewrite OfflineKeyFacts.dedupe_pair.
    rewrite bool_decide_eq_false_2; [done|].
    rewrite <- !OfflineKeyFacts.key_of_key, !DedupeFacts.key_of_saved_record.
    rewrite !OfflineKeyFacts.normalize_whitespace_normalized.
    intros [= _ _ H]. by apply Htext.
  - unfold stable_review_key.
    destruct (PyStr.truthy (canonical_link (Some link))) eqn:Ht; [done|].
    by apply PyStrFacts.truthy_false in Ht.
Qed.

Lemma dedupe_records_first_occurrences_witness :
  Offline._dedupe_records
    [Examples.first_row; Files.saved_record SavedExamples.tracked_review;
     Examples.second_row; Files.saved_record SavedExamples.retyped_review]
  = [Examples.first_row; Examples.second_row].
Proof.
  rewrite (proj1 (proj2 (dedupe_records_first_occurrences
                           [Examples.first_row;
                            Files.saved_record SavedExamples.tracked_review;
                            Examples.second_row;
                            Files.saved_record SavedExamples.retyped_review]))).
  vm_compute. reflexivity.
Defined.
